(** * Plugin manager: registry, lifecycle and sandbox loader

    A shallow embedding of the [PluginManager] class (index.ts) and of the
    helper [getValueFromJSON] (util.ts), with the properties of the design
    document stated and settled against it.  The last part proves further
    properties read off the code: round trips, invariants, error paths and
    what survives a restart.

    Conventions of the embedding:
    - a JavaScript object used as a string-keyed record is an association
      list in insertion order with one entry per key ([Rec]); this keeps the
      order that [for ... in] and object spread observe (keys that look like
      array indices, which JavaScript enumerates first, are not treated
      apart);
    - arrays are lists; [findIndex], [splice], [unshift] and indexed
      assignment are written with list functions;
    - the members that a plain object or an array inherits from
      [Object.prototype] and [Array.prototype] are listed by name, with
      functions as opaque values: the [in] test and the property reads of
      [getValueFromJSON], the truthiness test of [saveConfiguration] and the
      cache helpers handed to a plugin see them, as the code does with keys
      that a caller chooses; the registry tables are read by the keys the
      manager has put there;
    - a method is a function in the monad [M]: it threads the [World]
      (manager fields, disk, trace of effects) and either returns a value or
      throws; a throw keeps the mutations made before it, as in JavaScript;
    - [async] methods are run to completion in one piece: the class has no
      interleaving of its own, every [await] is on an external collaborator. *)

From Stdlib Require Import ZArith String Ascii List Bool Lia.
From stdpp Require Import base option list strings.
Import ListNotations.
Local Open Scope string_scope.
Local Open Scope Z_scope.
Set Warnings "-register-all".

(** ** JavaScript records: ordered association lists *)

Module Rec.
Section rec.
Context {V : Type}.

(** [o[k]] *)
Fixpoint get (o : list (string * V)) (k : string) : option V :=
  match o with
  | [] => None
  | (k', v) :: r => if String.eqb k' k then Some v else get r k
  end.

(** [k in o] for own properties *)
Definition has (o : list (string * V)) (k : string) : bool :=
  match get o k with Some _ => true | None => false end.

(** [o[k] = v]: overwrite in place, or append a new property *)
Fixpoint set (o : list (string * V)) (k : string) (v : V) : list (string * V) :=
  match o with
  | [] => [(k, v)]
  | (k', v') :: r =>
      if String.eqb k' k then (k, v) :: r else (k', v') :: set r k v
  end.

(** [delete o[k]] *)
Fixpoint del (o : list (string * V)) (k : string) : list (string * V) :=
  match o with
  | [] => []
  | (k', v') :: r =>
      if String.eqb k' k then del r k else (k', v') :: del r k
  end.

(** [{ ...a, ...b }] *)
Definition spread (a b : list (string * V)) : list (string * V) :=
  fold_left (fun acc kv => set acc (fst kv) (snd kv)) b a.

(** keys in enumeration order *)
Definition keys (o : list (string * V)) : list string := map fst o.

End rec.
End Rec.

(** ** JSON values

    The values that [JSON.parse] produces, plus the two other kinds of
    value that a property lookup on them can give: [undefined], and a built-in
    function (what an inherited member such as [constructor] or [toString]
    holds), named by where it is found.  Numbers are integers here: no
    modelled operation computes with them. *)

Inductive json : Type :=
| JUndefined
| JNull
| JBool (b : bool)
| JNum (z : Z)
| JStr (s : string)
| JArr (items : list json)
| JObj (fields : list (string * json))
| JFun (name : string).

(** [typeof v === "object"]: also true of [null] and of arrays, not of a
    function *)
Definition typeof_object (v : json) : bool :=
  match v with
  | JNull | JArr _ | JObj _ => true
  | _ => false
  end.

(** truthiness, as [current && ...] tests it *)
Definition truthy (v : json) : bool :=
  match v with
  | JUndefined | JNull => false
  | JBool b => b
  | JNum z => negb (z =? 0)
  | JStr s => negb (String.eqb s "")
  | JArr _ | JObj _ | JFun _ => true
  end.

Definition digit_of (c : ascii) : option nat :=
  let n := nat_of_ascii c in
  if (48 <=? n)%nat && (n <=? 57)%nat then Some (n - 48)%nat else None.

Fixpoint parse_digits (s : string) (acc : nat) : option nat :=
  match s with
  | EmptyString => Some acc
  | String c r =>
      match digit_of c with
      | Some d => parse_digits r (10 * acc + d)%nat
      | None => None
      end
  end.

(** A canonical array index: ["0"], or digits without a leading zero. *)
Definition parse_index (s : string) : option nat :=
  match s with
  | EmptyString => None
  | String c r =>
      if Ascii.eqb c "0"%char
      then (if String.eqb r "" then Some 0%nat else None)
      else parse_digits s 0
  end.

(** *** The built-in prototypes

    Every object that [JSON.parse] or an object literal creates inherits
    from [Object.prototype], every array from [Array.prototype] and through
    it from [Object.prototype]; [in] and indexing see the inherited members.
    The prototypes are taken as the runtime sets them up (the string-keyed
    members of the build target, Node 16), each written as the object it is:
    its own members, with [__proto__] holding its own prototype. *)

Definition object_prototype : list (string * json) :=
  [("constructor", JFun "Object");
   ("__defineGetter__", JFun "Object.prototype.__defineGetter__");
   ("__defineSetter__", JFun "Object.prototype.__defineSetter__");
   ("hasOwnProperty", JFun "Object.prototype.hasOwnProperty");
   ("__lookupGetter__", JFun "Object.prototype.__lookupGetter__");
   ("__lookupSetter__", JFun "Object.prototype.__lookupSetter__");
   ("isPrototypeOf", JFun "Object.prototype.isPrototypeOf");
   ("propertyIsEnumerable", JFun "Object.prototype.propertyIsEnumerable");
   ("toString", JFun "Object.prototype.toString");
   ("valueOf", JFun "Object.prototype.valueOf");
   ("toLocaleString", JFun "Object.prototype.toLocaleString");
   ("__proto__", JNull)].

Definition array_methods : list string :=
  ["at"; "concat"; "copyWithin"; "fill"; "find"; "findIndex"; "lastIndexOf"; "pop";
   "push"; "reverse"; "shift"; "unshift"; "slice"; "sort"; "splice"; "includes";
   "indexOf"; "join"; "keys"; "entries"; "values"; "forEach"; "filter"; "flat";
   "flatMap"; "map"; "every"; "some"; "reduce"; "reduceRight"; "toLocaleString";
   "toString"].

Definition array_prototype : list (string * json) :=
  (("length", JNum 0) :: ("constructor", JFun "Array")
   :: map (fun m => (m, JFun ("Array.prototype." ++ m))) array_methods
   ++ [("__proto__", JObj object_prototype)])%list.

(** the name of a member that every plain object inherits *)
Definition inherited_name (k : string) : bool := Rec.has object_prototype k.

(** what a plain object inherits under [k] *)
Definition inherited_of_object (k : string) : option json :=
  if String.eqb k "__proto__" then Some (JObj object_prototype)
  else Rec.get object_prototype k.

(** what an array inherits under [k] *)
Definition inherited_of_array (k : string) : option json :=
  if String.eqb k "__proto__" then Some (JObj array_prototype)
  else match Rec.get array_prototype k with
       | Some v => Some v
       | None => Rec.get object_prototype k
       end.

(** The own property [k] of a value, when it has one: the fields of an
    object; the elements and the [length] of an array. *)
Definition own_member (v : json) (k : string) : option json :=
  match v with
  | JObj fields => Rec.get fields k
  | JArr items =>
      if String.eqb k "length" then Some (JNum (Z.of_nat (length items)))
      else match parse_index k with
           | Some i => nth_error items i
           | None => None
           end
  | _ => None
  end.

(** The property [k] of an object or array, own or inherited: what [in]
    tests and what indexing returns.  An own property hides an inherited
    one. *)
Definition member (v : json) (k : string) : option json :=
  match own_member v k with
  | Some x => Some x
  | None =>
      match v with
      | JObj _ => inherited_of_object k
      | JArr _ => inherited_of_array k
      | _ => None
      end
  end.

(** [key in current] *)
Definition js_in (key : string) (current : json) : bool :=
  match member current key with Some _ => true | None => false end.

(** [current[key]] *)
Definition js_index (current : json) (key : string) : json :=
  match member current key with Some v => v | None => JUndefined end.

(** [valuePath.split(".")] *)
Fixpoint split (sep : ascii) (s : string) : list string :=
  match s with
  | EmptyString => [""]
  | String c r =>
      if Ascii.eqb c sep then "" :: split sep r
      else match split sep r with
           | [] => [String c ""]
           | h :: t => String c h :: t
           end
  end.

(** The loop of [getValueFromJSON] over the keys of the path. *)
Fixpoint getValueFromKeys (current : json) (keys : list string) : json :=
  match keys with
  | [] => current
  | key :: rest =>
      if truthy current && typeof_object current && js_in key current
      then getValueFromKeys (js_index current key) rest
      else JUndefined
  end.

Definition getValueFromJSON (j : json) (valuePath : string) : json :=
  getValueFromKeys j (split "."%char valuePath).

(** ** Data model (types.ts) *)

Inductive PluginType := translate | summarize | download | tts | transcription.

Module Plugin.
Record t := mk {
  file : string;
  pluginId : string;
  version : string;
  version_name : string;
  title : string;
  type : PluginType;
  description : string;
  category : string;
  platforms : list string;
  arch : list string;
  icon : string;
  link : string;
  author : string;
  homepage : string;
  source : string;
  hash : option string
}.
End Plugin.

(** [MemoPlugins]: the shape of index.json and plugins.json *)
Record MemoPlugins := {
  plugins : list Plugin.t;
  versions : list (string * string)
}.

Inductive ControlType :=
  ctl_password | ctl_text | ctl_number | ctl_checkbox | ctl_select | ctl_slider.

Module ManifestConfiguration.
Record t := mk {
  label : string;
  key : string;
  type : ControlType;
  placeholder : string;
  description : string;
  helpText : string;
  searchPlaceholder : option string;
  emptyPlaceholder : option string;
  range : option (Z * Z * Z);
  options : option (list (string * string));
  useI18nOptions : option bool;
  inherit : option string
}.
End ManifestConfiguration.

Inductive ImportType := import_module | import_sandbox.

Module Provider.
Record t := mk {
  value : string;
  label : string;
  disabled : option bool
}.
End Provider.

Module Manifest.
Record t := mk {
  manifestVersion : string;
  version : string;
  version_name : string;
  title : string;
  description : string;
  type : PluginType;
  pluginId : string;
  category : string;
  platforms : list string;
  arch : list string;
  icon : string;
  link : string;
  author : string;
  homepage : string;
  source : string;
  importType : option ImportType;
  provider : Provider.t;
  configuration : list ManifestConfiguration.t;
  defaultsConfiguration : list (string * json);
  configurationRequired : list string;
  configurationExposed : list string
}.
End Manifest.

(** [I18n]: locale code to translations *)
Definition I18n := list (string * list (string * string)).

Definition empty_i18n : I18n :=
  [("en", []); ("zh", []); ("zh_tw", []); ("ja", []); ("ko", []);
   ("es", []); ("de", []); ("it", [])].

(** [PluginProvider]: the manifest's provider with [pluginId] and [type] *)
Module PluginProvider.
Record t := mk {
  value : string;
  label : string;
  disabled : option bool;
  pluginId : string;
  type : PluginType
}.
End PluginProvider.

(** [{ ...provider, pluginId, type }] *)
Definition provider_entry (p : Provider.t) (id : string) (ty : PluginType)
  : PluginProvider.t :=
  PluginProvider.mk (Provider.value p) (Provider.label p) (Provider.disabled p) id ty.

(** What a loaded plugin is to its caller: an object with an identity. *)
Record Handle := { href : nat; hfile : string }.

(** ** The manager's fields *)

Record PluginManager := {
  pluginsCache : list (string * list (string * json));
  installedPlugins : list (string * Plugin.t);
  pluginsConfigurations : list (string * list (string * json));
  installedPluginsManifests : list (string * Manifest.t);
  installedPluginsI18ns : list (string * I18n);
  importedPlugins : list (string * Handle);
  pluginProviders : list PluginProvider.t;
  localPlugins : MemoPlugins;
  onlinePlugins : MemoPlugins;
  location : string;
  presetLocation : string;
  requestUrl : string;
  removeDefaultPlugins : bool
}.

Definition empty_catalog : MemoPlugins := {| plugins := []; versions := [] |}.

(** The field initialisers and the constructor's assignments. *)
Definition new_manager (loc preset url : string) (remove : bool) : PluginManager :=
  {| pluginsCache := []; installedPlugins := []; pluginsConfigurations := [];
     installedPluginsManifests := []; installedPluginsI18ns := [];
     importedPlugins := []; pluginProviders := [];
     localPlugins := empty_catalog; onlinePlugins := empty_catalog;
     location := loc; presetLocation := preset; requestUrl := url;
     removeDefaultPlugins := remove |}.

(** ** The disk

    The files the manager reads and writes live at fixed names under the
    install root, so the disk is a record of those slots.  A file is absent,
    present but not parseable, or present with parsed content of the shape
    the code casts it to. *)

Inductive ondisk (A : Type) : Type :=
| Absent
| Malformed
| Content (a : A).
Arguments Absent {A}.
Arguments Malformed {A}.
Arguments Content {A} a.

Definition existsSync {A} (f : ondisk A) : bool :=
  match f with Absent => false | _ => true end.

(** The entry code of a plugin: its text, and whether evaluating it throws. *)
Record Script := { script_source : string; script_throws : bool }.

(** A plugin directory: the files the manager looks at. *)
Record Folder := {
  manifest_json : ondisk Manifest.t;
  i18n_json : ondisk I18n;
  index_js : ondisk Script
}.

Definition empty_folder : Folder :=
  {| manifest_json := Absent; i18n_json := Absent; index_js := Absent |}.

Definition overwrite {A} (old new : ondisk A) : ondisk A :=
  match new with Absent => old | _ => new end.

(** Copying or extracting [src] over [dst]: files of [src] replace those of
    [dst], the others stay. *)
Definition merge_folder (dst src : Folder) : Folder :=
  {| manifest_json := overwrite (manifest_json dst) (manifest_json src);
     i18n_json := overwrite (i18n_json dst) (i18n_json src);
     index_js := overwrite (index_js dst) (index_js src) |}.

(** An archive either fails to extract or unpacks to the directory that
    holds its manifest. *)
Inductive Archive := ArchiveCorrupt | ArchiveOf (payload : Folder).

(** [folders] are the directories under the install root, by name;
    [preset_files] is the listing of the preset directory ([None] when the
    directory does not exist); [archives] are the archive files, by path;
    [locked] are the paths of the files that the file system refuses to remove
    (held open, or not permitted). *)
Record Disk := {
  index_json : ondisk MemoPlugins;
  configuration_json : ondisk (list (string * list (string * json)));
  cache_json : ondisk (list (string * list (string * json)));
  plugins_json : ondisk MemoPlugins;
  preset_plugins_json : ondisk MemoPlugins;
  folders : list (string * Folder);
  preset_files : option (list string);
  archives : list (string * Archive);
  locked : list string
}.

(** ** Effects *)

Inductive Event :=
| EWriteFile (name : string)
| EUnzip (archive dest : string)
| ECopyFolder (dest : string)
| ERemoveFolder (name : string)
| ERemoveFile (path : string)
| EDownload (url : string)
| ERun (file : string).

(** The manager, the disk, the effects performed so far, and the part of
    the Node runtime that loading touches: a supply of object identities,
    the module cache of [require], and the plugin the process-wide
    [pluginCache] accessor is bound to. *)
Record World := {
  mgr : PluginManager;
  disk : Disk;
  trace : list Event;
  next_ref : nat;
  require_cache : list (string * Handle);
  global_pluginCache : option (option string)
}.

(** What a method can end with instead of a value.  All but the last are
    the exceptions of the program.  [Outside] is not an exception: the run
    goes on in the program, but by reading or writing a built-in object shared
    by the whole process ([Object.prototype], a built-in function), or by
    replacing the prototype of a record; the embedding takes the built-ins as
    the runtime sets them up, gives every record the prototype of a plain
    object, and does not follow such a run further. *)
Inductive exn :=
| ENOENT (path : string)
| SyntaxError (path : string)
| TypeError (what : string)
| ExtractError (path : string)
| NetworkError
| ScriptError (file : string)
| Outside (what : string).

Inductive result (A : Type) : Type :=
| Ok (a : A)
| Throw (e : exn).
Arguments Ok {A} a.
Arguments Throw {A} e.

Definition M (A : Type) : Type := World -> result A * World.

Definition ret {A} (a : A) : M A := fun w => (Ok a, w).
Definition throw {A} (e : exn) : M A := fun w => (Throw e, w).
Definition bind {A B} (m : M A) (k : A -> M B) : M B :=
  fun w => match m w with
           | (Ok a, w') => k a w'
           | (Throw e, w') => (Throw e, w')
           end.
Definition gets {A} (f : World -> A) : M A := fun w => (Ok (f w), w).
Definition modify (f : World -> World) : M unit := fun w => (Ok tt, f w).

Declare Scope js_scope.
Delimit Scope js_scope with js.
Notation "x <- m ;; k" := (bind m (fun x => k))
  (at level 100, m at next level, right associativity) : js_scope.
Notation "m ;;; k" := (bind m (fun _ => k))
  (at level 100, right associativity) : js_scope.
Local Open Scope js_scope.

(** ** Field updates *)

Definition with_mgr (f : PluginManager -> PluginManager) (w : World) : World :=
  {| mgr := f (mgr w); disk := disk w; trace := trace w; next_ref := next_ref w;
     require_cache := require_cache w; global_pluginCache := global_pluginCache w |}.

Definition with_disk (f : Disk -> Disk) (w : World) : World :=
  {| mgr := mgr w; disk := f (disk w); trace := trace w; next_ref := next_ref w;
     require_cache := require_cache w; global_pluginCache := global_pluginCache w |}.

Definition log (e : Event) : M unit :=
  modify (fun w => {| mgr := mgr w; disk := disk w; trace := trace w ++ [e];
                      next_ref := next_ref w; require_cache := require_cache w;
                      global_pluginCache := global_pluginCache w |}).

Definition set_pluginsCache v (m : PluginManager) : PluginManager :=
  {| pluginsCache := v; installedPlugins := installedPlugins m;
     pluginsConfigurations := pluginsConfigurations m;
     installedPluginsManifests := installedPluginsManifests m;
     installedPluginsI18ns := installedPluginsI18ns m;
     importedPlugins := importedPlugins m; pluginProviders := pluginProviders m;
     localPlugins := localPlugins m; onlinePlugins := onlinePlugins m;
     location := location m; presetLocation := presetLocation m;
     requestUrl := requestUrl m; removeDefaultPlugins := removeDefaultPlugins m |}.

Definition set_installedPlugins v (m : PluginManager) : PluginManager :=
  {| pluginsCache := pluginsCache m; installedPlugins := v;
     pluginsConfigurations := pluginsConfigurations m;
     installedPluginsManifests := installedPluginsManifests m;
     installedPluginsI18ns := installedPluginsI18ns m;
     importedPlugins := importedPlugins m; pluginProviders := pluginProviders m;
     localPlugins := localPlugins m; onlinePlugins := onlinePlugins m;
     location := location m; presetLocation := presetLocation m;
     requestUrl := requestUrl m; removeDefaultPlugins := removeDefaultPlugins m |}.

Definition set_pluginsConfigurations v (m : PluginManager) : PluginManager :=
  {| pluginsCache := pluginsCache m; installedPlugins := installedPlugins m;
     pluginsConfigurations := v;
     installedPluginsManifests := installedPluginsManifests m;
     installedPluginsI18ns := installedPluginsI18ns m;
     importedPlugins := importedPlugins m; pluginProviders := pluginProviders m;
     localPlugins := localPlugins m; onlinePlugins := onlinePlugins m;
     location := location m; presetLocation := presetLocation m;
     requestUrl := requestUrl m; removeDefaultPlugins := removeDefaultPlugins m |}.

Definition set_installedPluginsManifests v (m : PluginManager) : PluginManager :=
  {| pluginsCache := pluginsCache m; installedPlugins := installedPlugins m;
     pluginsConfigurations := pluginsConfigurations m;
     installedPluginsManifests := v;
     installedPluginsI18ns := installedPluginsI18ns m;
     importedPlugins := importedPlugins m; pluginProviders := pluginProviders m;
     localPlugins := localPlugins m; onlinePlugins := onlinePlugins m;
     location := location m; presetLocation := presetLocation m;
     requestUrl := requestUrl m; removeDefaultPlugins := removeDefaultPlugins m |}.

Definition set_installedPluginsI18ns v (m : PluginManager) : PluginManager :=
  {| pluginsCache := pluginsCache m; installedPlugins := installedPlugins m;
     pluginsConfigurations := pluginsConfigurations m;
     installedPluginsManifests := installedPluginsManifests m;
     installedPluginsI18ns := v;
     importedPlugins := importedPlugins m; pluginProviders := pluginProviders m;
     localPlugins := localPlugins m; onlinePlugins := onlinePlugins m;
     location := location m; presetLocation := presetLocation m;
     requestUrl := requestUrl m; removeDefaultPlugins := removeDefaultPlugins m |}.

Definition set_importedPlugins v (m : PluginManager) : PluginManager :=
  {| pluginsCache := pluginsCache m; installedPlugins := installedPlugins m;
     pluginsConfigurations := pluginsConfigurations m;
     installedPluginsManifests := installedPluginsManifests m;
     installedPluginsI18ns := installedPluginsI18ns m;
     importedPlugins := v; pluginProviders := pluginProviders m;
     localPlugins := localPlugins m; onlinePlugins := onlinePlugins m;
     location := location m; presetLocation := presetLocation m;
     requestUrl := requestUrl m; removeDefaultPlugins := removeDefaultPlugins m |}.

Definition set_pluginProviders v (m : PluginManager) : PluginManager :=
  {| pluginsCache := pluginsCache m; installedPlugins := installedPlugins m;
     pluginsConfigurations := pluginsConfigurations m;
     installedPluginsManifests := installedPluginsManifests m;
     installedPluginsI18ns := installedPluginsI18ns m;
     importedPlugins := importedPlugins m; pluginProviders := v;
     localPlugins := localPlugins m; onlinePlugins := onlinePlugins m;
     location := location m; presetLocation := presetLocation m;
     requestUrl := requestUrl m; removeDefaultPlugins := removeDefaultPlugins m |}.

Definition set_localPlugins v (m : PluginManager) : PluginManager :=
  {| pluginsCache := pluginsCache m; installedPlugins := installedPlugins m;
     pluginsConfigurations := pluginsConfigurations m;
     installedPluginsManifests := installedPluginsManifests m;
     installedPluginsI18ns := installedPluginsI18ns m;
     importedPlugins := importedPlugins m; pluginProviders := pluginProviders m;
     localPlugins := v; onlinePlugins := onlinePlugins m;
     location := location m; presetLocation := presetLocation m;
     requestUrl := requestUrl m; removeDefaultPlugins := removeDefaultPlugins m |}.

Definition set_onlinePlugins v (m : PluginManager) : PluginManager :=
  {| pluginsCache := pluginsCache m; installedPlugins := installedPlugins m;
     pluginsConfigurations := pluginsConfigurations m;
     installedPluginsManifests := installedPluginsManifests m;
     installedPluginsI18ns := installedPluginsI18ns m;
     importedPlugins := importedPlugins m; pluginProviders := pluginProviders m;
     localPlugins := localPlugins m; onlinePlugins := v;
     location := location m; presetLocation := presetLocation m;
     requestUrl := requestUrl m; removeDefaultPlugins := removeDefaultPlugins m |}.

Definition set_index_json v (d : Disk) : Disk :=
  {| index_json := v; configuration_json := configuration_json d;
     cache_json := cache_json d; plugins_json := plugins_json d;
     preset_plugins_json := preset_plugins_json d; folders := folders d;
     preset_files := preset_files d; archives := archives d; locked := locked d |}.

Definition set_configuration_json v (d : Disk) : Disk :=
  {| index_json := index_json d; configuration_json := v;
     cache_json := cache_json d; plugins_json := plugins_json d;
     preset_plugins_json := preset_plugins_json d; folders := folders d;
     preset_files := preset_files d; archives := archives d; locked := locked d |}.

Definition set_cache_json v (d : Disk) : Disk :=
  {| index_json := index_json d; configuration_json := configuration_json d;
     cache_json := v; plugins_json := plugins_json d;
     preset_plugins_json := preset_plugins_json d; folders := folders d;
     preset_files := preset_files d; archives := archives d; locked := locked d |}.

Definition set_plugins_json v (d : Disk) : Disk :=
  {| index_json := index_json d; configuration_json := configuration_json d;
     cache_json := cache_json d; plugins_json := v;
     preset_plugins_json := preset_plugins_json d; folders := folders d;
     preset_files := preset_files d; archives := archives d; locked := locked d |}.

Definition set_folders v (d : Disk) : Disk :=
  {| index_json := index_json d; configuration_json := configuration_json d;
     cache_json := cache_json d; plugins_json := plugins_json d;
     preset_plugins_json := preset_plugins_json d; folders := v;
     preset_files := preset_files d; archives := archives d; locked := locked d |}.

Definition set_preset v a (d : Disk) : Disk :=
  {| index_json := index_json d; configuration_json := configuration_json d;
     cache_json := cache_json d; plugins_json := plugins_json d;
     preset_plugins_json := preset_plugins_json d; folders := folders d;
     preset_files := v; archives := a; locked := locked d |}.

Definition set_archives a (d : Disk) : Disk := set_preset (preset_files d) a d.

(** ** File system and JSON helpers *)

(** [path.resolve(base, rel)] for a relative [rel] *)
Definition resolve (base rel : string) : string := base ++ "/" ++ rel.

(** [path.resolve(base, p)]: an absolute [p] wins *)
Definition resolve_any (base p : string) : string :=
  match p with
  | String "/"%char _ => p
  | _ => resolve base p
  end.

(** What [JSON.parse(JSON.stringify(v))] gives back: properties holding
    [undefined] or a function are dropped, such array elements become
    [null]. *)
Fixpoint json_roundtrip (v : json) : json :=
  match v with
  | JArr items =>
      JArr (map (fun x => match x with
                          | JUndefined | JFun _ => JNull
                          | _ => json_roundtrip x
                          end) items)
  | JObj fields =>
      JObj ((fix go (l : list (string * json)) : list (string * json) :=
               match l with
               | [] => []
               | (k, JUndefined) :: r => go r
               | (k, JFun _) :: r => go r
               | (k, x) :: r => (k, json_roundtrip x) :: go r
               end) fields)
  | _ => v
  end.

Definition roundtrip_fields (o : list (string * json)) : list (string * json) :=
  match json_roundtrip (JObj o) with JObj o' => o' | _ => [] end.

Definition roundtrip_store (s : list (string * list (string * json)))
  : list (string * list (string * json)) :=
  map (fun kv => (fst kv, roundtrip_fields (snd kv))) s.

(** [JSON.parse(fs.readFileSync(name))] *)
Definition readJSON {A} (name : string) (f : ondisk A) : M A :=
  match f with
  | Absent => throw (ENOENT name)
  | Malformed => throw (SyntaxError name)
  | Content a => ret a
  end.

Definition write_index (c : MemoPlugins) : M unit :=
  modify (with_disk (set_index_json (Content c))) ;;; log (EWriteFile "index.json").

Definition write_configuration (s : list (string * list (string * json))) : M unit :=
  modify (with_disk (set_configuration_json (Content (roundtrip_store s)))) ;;;
  log (EWriteFile "configuration.json").

Definition write_cache (s : list (string * list (string * json))) : M unit :=
  modify (with_disk (set_cache_json (Content (roundtrip_store s)))) ;;;
  log (EWriteFile "cache.json").

Definition write_plugins (c : MemoPlugins) : M unit :=
  modify (with_disk (set_plugins_json (Content c))) ;;; log (EWriteFile "plugins.json").

Definition folder_at (d : Disk) (name : string) : Folder :=
  match Rec.get (folders d) name with Some f => f | None => empty_folder end.

(** [fsa.ensureDir] *)
Definition ensureDir (name : string) : M unit :=
  modify (with_disk (fun d =>
    if Rec.has (folders d) name then d
    else set_folders (Rec.set (folders d) name empty_folder) d)).

(** [unzipFile(zipFilePath, outputFolderPath)] *)
Definition unzipFile (zipFilePath dest : string) : M unit :=
  ensureDir dest ;;;
  a <- gets (fun w => Rec.get (archives (disk w)) zipFilePath) ;;
  match a with
  | None => throw (ENOENT zipFilePath)
  | Some ArchiveCorrupt => throw (ExtractError zipFilePath)
  | Some (ArchiveOf payload) =>
      modify (with_disk (fun d =>
        set_folders (Rec.set (folders d) dest (merge_folder (folder_at d dest) payload)) d)) ;;;
      log (EUnzip zipFilePath dest)
  end.

(** [findFileInFolder(dir, "manifest.json")]: the directory that holds the
    manifest, or [false]. *)
Definition findFileInFolder (dir : string) : M (option string) :=
  gets (fun w => if existsSync (manifest_json (folder_at (disk w) dir))
                 then Some dir else None).

(** [copyFolder(source, destination)]: logs a failure, never throws *)
Definition copyFolder (src dest : string) : M unit :=
  modify (with_disk (fun d =>
    set_folders (Rec.set (folders d) dest
                   (merge_folder (folder_at d dest) (folder_at d src))) d)) ;;;
  log (ECopyFolder dest).

Definition removeFolder (name : string) : M unit :=
  modify (with_disk (fun d => set_folders (Rec.del (folders d) name) d)) ;;;
  log (ERemoveFolder name).

(** [array.findIndex(f)]; [None] is [-1] *)
Fixpoint findIndex {A} (f : A -> bool) (l : list A) : option nat :=
  match l with
  | [] => None
  | x :: r => if f x then Some 0%nat else option_map S (findIndex f r)
  end.

Definition has_id (id : string) (p : Plugin.t) : bool := String.eqb (Plugin.pluginId p) id.

Definition provider_has_id (id : string) (p : PluginProvider.t) : bool :=
  String.eqb (PluginProvider.pluginId p) id.

(** The key ["{pluginId}@{version}"] *)
Definition versioned (id ver : string) : string := id ++ "@" ++ ver.

(** The descriptor both install paths build from a manifest. *)
Definition descriptor (root : string) (data : Manifest.t) : Plugin.t :=
  let dir := versioned (Manifest.pluginId data) (Manifest.version data) in
  {| Plugin.file := resolve root (dir ++ "/index.js");
     Plugin.pluginId := Manifest.pluginId data;
     Plugin.version := Manifest.version data;
     Plugin.version_name := Manifest.version_name data;
     Plugin.title := Manifest.title data;
     Plugin.type := Manifest.type data;
     Plugin.description := Manifest.description data;
     Plugin.category := Manifest.category data;
     Plugin.platforms := Manifest.platforms data;
     Plugin.arch := Manifest.arch data;
     Plugin.icon := resolve root (dir ++ "/icon.svg");
     Plugin.link := Manifest.link data;
     Plugin.author := Manifest.author data;
     Plugin.homepage := Manifest.source data;
     Plugin.source := Manifest.source data;
     Plugin.hash := None |}.

(** [i18n.json] of a plugin directory, or the empty bundle *)
Definition read_i18n (dir : string) : M I18n :=
  f <- gets (fun w => i18n_json (folder_at (disk w) dir)) ;;
  if existsSync f then readJSON (dir ++ "/i18n.json") f else ret empty_i18n.

(** [x || {}] on an optional record *)
Definition or_empty {V} (o : option (list (string * V))) : list (string * V) :=
  match o with Some c => c | None => [] end.

(** ** The methods of [PluginManager] *)

Definition getAllData : M PluginManager := gets mgr.

(** The seed configuration: every field with a non-empty [inherit] path gets
    the value found at that path in the host settings. *)
Definition inheritPluginsConfigurations (data : Manifest.t) (setting : json)
  : list (string * json) :=
  fold_left
    (fun acc c =>
       match ManifestConfiguration.inherit c with
       | Some path =>
           if String.eqb path "" then acc
           else Rec.set acc (ManifestConfiguration.key c) (getValueFromJSON setting path)
       | None => acc
       end)
    (Manifest.configuration data) [].

(** [installPlugins(pluginsPacks, setting)] is written in two parts.  The
    first, [unpack], is the body up to the reading of i18n.json: it extracts
    the archive into the directory [uuid] (what [generateUUID] returns),
    finds and parses the manifest, copies the bundle to its versioned
    directory and removes the temporary one.  It yields the manifest and the
    localization bundle, or [None] when no manifest is found. *)
Definition unpack (uuid : string) (pluginsPacks : list string)
  : M (option (Manifest.t * I18n)) :=
  let dist := uuid in
  ensureDir dist ;;;
  pack <- match pluginsPacks with
          | [] => throw (TypeError "pluginsPacks[0]")
          | p :: _ => ret p
          end ;;
  unzipFile pack dist ;;;
  manifest <- findFileInFolder dist ;;
  match manifest with
  | None => ret None
  | Some dir =>
      data <- (f <- gets (fun w => manifest_json (folder_at (disk w) dir)) ;;
               readJSON (dir ++ "/manifest.json") f) ;;
      let target := versioned (Manifest.pluginId data) (Manifest.version data) in
      copyFolder dir target ;;;
      removeFolder dist ;;;
      i18n <- read_i18n target ;;
      ret (Some (data, i18n))
  end.

(** The second part, [register], is the rest of the body: the update of the
    registry and the two writes. *)
Definition register (data : Manifest.t) (i18n : I18n) (setting : json)
  : M (option PluginManager) :=
  loc <- gets (fun w => location (mgr w)) ;;
  let plugin := descriptor loc data in
  let target := versioned (Manifest.pluginId data) (Manifest.version data) in
  lp <- gets (fun w => localPlugins (mgr w)) ;;
  cfgs <- gets (fun w => pluginsConfigurations (mgr w)) ;;
  let pluginIndex := findIndex (has_id (Plugin.pluginId plugin)) (plugins lp) in
  let '(plugins', oldPluginsConfigurations) :=
    match pluginIndex with
    | Some i =>
        match plugins lp !! i with
        | Some oldPlugin =>
            (<[i := plugin]> (plugins lp),
             or_empty (Rec.get cfgs (versioned (Plugin.pluginId oldPlugin)
                                                (Plugin.version oldPlugin))))
        | None => (plugins lp, [])
        end
    | None => (plugin :: plugins lp, [])
    end in
  modify (with_mgr (fun m =>
    set_localPlugins
      {| plugins := plugins';
         versions := Rec.set (versions lp) (Plugin.pluginId plugin) (Plugin.version plugin) |}
      m)) ;;;
  modify (with_mgr (fun m =>
    set_installedPlugins (Rec.set (installedPlugins m) (Plugin.pluginId plugin) plugin) m)) ;;;
  modify (with_mgr (fun m =>
    set_installedPluginsManifests
      (Rec.set (installedPluginsManifests m) (Plugin.pluginId plugin) data) m)) ;;;
  modify (with_mgr (fun m =>
    set_installedPluginsI18ns
      (Rec.set (installedPluginsI18ns m) (Plugin.pluginId plugin) i18n) m)) ;;;
  let inherited := inheritPluginsConfigurations data setting in
  modify (with_mgr (fun m =>
    set_pluginsConfigurations
      (Rec.set (pluginsConfigurations m) target
               (Rec.spread inherited oldPluginsConfigurations)) m)) ;;;
  modify (with_mgr (fun m =>
    match findIndex (provider_has_id (Plugin.pluginId plugin)) (pluginProviders m) with
    | None =>
        set_pluginProviders
          (pluginProviders m ++
           [provider_entry (Manifest.provider data) (Plugin.pluginId plugin)
                           (Plugin.type plugin)]) m
    | Some _ => m
    end)) ;;;
  (lp' <- gets (fun w => localPlugins (mgr w)) ;; write_index lp') ;;;
  (c' <- gets (fun w => pluginsConfigurations (mgr w)) ;; write_configuration c') ;;;
  messageData <- getAllData ;;
  ret (Some messageData).

Definition installPlugins (uuid : string) (pluginsPacks : list string) (setting : json)
  : M (option PluginManager) :=
  found <- unpack uuid pluginsPacks ;;
  match found with
  | None => ret None
  | Some (data, i18n) => register data i18n setting
  end.

(** [uninstallPlugin(pluginId)] *)
Definition uninstallPlugin (pluginId : string) : M PluginManager :=
  list <- gets (fun w => plugins (localPlugins (mgr w))) ;;
  let index := findIndex (has_id pluginId) list in
  let deletedPlugin := match index with Some i => list !! i | None => None end in
  (match index with
   | Some i =>
       modify (with_mgr (fun m =>
         set_localPlugins {| plugins := delete i (plugins (localPlugins m));
                             versions := versions (localPlugins m) |} m))
   | None => ret tt
   end) ;;;
  modify (with_mgr (fun m =>
    set_localPlugins {| plugins := plugins (localPlugins m);
                        versions := Rec.del (versions (localPlugins m)) pluginId |} m)) ;;;
  modify (with_mgr (fun m =>
    set_installedPlugins (Rec.del (installedPlugins m) pluginId) m)) ;;;
  modify (with_mgr (fun m =>
    set_installedPluginsManifests (Rec.del (installedPluginsManifests m) pluginId) m)) ;;;
  modify (with_mgr (fun m =>
    set_installedPluginsI18ns (Rec.del (installedPluginsI18ns m) pluginId) m)) ;;;
  (match deletedPlugin with
   | Some d =>
       modify (with_mgr (fun m =>
         set_pluginsConfigurations
           (Rec.del (pluginsConfigurations m)
                    (versioned (Plugin.pluginId d) (Plugin.version d))) m))
   | None => ret tt
   end) ;;;
  modify (with_mgr (fun m =>
    match findIndex (provider_has_id pluginId) (pluginProviders m) with
    | Some i => set_pluginProviders (delete i (pluginProviders m)) m
    | None => m
    end)) ;;;
  (lp <- gets (fun w => localPlugins (mgr w)) ;; write_index lp) ;;;
  (c <- gets (fun w => pluginsConfigurations (mgr w)) ;; write_configuration c) ;;;
  (match deletedPlugin with
   | Some d => removeFolder (versioned (Plugin.pluginId d) (Plugin.version d))
   | None => ret tt
   end) ;;;
  getAllData.

(** [saveConfiguration(pluginId, data)].  The test
    [if (this.installedPlugins[pluginId])] is a test of truthiness of a lookup
    on a plain object: it passes for an installed descriptor, and also for a
    pluginId that names a member the object inherits (a built-in, which is
    truthy and has no [version]: the key is then ["{pluginId}@undefined"]). *)
Definition saveConfiguration (pluginId : string) (data : list (string * json))
  : M PluginManager :=
  ip <- gets (fun w => Rec.get (installedPlugins (mgr w)) pluginId) ;;
  (match match ip with
         | Some p => Some (Plugin.version p)
         | None => if inherited_name pluginId then Some "undefined" else None
         end with
   | Some version =>
       modify (with_mgr (fun m =>
         set_pluginsConfigurations
           (Rec.set (pluginsConfigurations m) (versioned pluginId version) data) m)) ;;;
       (c <- gets (fun w => pluginsConfigurations (mgr w)) ;; write_configuration c)
   | None => ret tt
   end) ;;;
  getAllData.

(** *** Catalog refresh *)

(** The body of the catalog response, as the code inspects it:
    [res.success] and [res.data]. *)
Record ResponseBody := {
  success : bool;
  data : option (list Plugin.t)
}.

(** What [await axios.get(requestUrl)] does: it rejects (timeout, transport
    error, error status) or yields a response whose [data] is a body, or a
    falsy value. *)
Inductive FetchResult :=
| FetchRejected
| FetchResponse (res : option ResponseBody).

Definition versions_of (l : list Plugin.t) : list (string * string) :=
  fold_left (fun vs p => Rec.set vs (Plugin.pluginId p) (Plugin.version p)) l [].

(** [getOnlinePlugins({ agent })] *)
Definition getOnlinePlugins (fetch : FetchResult) : M MemoPlugins :=
  response <- match fetch with
              | FetchRejected => throw NetworkError
              | FetchResponse res => ret res
              end ;;
  match response with
  | Some {| success := true; data := Some l |} =>
      let data := {| plugins := l; versions := versions_of l |} in
      write_plugins data ;;;
      ret data
  | _ =>
      f <- gets (fun w => plugins_json (disk w)) ;;
      if existsSync f then readJSON "plugins.json" f
      else ret empty_catalog
  end.

(** [refreshOnlinePlugins({ agent })] *)
Definition refreshOnlinePlugins (fetch : FetchResult) : M PluginManager :=
  res <- getOnlinePlugins fetch ;;
  modify (with_mgr (set_onlinePlugins res)) ;;;
  getAllData.

(** *** Online install *)

(** The state of the promise a method hands back. *)
Inductive Promise (A : Type) : Type :=
| Pending
| Resolved (a : A)
| Rejected (e : exn).
Arguments Pending {A}.
Arguments Resolved {A} a.
Arguments Rejected {A} e.

(** What [downloadFile] meets: a request that fails (the error callback is
    called); a request that succeeds while the transfer to the file does not
    finish (the stream or the writer fails, or the final rename does: neither
    callback is called); or a file saved (the completion callback is
    called). *)
Inductive DownloadResult :=
| DownloadFails
| DownloadStalls
| Downloaded (a : Archive).

(** [installOnlinePlugins(pluginId, { agent })].  The executor of the
    promise looks the plugin up in the online catalog and does nothing else
    when it is not there.  A throw of [installPlugins] inside the completion
    callback is not connected to the promise. *)
Definition installOnlinePlugins (uuid : string) (pluginId : string)
    (net : DownloadResult) (w : World) : Promise PluginManager * World :=
  match find (has_id pluginId) (plugins (onlinePlugins (mgr w))) with
  | Some online =>
      let savePath := resolve (location (mgr w)) "_download" in
      let '(_, w1) := log (EDownload (Plugin.link online)) w in
      match net with
      | DownloadFails => (Rejected NetworkError, w1)
      | DownloadStalls => (Pending, w1)
      | Downloaded a =>
          let w2 := with_disk (fun d => set_archives (Rec.set (archives d) savePath a) d) w1 in
          match (installPlugins uuid [savePath] JUndefined ;;; getAllData) w2 with
          | (Ok all, w3) => (Resolved all, w3)
          | (Throw _, w3) => (Pending, w3)
          end
      end
  | None => (Pending, w)
  end.

(** *** Loading *)

(** The file a path names, among the entry files of the plugin directories. *)
Definition script_at (w : World) (path : string) : ondisk Script :=
  match find (fun kv => String.eqb (resolve (location (mgr w)) (fst kv ++ "/index.js")) path)
             (folders (disk w)) with
  | Some (_, f) => index_js f
  | None => Absent
  end.

(** [fs.readFileSync(file)] of entry code; text that does not parse is
    code whose evaluation throws. *)
Definition readFileSync (file : string) (f : ondisk Script) : M Script :=
  match f with
  | Absent => throw (ENOENT file)
  | Malformed => ret {| script_source := ""; script_throws := true |}
  | Content s => ret s
  end.

Definition fresh_handle (file : string) : M Handle :=
  n <- gets next_ref ;;
  modify (fun w => {| mgr := mgr w; disk := disk w; trace := trace w;
                      next_ref := S n; require_cache := require_cache w;
                      global_pluginCache := global_pluginCache w |}) ;;;
  ret {| href := n; hfile := file |}.

(** Evaluating entry code: the run is an effect, it throws when the code
    does, and its exports are a new object.  What the entry code does on its
    own account (calls of the cache helpers it is handed, or of any Node API)
    is not represented: properties below speak of the manager's code around
    the run, not of the plugin's. *)
Definition evaluate (s : Script) (file : string) : M Handle :=
  log (ERun file) ;;;
  if script_throws s then throw (ScriptError file) else fresh_handle file.

(** Node's [require(file)]: evaluates a module once and caches its exports. *)
Definition require (file : string) : M Handle :=
  c <- gets (fun w => Rec.get (require_cache w) file) ;;
  match c with
  | Some h => ret h
  | None =>
      s <- (f <- gets (fun w => script_at w file) ;; readFileSync file f) ;;
      h <- evaluate s file ;;
      modify (fun w => {| mgr := mgr w; disk := disk w; trace := trace w;
                          next_ref := next_ref w;
                          require_cache := Rec.set (require_cache w) file h;
                          global_pluginCache := global_pluginCache w |}) ;;;
      ret h
  end.

(** a non-empty string is truthy *)
Definition truthy_id (pluginId : option string) : option string :=
  match pluginId with
  | Some id => if String.eqb id "" then None else Some id
  | None => None
  end.

(** [_loadLocalPlugin(pluginsString, pluginFile, pluginId)] *)
Definition _loadLocalPlugin (pluginsString : Script) (pluginFile : string)
    (pluginId : option string) : M Handle :=
  modify (fun w => {| mgr := mgr w; disk := disk w; trace := trace w;
                      next_ref := next_ref w; require_cache := require_cache w;
                      global_pluginCache := Some pluginId |}) ;;;
  imported <- gets (fun w => match truthy_id pluginId with
                             | Some id => Rec.get (importedPlugins (mgr w)) id
                             | None => None
                             end) ;;
  match imported with
  | Some h => ret h
  | None =>
      is_module <-
        match truthy_id pluginId with
        | Some id =>
            m <- gets (fun w => Rec.get (installedPluginsManifests (mgr w)) id) ;;
            match m with
            | Some man =>
                ret (match Manifest.importType man with
                     | Some import_module => true
                     | _ => false
                     end)
            | None => throw (TypeError "installedPluginsManifests[pluginId].importType")
            end
        | None => ret false
        end ;;
      if is_module : bool then
        p <- require pluginFile ;;
        modify (with_mgr (fun m =>
          set_importedPlugins
            (Rec.set (importedPlugins m) (match pluginId with Some id => id | None => "" end) p) m)) ;;;
        ret p
      else
        evaluate pluginsString pluginFile
  end.

(** The accessor that [_loadLocalPlugin] hands to plugin code:
    [pluginCache.get(key)] and [pluginCache.set(key, value)] on the slice of
    [pluginId] in the runtime cache.  An absent [pluginId] indexes the cache
    with ["undefined"].  The cache and its slices are plain objects, so the
    lookups see inherited members and an assignment to [__proto__] is not a
    store. *)
Definition cache_slot (pluginId : option string) : string :=
  match pluginId with Some id => id | None => "undefined" end.

(** [(this.pluginsCache[pluginId] || {})[key]].  For a slot id that names
    an inherited member and is no key of the cache, the slice is a built-in:
    [Object.prototype] itself for [__proto__], else a function, whose members
    are not described here. *)
Definition pluginCache_get (pluginId : option string) (key : string) : M json :=
  let id := cache_slot pluginId in
  own <- gets (fun w => Rec.get (pluginsCache (mgr w)) id) ;;
  match own with
  | Some slot => ret (js_index (JObj slot) key)
  | None =>
      if String.eqb id "__proto__" then ret (js_index (JObj object_prototype) key)
      else if inherited_name id then throw (Outside "a member of a built-in function")
      else ret (js_index (JObj []) key)
  end.

(** [pluginCache.set(key, value)]:
    [this.pluginsCache[pluginId] = this.pluginsCache[pluginId] || {}], then
    [this.pluginsCache[pluginId][key] = value], then the write of cache.json.
    With a slot id that names an inherited member and is no key of the cache,
    the slice is a built-in and the assignment writes into it.  The key
    [__proto__] stores nothing: a primitive value is ignored, any other value
    replaces the prototype of the slice. *)
Definition pluginCache_set (pluginId : option string) (key : string) (value : json)
  : M unit :=
  let id := cache_slot pluginId in
  own <- gets (fun w => Rec.get (pluginsCache (mgr w)) id) ;;
  (match own with
   | Some _ => ret tt
   | None =>
       if inherited_name id then throw (Outside "an assignment into a built-in")
       else modify (with_mgr (fun m =>
              set_pluginsCache (Rec.set (pluginsCache m) id []) m))
   end) ;;;
  (if String.eqb key "__proto__" then
     match value with
     | JUndefined | JBool _ | JNum _ | JStr _ => ret tt
     | _ => throw (Outside "the prototype of a cache slice")
     end
   else
     modify (with_mgr (fun m =>
       let slot := or_empty (Rec.get (pluginsCache m) id) in
       set_pluginsCache (Rec.set (pluginsCache m) id (Rec.set slot key value)) m))) ;;;
  c <- gets (fun w => pluginsCache (mgr w)) ;;
  write_cache c.

(** [loadPlugin(pluginId)] *)
Definition loadPlugin (pluginId : string) : M Handle :=
  selectedPlugin <- gets (fun w => Rec.get (installedPlugins (mgr w)) pluginId) ;;
  match selectedPlugin with
  | None => throw (TypeError "selectedPlugin.file")
  | Some sp =>
      loc <- gets (fun w => location (mgr w)) ;;
      let pluginFile := resolve_any loc (Plugin.file sp) in
      pluginsString <- (f <- gets (fun w => script_at w pluginFile) ;;
                        readFileSync pluginFile f) ;;
      _loadLocalPlugin pluginsString pluginFile (Some pluginId)
  end.

(** *** Preset batch install and startup reload *)

(** [path.extname(file)] of a file name without directory part *)
Fixpoint last_dot_suffix (s : string) : option string :=
  match s with
  | EmptyString => None
  | String c r =>
      match last_dot_suffix r with
      | Some e => Some e
      | None => if Ascii.eqb c "."%char then Some s else None
      end
  end.

Definition extname (file : string) : string :=
  match file with
  | EmptyString => ""
  | String _ r => match last_dot_suffix r with Some e => e | None => "" end
  end.

(** [getFileNameWithoutExtension(p)] *)
Definition getFileNameWithoutExtension (p : string) : string :=
  substring 0 (String.length p - String.length (extname p)) p.

(** [getFilesWithExtension(presetLocation, extension)] *)
Definition getFilesWithExtension (extension : string) : M (list string) :=
  files <- gets (fun w => preset_files (disk w)) ;;
  match files with
  | Some l => ret (List.filter (fun f => String.eqb (extname f) extension) l)
  | None => preset <- gets (fun w => presetLocation (mgr w)) ;; throw (ENOENT preset)
  end.

(** the file system refuses to remove the file at [path] *)
Definition is_locked (d : Disk) (path : string) : bool :=
  existsb (String.eqb path) (locked d).

(** [removeFiles(list)]: each removal catches its own error, so a file
    that cannot be removed stays and the others are still removed.  The
    caller does not await it; it is run here at the point of the call. *)
Definition remove_step (acc : M unit) (name : string) : M unit :=
  acc ;;;
  preset <- gets (fun w => presetLocation (mgr w)) ;;
  refused <- gets (fun w => is_locked (disk w) (resolve preset name)) ;;
  if refused : bool then ret tt
  else
    modify (with_disk (fun d =>
      set_preset (option_map (List.filter (fun f => negb (String.eqb f name)))
                             (preset_files d))
                 (Rec.del (archives d) (resolve preset name)) d)) ;;;
    log (ERemoveFile (resolve preset name)).

Definition removeFiles (names : list string) : M unit :=
  fold_left remove_step names (ret tt).

Section Manager.

(** [compareVersions] of the compare-versions package: [-1], [0] or [1],
    or [None] when it throws on a string that is not a version. *)
Variable compareVersions : string -> string -> option Z.

Definition compare (a b : string) : M Z :=
  match compareVersions a b with
  | Some c => ret c
  | None => throw (TypeError "compareVersions")
  end.

(** a version string found in [versions], when truthy *)
Definition installed_version (vs : list (string * string)) (id : string) : option string :=
  match Rec.get vs id with
  | Some v => if String.eqb v "" then None else Some v
  | None => None
  end.

(** One turn of the loop over the preset archives: [installedPlugins] and
    [pluginsConfigurations] are the loop's local accumulators.  The test
    [installedPlugins.plugins && installedPlugins.versions] holds of every
    catalog of this shape and is not written. *)
Definition install_preset (pluginsFolder : string)
    (acc : MemoPlugins * list (string * list (string * json))) (p : string)
  : M (MemoPlugins * list (string * list (string * json))) :=
  let '(installed, configurations) := acc in
  preset <- gets (fun w => presetLocation (mgr w)) ;;
  let pluginPath := resolve preset p in
  let pluginDest := getFileNameWithoutExtension p in
  unzipFile pluginPath pluginDest ;;;
  data <- (f <- gets (fun w => manifest_json (folder_at (disk w) pluginDest)) ;;
           readJSON (pluginDest ++ "/manifest.json") f) ;;
  let plugin := descriptor pluginsFolder data in
  let id := Plugin.pluginId plugin in
  configurations' <-
    match installed_version (versions installed) id with
    | Some v =>
        c <- compare (Plugin.version plugin) v ;;
        if c =? 1
        then ret (Rec.set configurations (versioned id (Plugin.version plugin))
                          (or_empty (Rec.get configurations (versioned id v))))
        else ret configurations
    | None => ret configurations
    end ;;
  overwrite_it <-
    match installed_version (versions installed) id with
    | None => ret true
    | Some v => c <- compare (Plugin.version plugin) v ;; ret (negb (c =? -1))
    end ;;
  if overwrite_it : bool then
    let plugins' :=
      match findIndex (has_id id) (plugins installed) with
      | Some index => <[index := plugin]> (plugins installed)
      | None => plugin :: plugins installed
      end in
    ret ({| plugins := plugins';
            versions := Rec.set (versions installed) id (Plugin.version plugin) |},
         configurations')
  else ret (installed, configurations').

(** the [for (const p of res)] loop *)
Fixpoint install_presets (pluginsFolder : string) (res : list string)
    (acc : MemoPlugins * list (string * list (string * json)))
  : M (MemoPlugins * list (string * list (string * json))) :=
  match res with
  | [] => ret acc
  | p :: rest =>
      acc' <- install_preset pluginsFolder acc p ;;
      install_presets pluginsFolder rest acc'
  end.

(** what follows the loop: the two writes and the removal of the archives *)
Definition flush_presets (res : list string)
    (final : MemoPlugins * list (string * list (string * json))) : M unit :=
  write_index (fst final) ;;;
  write_configuration (snd final) ;;;
  remove <- gets (fun w => removeDefaultPlugins (mgr w)) ;;
  if remove : bool then removeFiles res else ret tt.

(** [_installDefaultPlugins(pluginsFolder)] *)
Definition _installDefaultPlugins (pluginsFolder : string) : M unit :=
  res <- getFilesWithExtension ".memox" ;;
  match res with
  | [] => ret tt
  | _ =>
      cf <- gets (fun w => configuration_json (disk w)) ;;
      configurations <- (if existsSync cf then readJSON "configuration.json" cf
                         else ret []) ;;
      ix <- gets (fun w => index_json (disk w)) ;;
      installed <- (if existsSync ix then readJSON "index.json" ix
                    else write_index empty_catalog ;;; ret empty_catalog) ;;
      final <- install_presets pluginsFolder res (installed, configurations) ;;
      flush_presets res final
  end.

(** [fs.existsSync(manifestFolderPath) && fs.existsSync(manifestPath)] for
    the versioned directory of a descriptor *)
Definition dir_present (d : Disk) (p : Plugin.t) : bool :=
  let dir := versioned (Plugin.pluginId p) (Plugin.version p) in
  Rec.has (folders d) dir && existsSync (manifest_json (folder_at d dir)).

(** the five [delete]s on the manager's fields for a descriptor whose
    directory or manifest is missing *)
Definition prune_plugin (key version : string) (m : PluginManager) : PluginManager :=
  let m1 := set_installedPlugins (Rec.del (installedPlugins m) key) m in
  let m2 := set_localPlugins {| plugins := plugins (localPlugins m1);
                                versions := Rec.del (versions (localPlugins m1)) key |} m1 in
  let m3 := set_installedPluginsManifests (Rec.del (installedPluginsManifests m2) key) m2 in
  let m4 := set_installedPluginsI18ns (Rec.del (installedPluginsI18ns m3) key) m3 in
  set_pluginsConfigurations (Rec.del (pluginsConfigurations m4) (versioned key version)) m4.

(** [delete data.versions[key]] and the [splice] of its entry *)
Definition prune_catalog (data : MemoPlugins) (key : string) : MemoPlugins :=
  {| plugins := match findIndex (has_id key) (plugins data) with
                | Some i => delete i (plugins data)
                | None => plugins data
                end;
     versions := Rec.del (versions data) key |}.

(** the assignments for a descriptor found on disk: manifest, localization
    bundle, and a new provider entry *)
Definition record_plugin (key : string) (manifest : Manifest.t) (i18n : I18n)
    (p : Plugin.t) (m : PluginManager) : PluginManager :=
  let m1 := set_installedPluginsManifests (Rec.set (installedPluginsManifests m) key manifest) m in
  let m2 := set_installedPluginsI18ns (Rec.set (installedPluginsI18ns m1) key i18n) m1 in
  set_pluginProviders
    (pluginProviders m2 ++
     [provider_entry (Manifest.provider manifest) (Plugin.pluginId p) (Plugin.type p)]) m2.

(** One turn of the [for (const key in this.installedPlugins)] loop of
    [_readLocalPlugins]; [data] is the parsed index.json being pruned. *)
Definition reconcile (data : MemoPlugins) (key : string) : M MemoPlugins :=
  entry <- gets (fun w => Rec.get (installedPlugins (mgr w)) key) ;;
  match entry with
  | None => ret data
  | Some p =>
      let dir := versioned (Plugin.pluginId p) (Plugin.version p) in
      present <- gets (fun w => dir_present (disk w) p) ;;
      if present : bool then
        manifest <- (f <- gets (fun w => manifest_json (folder_at (disk w) dir)) ;;
                     readJSON (dir ++ "/manifest.json") f) ;;
        i18n <- read_i18n dir ;;
        modify (with_mgr (record_plugin key manifest i18n p)) ;;;
        ret data
      else
        modify (with_mgr (prune_plugin key (Plugin.version p))) ;;;
        ret (prune_catalog data key)
  end.

Fixpoint reconcile_all (keys : list string) (data : MemoPlugins) : M MemoPlugins :=
  match keys with
  | [] => ret data
  | key :: rest => data' <- reconcile data key ;; reconcile_all rest data'
  end.

(** [_readLocalPlugins()], the body up to its [return]; the two
    continuations it schedules (the copy of a preset plugins.json and the
    catalog fetch) run later and only assign [onlinePlugins].  It is written
    in three parts.  [read_catalogs] is steps one and two: the cached online
    catalog, then index.json, whose descriptors are entered in
    [installedPlugins]. *)
Definition read_catalogs : M MemoPlugins :=
  pre <- gets (fun w => preset_plugins_json (disk w)) ;;
  pj <- gets (fun w => plugins_json (disk w)) ;;
  (if existsSync pre then ret tt
   else if existsSync pj then
     online <- readJSON "plugins.json" pj ;;
     modify (with_mgr (set_onlinePlugins online))
   else ret tt) ;;;
  data <- (ix <- gets (fun w => index_json (disk w)) ;; readJSON "index.json" ix) ;;
  modify (with_mgr (fun m =>
    set_installedPlugins
      (fold_left (fun o p => Rec.set o (Plugin.pluginId p) p) (plugins data)
                 (installedPlugins m)) m)) ;;;
  ret data.

(** [read_stores] is steps four and five and the assignment of
    [localPlugins]. *)
Definition read_stores (data : MemoPlugins) : M unit :=
  cf <- gets (fun w => configuration_json (disk w)) ;;
  (if existsSync cf then
     configurations <- readJSON "configuration.json" cf ;;
     modify (with_mgr (fun m =>
       set_pluginsConfigurations
         (fold_left (fun o kv => Rec.set o (fst kv) (snd kv)) configurations
                    (pluginsConfigurations m)) m))
   else ret tt) ;;;
  cache <- gets (fun w => cache_json (disk w)) ;;
  (if existsSync cache then
     c <- readJSON "cache.json" cache ;;
     modify (with_mgr (fun m =>
       set_pluginsCache
         (fold_left (fun o kv => Rec.set o (fst kv) (snd kv)) c (pluginsCache m)) m))
   else ret tt) ;;;
  modify (with_mgr (set_localPlugins data)).

Definition _readLocalPlugins : M MemoPlugins :=
  data <- read_catalogs ;;
  keys <- gets (fun w => Rec.keys (installedPlugins (mgr w))) ;;
  data' <- reconcile_all keys data ;;
  read_stores data' ;;;
  ret data'.

(** The continuation of the fetch that [_readLocalPlugins] starts: it has
    no rejection handler. *)
Definition online_fetched (fetch : FetchResult) : M unit :=
  res <- getOnlinePlugins fetch ;;
  modify (with_mgr (set_onlinePlugins res)).

(** [_init()] *)
Definition _init : M MemoPlugins :=
  loc <- gets (fun w => location (mgr w)) ;;
  _installDefaultPlugins loc ;;;
  _readLocalPlugins.

End Manager.

(** ** A version comparator and sample data

    Used to run the methods on concrete inputs. *)

(** Modelled from the spec: the compare-versions package is not among the
    sources.  Dotted numeric versions, compared segment by segment as
    numbers, a missing segment counting as zero; a string with a segment
    that is not a number is refused. *)
Fixpoint parse_segments (l : list string) : option (list nat) :=
  match l with
  | [] => Some []
  | s :: r =>
      match s, parse_digits s 0, parse_segments r with
      | String _ _, Some n, Some ns => Some (n :: ns)
      | _, _, _ => None
      end
  end.

Fixpoint compare_segments (a b : list nat) : Z :=
  match a, b with
  | [], _ => if forallb (Nat.eqb 0) b then 0 else -1
  | _, [] => if forallb (Nat.eqb 0) a then 0 else 1
  | x :: a', y :: b' =>
      if (x <? y)%nat then -1
      else if (y <? x)%nat then 1
      else compare_segments a' b'
  end.

Definition semver_compare (a b : string) : option Z :=
  match parse_segments (split "."%char a), parse_segments (split "."%char b) with
  | Some sa, Some sb => Some (compare_segments sa sb)
  | _, _ => None
  end.

Module Sample.

Definition field (k : string) (inh : option string) : ManifestConfiguration.t :=
  ManifestConfiguration.mk k k ctl_text "" "" "" None None None None None inh.

Definition manifest (id ver : string) (imp : option ImportType)
    (fields : list ManifestConfiguration.t) : Manifest.t :=
  Manifest.mk "1" ver "release" id "" translate id "" [] [] "" "" "" "" ""
              imp (Provider.mk id id None) fields [] [] [].

Definition package (id ver : string) (imp : option ImportType)
    (fields : list ManifestConfiguration.t) : Folder :=
  {| manifest_json := Content (manifest id ver imp fields);
     i18n_json := Absent;
     index_js := Content {| script_source := "module.exports = {}"; script_throws := false |} |}.

Definition empty_disk : Disk :=
  {| index_json := Absent; configuration_json := Absent; cache_json := Absent;
     plugins_json := Absent; preset_plugins_json := Absent; folders := [];
     preset_files := Some []; archives := []; locked := [] |}.

Definition boot (d : Disk) : World :=
  {| mgr := new_manager "/plugins" "/preset" "https://host/plugins" false;
     disk := d; trace := []; next_ref := 0%nat; require_cache := [];
     global_pluginCache := None |}.

(** the world an operation leaves behind *)
Definition after {A} (m : M A) (w : World) : World := snd (m w).

(** a disk holding the archive of [id]@[ver] at [path] *)
Definition with_archive (path id ver : string) (imp : option ImportType)
    (fields : list ManifestConfiguration.t) (d : Disk) : Disk :=
  set_archives (Rec.set (archives d) path (ArchiveOf (package id ver imp fields))) d.

End Sample.

(** * Vocabulary of the properties *)

(** ** Paths into the host settings *)

(** The design document's reading of a dotted path over the settings tree:
    the value is stored at the path when each key, in turn, is a key of the
    value reached so far (a field of the object, an element or the length of
    the array). *)
Inductive stored_at : json -> list string -> json -> Prop :=
| stored_here v : stored_at v [] v
| stored_under v k child ks x :
    own_member v k = Some child -> stored_at child ks x -> stored_at v (k :: ks) x.

(** Some key of the path is missing from the value reached before it. *)
Inductive missing_at : json -> list string -> Prop :=
| missing_here v k ks : own_member v k = None -> missing_at v (k :: ks)
| missing_under v k child ks :
    own_member v k = Some child -> missing_at child ks -> missing_at v (k :: ks).

(** ** Sample runs: loading twice *)

Module LoadTwice.
Import Sample.

(** a plugin of import type [imp], installed *)
Definition installed (imp : option ImportType) : World :=
  after (installPlugins "u1" ["/tmp/p.zip"] JUndefined)
        (boot (with_archive "/tmp/p.zip" "p" "1.0.0" imp [] empty_disk)).

Definition first (imp : option ImportType) := loadPlugin "p" (installed imp).
Definition second (imp : option ImportType) := loadPlugin "p" (snd (first imp)).

Definition runs (w : World) : nat :=
  length (List.filter (fun e => match e with ERun _ => true | _ => false end) (trace w)).
End LoadTwice.

(** ** Sample runs: installing an older version *)

Module Downgrade.
Import Sample.

Definition archives_on_disk : Disk :=
  with_archive "/tmp/p-2.0.0.zip" "p" "2.0.0" None []
    (with_archive "/tmp/p-1.0.0.zip" "p" "1.0.0" None [] empty_disk).

(** version 2.0.0 installed and configured *)
Definition newer_installed : World :=
  after (saveConfiguration "p" [("a", JNum 1)])
        (after (installPlugins "u1" ["/tmp/p-2.0.0.zip"] JUndefined) (boot archives_on_disk)).

Definition older_installed_over : World :=
  after (installPlugins "u2" ["/tmp/p-1.0.0.zip"] JUndefined) newer_installed.
End Downgrade.

(** ** Ids unknown to the registry *)

(** [pluginId] occurs nowhere in the registry. *)
Definition unknown_plugin (m : PluginManager) (id : string) : bool :=
  negb (existsb (has_id id) (plugins (localPlugins m)))
  && negb (Rec.has (versions (localPlugins m)) id)
  && negb (Rec.has (installedPlugins m) id)
  && negb (Rec.has (installedPluginsManifests m) id)
  && negb (Rec.has (installedPluginsI18ns m) id)
  && negb (existsb (provider_has_id id) (pluginProviders m)).

(** ** Frames and installed descriptors *)

(** [m] never changes the part of the world that [proj] reads, whether it
    returns or throws. *)
Definition keeps {A B} (proj : World -> B) (m : M A) : Prop :=
  forall w, proj (snd (m w)) = proj w.

(** the descriptor installed for a pluginId, if any *)
Definition old_plugin (m : PluginManager) (id : string) : option Plugin.t :=
  match findIndex (has_id id) (plugins (localPlugins m)) with
  | Some i => plugins (localPlugins m) !! i
  | None => None
  end.

Definition old_configuration (m : PluginManager) (id : string) : list (string * json) :=
  match old_plugin m id with
  | Some o => or_empty (Rec.get (pluginsConfigurations m)
                                (versioned (Plugin.pluginId o) (Plugin.version o)))
  | None => []
  end.

Module Upgrade.
Import Sample.

Definition fields : list ManifestConfiguration.t :=
  [field "a" (Some "defaults.a"); field "b" (Some "defaults.b")].

Definition setting : json :=
  JObj [("defaults", JObj [("a", JNum 2); ("b", JNum 3)])].

Definition archives_on_disk : Disk :=
  with_archive "/tmp/p-1.1.0.zip" "p" "1.1.0" None fields
    (with_archive "/tmp/p-1.0.0.zip" "p" "1.0.0" None [] empty_disk).

(** version 1.0.0 installed, with the saved configuration [{a:1}] *)
Definition configured : World :=
  after (saveConfiguration "p" [("a", JNum 1)])
        (after (installPlugins "u1" ["/tmp/p-1.0.0.zip"] JUndefined) (boot archives_on_disk)).

Definition upgraded : World :=
  after (installPlugins "u2" ["/tmp/p-1.1.0.zip"] setting) configured.
End Upgrade.

(** ** Writes of the preset batch *)

(** how many times the file [name] has been written *)
Definition writes (name : string) (t : list Event) : nat :=
  length (List.filter (fun e => match e with
                                | EWriteFile n => String.eqb n name
                                | _ => false
                                end) t).

Definition is_write (e : Event) : bool :=
  match e with EWriteFile _ => true | _ => false end.

(** What the flush of the batch is observed through: the two registry files
    and the number of times each has been written. *)
Definition flushed (w : World) :=
  (index_json (disk w), configuration_json (disk w),
   writes "index.json" (trace w), writes "configuration.json" (trace w)).

Module PresetBatch.
Import Sample.

Definition good : Archive := ArchiveOf (package "b" "1.0.0" None []).

(** a preset directory with a corrupt archive before a good one *)
Definition corrupt_first : Disk :=
  set_index_json (Content empty_catalog)
    (set_preset (Some ["a.memox"; "b.memox"])
                [("/preset/a.memox", ArchiveCorrupt); ("/preset/b.memox", good)]
                empty_disk).

(** the same directory without the corrupt archive *)
Definition good_only : Disk :=
  set_index_json (Content empty_catalog)
    (set_preset (Some ["b.memox"; "notes.txt"]) [("/preset/b.memox", good)] empty_disk).

Definition run (d : Disk) := _installDefaultPlugins semver_compare "/plugins" (boot d).
End PresetBatch.

(** ** Pruned descriptors *)

Definition ids (l : list Plugin.t) : list string := map Plugin.pluginId l.



Definition drop_first (key : string) (l : list Plugin.t) : list Plugin.t :=
  match findIndex (has_id key) l with
  | Some i => delete i l
  | None => l
  end.

Definition enter (o : list (string * Plugin.t)) (p : Plugin.t) : list (string * Plugin.t) :=
  Rec.set o (Plugin.pluginId p) p.

Module Reload.
Import Sample.

Definition kept : Plugin.t := descriptor "/plugins" (manifest "q" "1.0.0" None []).
Definition lost : Plugin.t := descriptor "/plugins" (manifest "p" "1.0.0" None []).

(** index.json records [p] and [q]; the directory of [p] is gone *)
Definition registry : MemoPlugins :=
  {| plugins := [lost; kept]; versions := [("p", "1.0.0"); ("q", "1.0.0")] |}.

Definition on_disk : Disk :=
  set_folders [("q@1.0.0", package "q" "1.0.0" None [])]
    (set_configuration_json (Content [("p@1.0.0", [("a", JNum 1)])])
       (set_index_json (Content registry) empty_disk)).

End Reload.

(** ** Duplicate-free registries *)

(** No two entries of the in-memory catalog share a pluginId, and the same
    holds of the catalog recorded in index.json when that file parses. *)
Definition registry_unique (w : World) : Prop :=
  NoDup (ids (plugins (localPlugins (mgr w)))) /\
  match index_json (disk w) with
  | Content c => NoDup (ids (plugins c))
  | _ => True
  end.

(** what [registry_unique] looks at *)
Definition catalog_view (w : World) :=
  (plugins (localPlugins (mgr w)), index_json (disk w)).

(** [m] keeps the registry duplicate-free on every exit, and a returned
    value satisfies [Q]. *)
Definition preserves {A} (m : M A) (Q : A -> Prop) : Prop :=
  forall w, registry_unique w ->
    registry_unique (snd (m w)) /\ (forall a, fst (m w) = Ok a -> Q a).

(** ** Sample runs: an older preset *)

Module OlderPreset.
Import Sample.

Definition registry : MemoPlugins :=
  {| plugins := [descriptor "/plugins" (manifest "p" "2.0.0" None [])];
     versions := [("p", "2.0.0")] |}.

(** version 2.0.0 recorded and configured; the preset directory ships 1.0.0 *)
Definition on_disk : Disk :=
  set_configuration_json (Content [("p@2.0.0", [("a", JNum 1)])])
    (set_index_json (Content registry)
       (set_preset (Some ["p@1.0.0.memox"])
                   [("/preset/p@1.0.0.memox", ArchiveOf (package "p" "1.0.0" None []))]
                   empty_disk)).

Definition installed : result unit * World :=
  _installDefaultPlugins semver_compare "/plugins" (boot on_disk).
End OlderPreset.

(** ** Sequences of operations *)

Inductive Op :=
| OpInstall (uuid : string) (pluginsPacks : list string) (setting : json)
| OpInstallOnline (uuid pluginId : string) (net : DownloadResult)
| OpUninstall (pluginId : string)
| OpSaveConfiguration (pluginId : string) (data : list (string * json))
| OpRefresh (fetch : FetchResult)
| OpLoad (pluginId : string)
| OpPresetBatch (pluginsFolder : string)
| OpReload.

(** the world an operation leaves, whether it returns or throws *)
Definition perform (compareVersions : string -> string -> option Z) (op : Op) (w : World)
  : World :=
  match op with
  | OpInstall uuid packs setting => snd (installPlugins uuid packs setting w)
  | OpInstallOnline uuid id net => snd (installOnlinePlugins uuid id net w)
  | OpUninstall id => snd (uninstallPlugin id w)
  | OpSaveConfiguration id data => snd (saveConfiguration id data w)
  | OpRefresh fetch => snd (refreshOnlinePlugins fetch w)
  | OpLoad id => snd (loadPlugin id w)
  | OpPresetBatch folder => snd (_installDefaultPlugins compareVersions folder w)
  | OpReload => snd (_readLocalPlugins w)
  end.

Definition perform_all (compareVersions : string -> string -> option Z) (ops : list Op)
    (w : World) : World :=
  fold_left (fun w op => perform compareVersions op w) ops w.

Module Lifecycle.
Import Sample.

(** the preset directory ships [q] 1.0.0 and [r] 1.0.0, in archives named
    after their versioned directories *)
Definition start : World :=
  boot (set_preset (Some ["q@1.0.0.memox"; "r@1.0.0.memox"])
          [("/preset/q@1.0.0.memox", ArchiveOf (package "q" "1.0.0" None []));
           ("/preset/r@1.0.0.memox", ArchiveOf (package "r" "1.0.0" None []));
           ("/tmp/p-1.0.0.zip", ArchiveOf (package "p" "1.0.0" None []));
           ("/tmp/p-2.0.0.zip", ArchiveOf (package "p" "2.0.0" None []))]
          empty_disk).

(** the batch enters [q] and [r]; [p] is installed and upgraded; [r] is
    uninstalled; the batch runs again over the same archives, finding [q]
    listed and [r] not *)
Definition ops : list Op :=
  [OpPresetBatch "/plugins"; OpReload;
   OpInstall "u1" ["/tmp/p-1.0.0.zip"] JUndefined;
   OpInstall "u2" ["/tmp/p-2.0.0.zip"] JUndefined;
   OpUninstall "r";
   OpPresetBatch "/plugins"; OpReload].
End Lifecycle.

(** * Vocabulary of the further properties *)

(** the disk after [fsa.ensureDir] of the directory [name] *)
Definition ensured (d : Disk) (name : string) : Disk :=
  if Rec.has (folders d) name then d
  else set_folders (Rec.set (folders d) name empty_folder) d.




(** the reload has kept the descriptor [p]: it is in the catalog with the
    version entry [ver], in the installed plugins, with the manifest [man]
    and a provider entry made from it *)
Definition recorded (p : Plugin.t) (man : Manifest.t) (ver : option string)
    (m : PluginManager) (data : MemoPlugins) : Prop :=
  let id := Plugin.pluginId p in
  In p (plugins data) /\
  Rec.get (versions data) id = ver /\
  Rec.get (installedPlugins m) id = Some p /\
  Rec.get (installedPluginsManifests m) id = Some man /\
  In (provider_entry (Manifest.provider man) id (Plugin.type p)) (pluginProviders m).


(** * Properties *)

(** ** Facts about records *)

Module RecFacts.
Section rec.
Context {V : Type}.
Import Rec.
Implicit Types (o a b : list (string * V)) (k : string).

Lemma get_set_eq o k v : get (set o k v) k = Some v.
Proof.
  induction o as [|[k' v'] r IH]; simpl.
  - now rewrite String.eqb_refl.
  - destruct (String.eqb k' k) eqn:E; simpl.
    + now rewrite String.eqb_refl.
    + now rewrite E.
Qed.

Lemma get_set_ne o k k' v : k <> k' -> get (set o k v) k' = get o k'.
Proof.
  intros Hne. induction o as [|[k0 v0] r IH]; simpl.
  - destruct (String.eqb_spec k k'); [contradiction | reflexivity].
  - destruct (String.eqb_spec k0 k) as [->|Hk]; simpl.
    + destruct (String.eqb_spec k k'); [contradiction | reflexivity].
    + destruct (String.eqb_spec k0 k'); [reflexivity | exact IH].
Qed.

Lemma get_del_eq o k : get (del o k) k = None.
Proof.
  induction o as [|[k' v'] r IH]; simpl; [reflexivity|].
  destruct (String.eqb k' k) eqn:E; simpl; [exact IH|].
  now rewrite E.
Qed.

Lemma get_del_ne o k k' : k <> k' -> get (del o k) k' = get o k'.
Proof.
  intros Hne. induction o as [|[k0 v0] r IH]; simpl; [reflexivity|].
  destruct (String.eqb_spec k0 k) as [->|Hk]; simpl.
  - destruct (String.eqb_spec k k'); [contradiction | exact IH].
  - destruct (String.eqb_spec k0 k'); [reflexivity | exact IH].
Qed.

Lemma del_absent o k : get o k = None -> del o k = o.
Proof.
  induction o as [|[k' v'] r IH]; simpl; [reflexivity|].
  destruct (String.eqb k' k); [discriminate|].
  intros H. now rewrite IH.
Qed.

Lemma get_spread a b k :
  get (spread a b) k =
  match get (rev b) k with Some v => Some v | None => get a k end.
Proof.
  unfold spread. revert a.
  induction b as [|[kb vb] b IH]; intros a; simpl; [reflexivity|].
  rewrite IH. clear IH.
  assert (Hrev : forall l : list (string * V),
    get (l ++ [(kb, vb)]) k =
    match get l k with
    | Some v => Some v
    | None => if String.eqb kb k then Some vb else None
    end).
  { induction l as [|[k1 v1] l IHl]; simpl; [reflexivity|].
    destruct (String.eqb k1 k); [reflexivity | exact IHl]. }
  rewrite Hrev.
  destruct (get (rev b) k); [reflexivity|].
  destruct (String.eqb_spec kb k) as [->|Hne].
  - apply get_set_eq.
  - now apply get_set_ne.
Qed.
End rec.
End RecFacts.

(** ** Inheritance lookup *)

Lemma own_member_member v k child : own_member v k = Some child -> member v k = Some child.
Proof. unfold member. now intros ->. Qed.

Lemma member_guard v k child :
  own_member v k = Some child ->
  truthy v && typeof_object v && js_in k v = true /\ js_index v k = child.
Proof.
  intros H. unfold js_in, js_index. rewrite (own_member_member _ _ _ H).
  destruct v; simpl in H; try discriminate; auto.
Qed.

Lemma getValueFromKeys_stored v ks x :
  stored_at v ks x -> getValueFromKeys v ks = x.
Proof.
  induction 1 as [v | v k child ks x Hm _ IH]; simpl; [reflexivity|].
  destruct (member_guard _ _ _ Hm) as [-> ->]. exact IH.
Qed.

Lemma inherited_of_array_none k :
  inherited_of_array k = None -> inherited_of_object k = None.
Proof.
  unfold inherited_of_array, inherited_of_object.
  destruct (String.eqb k "__proto__"); [discriminate|].
  now destruct (Rec.get array_prototype k).
Qed.

Lemma getValueFromKeys_missing v ks :
  missing_at v ks -> Forall (fun k => inherited_of_array k = None) ks ->
  getValueFromKeys v ks = JUndefined.
Proof.
  induction 1 as [v k ks Hm | v k child ks Hm _ IH]; intros HF;
    apply Forall_cons_1 in HF as [Hk HF]; simpl.
  - assert (Hin : js_in k v = false).
    { unfold js_in, member. rewrite Hm.
      destruct v; try reflexivity;
        [now rewrite Hk | now rewrite (inherited_of_array_none k Hk)]. }
    rewrite Hin. now rewrite andb_false_r.
  - destruct (member_guard _ _ _ Hm) as [-> ->]. now apply IH.
Qed.

(** C9 (the code at the failing input). The lookup of a dotted inherit path
    returns the value stored at the path when every key along it exists in
    the settings, and [undefined] when a key is missing and no key of the
    path names a member that objects or arrays inherit: the field
    [{key: "host", inherit: "openAI.Host"}] is seeded with ["x.com"] over
    [{openAI: {Host: "x.com"}}], and with [undefined] over [{}].  But a
    missing key is tested with [in], which also finds what every object
    inherits: over the settings [{}] the paths ["constructor"] and
    ["__proto__.__proto__"] have a missing key, and the lookup returns the
    built-in function [Object] and [null], not [undefined]; the field
    [{key: "host", inherit: "constructor"}] is seeded with that function. *)
Theorem inherit_lookup_sees_prototype :
  (forall settings path x,
     stored_at settings (split "."%char path) x -> getValueFromJSON settings path = x) /\
  (forall settings path,
     missing_at settings (split "."%char path) ->
     Forall (fun k => inherited_of_array k = None) (split "."%char path) ->
     getValueFromJSON settings path = JUndefined) /\
  inheritPluginsConfigurations
    (Sample.manifest "p" "1.0.0" None [Sample.field "host" (Some "openAI.Host")])
    (JObj [("openAI", JObj [("Host", JStr "x.com")])]) = [("host", JStr "x.com")] /\
  inheritPluginsConfigurations
    (Sample.manifest "p" "1.0.0" None [Sample.field "host" (Some "openAI.Host")])
    (JObj []) = [("host", JUndefined)] /\
  missing_at (JObj []) (split "."%char "constructor") /\
  getValueFromJSON (JObj []) "constructor" = JFun "Object" /\
  inheritPluginsConfigurations
    (Sample.manifest "p" "1.0.0" None [Sample.field "host" (Some "constructor")])
    (JObj []) = [("host", JFun "Object")] /\
  missing_at (JObj []) (split "."%char "__proto__.__proto__") /\
  getValueFromJSON (JObj []) "__proto__.__proto__" = JNull.
Proof.
  repeat apply conj; try reflexivity.
  - intros settings path x. apply getValueFromKeys_stored.
  - intros settings path. apply getValueFromKeys_missing.
  - apply missing_here. reflexivity.
  - apply missing_here. reflexivity.
Qed.

(** ** Online install of a plugin the catalog does not list *)

Lemma find_none_of_forall {A} (f : A -> bool) (l : list A) :
  Forall (fun x => f x = false) l -> find f l = None.
Proof.
  induction 1 as [|x l Hx _ IH]; simpl; [reflexivity|].
  now rewrite Hx.
Qed.

(** C10. When no entry of the in-memory online catalog has the requested
    pluginId, [installOnlinePlugins] produces no outcome: the promise is left
    pending (neither resolved nor rejected), no download is started, and
    neither the registry nor the disk changes. *)
Theorem online_install_unlisted_pending (w : World) (uuid pluginId : string)
    (net : DownloadResult) :
  Forall (fun p => Plugin.pluginId p <> pluginId) (plugins (onlinePlugins (mgr w))) ->
  installOnlinePlugins uuid pluginId net w = (Pending, w).
Proof.
  intros H. unfold installOnlinePlugins.
  rewrite find_none_of_forall; [reflexivity|].
  eapply Forall_impl; [exact H|].
  intros p Hp. unfold has_id. now apply String.eqb_neq.
Qed.

Lemma online_install_unlisted_pending_witness :
  let listed := descriptor "/plugins" (Sample.manifest "q" "1.0.0" None []) in
  let w := with_mgr (set_onlinePlugins {| plugins := [listed]; versions := [("q", "1.0.0")] |})
                    (Sample.boot Sample.empty_disk) in
  installOnlinePlugins "u1" "p" (Downloaded (ArchiveOf (Sample.package "p" "1.0.0" None []))) w
  = (Pending, w).
Proof.
  apply online_install_unlisted_pending.
  constructor; [|constructor]. simpl. discriminate.
Defined.

(** ** Catalog refresh when the request fails *)

(** A response that is not a success envelope falls back to the cached
    catalog, and to the empty catalog without a cache. *)
Lemma refresh_bad_body_falls_back (w : World) (res : option ResponseBody) :
  match res with Some {| success := true; data := Some _ |} => False | _ => True end ->
  getOnlinePlugins (FetchResponse res) w =
  match plugins_json (disk w) with
  | Content c => (Ok c, w)
  | Malformed => (Throw (SyntaxError "plugins.json"), w)
  | Absent => (Ok empty_catalog, w)
  end.
Proof.
  intros H. unfold getOnlinePlugins, bind, ret, gets.
  destruct res as [[[] [l|]]|]; try contradiction;
    destruct (plugins_json (disk w)); reflexivity.
Qed.

(** C1 (evaluation at the failing input). When the request itself is
    rejected, [getOnlinePlugins] and [refreshOnlinePlugins] reject with that
    error whatever the disk holds: the cached plugins.json is not read and the
    empty catalog is not returned. *)
Theorem refresh_rejects_on_network_failure (w : World) :
  getOnlinePlugins FetchRejected w = (Throw NetworkError, w) /\
  refreshOnlinePlugins FetchRejected w = (Throw NetworkError, w) /\
  let cached := {| plugins := [descriptor "/plugins" (Sample.manifest "p" "1.0.0" None [])];
                   versions := [("p", "1.0.0")] |} in
  let w0 := Sample.boot (set_plugins_json (Content cached) Sample.empty_disk) in
  fst (refreshOnlinePlugins FetchRejected w0) <> Ok (mgr w0) /\
  fst (getOnlinePlugins FetchRejected w0) <> Ok cached.
Proof.
  split; [reflexivity|]. split; [reflexivity|].
  split; vm_compute; discriminate.
Qed.

(** ** Loading twice *)

(** Module mode is memoized: the second load returns the first handle and
    the entry code has run once. *)
Lemma module_load_memoized :
  fst (LoadTwice.second (Some import_module)) = fst (LoadTwice.first (Some import_module)) /\
  LoadTwice.runs (snd (LoadTwice.second (Some import_module))) = 1%nat.
Proof. split; vm_compute; reflexivity. Qed.

(** C2 (evaluation at the failing input). For an installed plugin in sandbox
    mode ([importType] "sandbox", or not given), the second [loadPlugin]
    evaluates the entry code again and returns a different object: nothing
    was stored in [importedPlugins] by the first load. *)
Theorem sandbox_load_not_memoized :
  forall imp, imp = None \/ imp = Some import_sandbox ->
  fst (LoadTwice.first imp) = Ok {| href := 0; hfile := "/plugins/p@1.0.0/index.js" |} /\
  fst (LoadTwice.second imp) = Ok {| href := 1; hfile := "/plugins/p@1.0.0/index.js" |} /\
  importedPlugins (mgr (snd (LoadTwice.first imp))) = [] /\
  LoadTwice.runs (snd (LoadTwice.second imp)) = 2%nat.
Proof.
  intros imp [-> | ->]; repeat apply conj; vm_compute; reflexivity.
Qed.

Lemma sandbox_load_not_memoized_witness :
  fst (LoadTwice.second None) <> fst (LoadTwice.first None).
Proof.
  destruct (sandbox_load_not_memoized None (or_introl eq_refl)) as (H1 & H2 & _).
  rewrite H1, H2. discriminate.
Defined.

(** ** Installing an older version *)

(** C3 (evaluation at the failing input). [installPlugins] of version 1.0.0
    over an installed 2.0.0 is not a no-op: the catalog entry, the recorded
    version and the manifest become those of 1.0.0, and a configuration entry
    is created under the key of 1.0.0. *)
Theorem single_install_downgrades :
  versions (localPlugins (mgr Downgrade.newer_installed)) = [("p", "2.0.0")] /\
  versions (localPlugins (mgr Downgrade.older_installed_over)) = [("p", "1.0.0")] /\
  map Plugin.version (plugins (localPlugins (mgr Downgrade.older_installed_over))) = ["1.0.0"] /\
  option_map Manifest.version
    (Rec.get (installedPluginsManifests (mgr Downgrade.older_installed_over)) "p")
    = Some "1.0.0" /\
  pluginsConfigurations (mgr Downgrade.older_installed_over)
    = [("p@2.0.0", [("a", JNum 1)]); ("p@1.0.0", [("a", JNum 1)])] /\
  index_json (disk Downgrade.older_installed_over)
    = Content (localPlugins (mgr Downgrade.older_installed_over)).
Proof. repeat apply conj; vm_compute; reflexivity. Qed.

(** ** Uninstalling a plugin that is not installed *)

Lemma findIndex_none {A} (f : A -> bool) (l : list A) :
  existsb f l = false -> findIndex f l = None.
Proof.
  induction l as [|x l IH]; simpl; [reflexivity|].
  destruct (f x); simpl; [discriminate|].
  intros H. now rewrite IH.
Qed.

Lemma has_false_del {V} (o : list (string * V)) k :
  Rec.has o k = false -> Rec.del o k = o.
Proof.
  unfold Rec.has. intros H. apply RecFacts.del_absent.
  destruct (Rec.get o k); [discriminate | reflexivity].
Qed.

(** C5 (counterexample). Uninstalling an id that is in no part of the
    registry does write to the disk: index.json and configuration.json are
    written, here created. *)
Lemma uninstall_unknown_writes_disk :
  let w0 := Sample.boot Sample.empty_disk in
  let w1 := snd (uninstallPlugin "ghost" w0) in
  unknown_plugin (mgr w0) "ghost" = true /\
  trace w0 = [] /\
  trace w1 = [EWriteFile "index.json"; EWriteFile "configuration.json"] /\
  index_json (disk w0) = Absent /\
  index_json (disk w1) = Content empty_catalog /\
  disk w1 <> disk w0.
Proof.
  repeat apply conj; try (vm_compute; reflexivity).
  vm_compute. discriminate.
Qed.

(** C5 (amended). Uninstalling a pluginId that is not in the local registry
    returns the registry unchanged and removes no directory, but it still
    rewrites index.json and configuration.json from the unchanged in-memory
    catalog and configuration store. *)
Theorem uninstall_unknown_rewrites (w : World) (pluginId : string) :
  unknown_plugin (mgr w) pluginId = true ->
  uninstallPlugin pluginId w =
  (Ok (mgr w),
   {| mgr := mgr w;
      disk := set_configuration_json
                (Content (roundtrip_store (pluginsConfigurations (mgr w))))
                (set_index_json (Content (localPlugins (mgr w))) (disk w));
      trace := trace w ++ [EWriteFile "index.json"; EWriteFile "configuration.json"];
      next_ref := next_ref w;
      require_cache := require_cache w;
      global_pluginCache := global_pluginCache w |}).
Proof.
  unfold unknown_plugin. intros H.
  repeat (apply andb_prop in H; destruct H as [H ?]).
  repeat match goal with
         | H : negb _ = true |- _ => apply negb_true_iff in H
         end.
  destruct w as [m d t n rc g]. destruct m as [pc ip cfg man i18 imp prov [pl vs] onl loc pre url rm].
  simpl in *.
  unfold uninstallPlugin, bind, gets, modify, ret, write_index, write_configuration,
    getAllData, log, with_mgr, with_disk, bind, modify. simpl.
  rewrite (findIndex_none _ _ H). simpl.
  rewrite (findIndex_none (provider_has_id pluginId) prov) by assumption. simpl.
  rewrite !has_false_del by assumption.
  rewrite <- app_assoc. reflexivity.
Qed.

Lemma uninstall_unknown_rewrites_witness :
  fst (uninstallPlugin "ghost" (Sample.boot Sample.empty_disk))
  = Ok (mgr (Sample.boot Sample.empty_disk)).
Proof.
  rewrite (uninstall_unknown_rewrites (Sample.boot Sample.empty_disk) "ghost");
    reflexivity.
Defined.

(** ** Framing: what a computation leaves alone *)

Section keeps.
Context {B : Type} (proj : World -> B).

Lemma keeps_ret {A} (a : A) : keeps proj (ret a).
Proof. intros w. reflexivity. Qed.

Lemma keeps_throw {A} (e : exn) : keeps proj (@throw A e).
Proof. intros w. reflexivity. Qed.

Lemma keeps_gets {A} (f : World -> A) : keeps proj (gets f).
Proof. intros w. reflexivity. Qed.

Lemma keeps_modify (f : World -> World) :
  (forall w, proj (f w) = proj w) -> keeps proj (modify f).
Proof. intros H w. apply H. Qed.

Lemma keeps_bind {A C} (m : M A) (k : A -> M C) :
  keeps proj m -> (forall a, keeps proj (k a)) -> keeps proj (bind m k).
Proof.
  intros Hm Hk w. unfold bind.
  specialize (Hm w). destruct (m w) as [[a|e] w1]; simpl in *.
  - now rewrite Hk.
  - exact Hm.
Qed.

Lemma keeps_readJSON {A} name (f : ondisk A) : keeps proj (readJSON name f).
Proof. destruct f; intros w; reflexivity. Qed.
End keeps.

Ltac keeps_modify_tac :=
  apply keeps_modify; intros ?; simpl;
  repeat match goal with
         | |- context [if ?x then _ else _] => destruct x
         | |- context [match ?x with _ => _ end] => destruct x
         end;
  reflexivity.

Ltac keeps_step :=
  match goal with
  | |- keeps _ (bind _ _) => apply keeps_bind; [|intros ?]
  | |- keeps _ (ret _) => apply keeps_ret
  | |- keeps _ (throw _) => apply keeps_throw
  | |- keeps _ (gets _) => apply keeps_gets
  | |- keeps _ (readJSON _ _) => apply keeps_readJSON
  | |- keeps _ (modify _) => keeps_modify_tac
  | |- keeps _ (log _) => keeps_modify_tac
  | |- keeps _ (match ?x with _ => _ end) => destruct x
  end.

Ltac keeps_tac := repeat keeps_step.

(** the registry fields of the manager, the two registry files on disk, and
    the trace of writes are untouched by the file operations of an install *)
Lemma unpack_keeps_mgr uuid packs : keeps mgr (unpack uuid packs).
Proof.
  unfold unpack, ensureDir, unzipFile, findFileInFolder, copyFolder, removeFolder,
    read_i18n, ensureDir.
  keeps_tac.
Qed.

Lemma unpack_keeps_index uuid packs :
  keeps (fun w => index_json (disk w)) (unpack uuid packs).
Proof.
  unfold unpack, ensureDir, unzipFile, findFileInFolder, copyFolder, removeFolder,
    read_i18n, ensureDir.
  keeps_tac.
Qed.

(** ** What [register] does to the registry *)

(** Symbolic execution: unfold the monad, the methods' helpers and the field
    updates, and nothing of the data they move. *)
Ltac run_world :=
  cbv beta iota zeta delta
    [register uninstallPlugin saveConfiguration
     bind gets modify ret throw getAllData log
     write_index write_configuration write_cache write_plugins
     with_mgr with_disk
     set_pluginsCache set_installedPlugins set_pluginsConfigurations
     set_installedPluginsManifests set_installedPluginsI18ns set_importedPlugins
     set_pluginProviders set_localPlugins set_onlinePlugins
     set_index_json set_configuration_json set_cache_json set_plugins_json
     set_folders set_preset set_archives
     mgr disk trace next_ref require_cache global_pluginCache
     pluginsCache installedPlugins pluginsConfigurations installedPluginsManifests
     installedPluginsI18ns importedPlugins pluginProviders localPlugins onlinePlugins
     location presetLocation requestUrl removeDefaultPlugins
     index_json configuration_json cache_json plugins_json preset_plugins_json
     folders preset_files archives
     plugins versions fst snd].

Lemma findIndex_lookup {A} (f : A -> bool) (l : list A) i :
  findIndex f l = Some i -> exists x, l !! i = Some x /\ f x = true.
Proof.
  revert i. induction l as [|y l IH]; intros i; simpl; [discriminate|].
  destruct (f y) eqn:Hy.
  - intros [= <-]. exists y. split; [reflexivity | exact Hy].
  - destruct (findIndex f l) as [j|]; simpl; [|discriminate].
    intros [= <-]. destruct (IH j eq_refl) as (x & Hx & Hfx).
    exists x. split; assumption.
Qed.

Lemma register_run (data : Manifest.t) (i18n : I18n) (setting : json) (w : World) :
  let m := mgr w in
  let id := Manifest.pluginId data in
  let plugin := descriptor (location m) data in
  exists w',
    register data i18n setting w = (Ok (Some (mgr w')), w') /\
    plugins (localPlugins (mgr w')) =
      match findIndex (has_id id) (plugins (localPlugins m)) with
      | Some i => <[i := plugin]> (plugins (localPlugins m))
      | None => plugin :: plugins (localPlugins m)
      end /\
    versions (localPlugins (mgr w')) =
      Rec.set (versions (localPlugins m)) id (Manifest.version data) /\
    pluginsConfigurations (mgr w') =
      Rec.set (pluginsConfigurations m) (versioned id (Manifest.version data))
              (Rec.spread (inheritPluginsConfigurations data setting)
                          (old_configuration m id)) /\
    installedPluginsManifests (mgr w') = Rec.set (installedPluginsManifests m) id data /\
    installedPlugins (mgr w') = Rec.set (installedPlugins m) id plugin /\
    index_json (disk w') = Content (localPlugins (mgr w')) /\
    folders (disk w') = folders (disk w) /\
    trace w' = (trace w ++ [EWriteFile "index.json"; EWriteFile "configuration.json"])%list.
Proof.
  destruct w as [m d t n rc g].
  destruct m as [pc ip cfg man i18 imp prov [pl vs] onl loc pre url rm].
  cbn zeta. unfold old_configuration, old_plugin.
  run_world.
  change (Plugin.pluginId (descriptor loc data)) with (Manifest.pluginId data).
  change (Plugin.version (descriptor loc data)) with (Manifest.version data).
  destruct (findIndex (has_id (Manifest.pluginId data)) pl) as [i|] eqn:Hi.
  - destruct (findIndex_lookup _ _ _ Hi) as (x & Hx & _). rewrite Hx.
    run_world.
    destruct (findIndex (provider_has_id (Manifest.pluginId data)) prov);
      (match goal with |- exists w', ?t = _ /\ _ => exists (snd t) end;
       run_world; rewrite <- app_assoc; repeat apply conj; reflexivity).
  - run_world.
    destruct (findIndex (provider_has_id (Manifest.pluginId data)) prov);
      (match goal with |- exists w', ?t = _ /\ _ => exists (snd t) end;
       run_world; rewrite <- app_assoc; repeat apply conj; reflexivity).
Qed.

(** [installPlugins] on an archive that unpacks: it is [register] after
    [unpack]. *)
Lemma installPlugins_unpacked uuid packs setting w data i18n w1 :
  unpack uuid packs w = (Ok (Some (data, i18n)), w1) ->
  installPlugins uuid packs setting w = register data i18n setting w1 /\ mgr w1 = mgr w.
Proof.
  intros H. split.
  - unfold installPlugins, bind. now rewrite H.
  - pose proof (unpack_keeps_mgr uuid packs w) as K. now rewrite H in K.
Qed.

(** ** The preset batch and versions *)

Section BatchVersions.
Variable compareVersions : string -> string -> option Z.
Variable pluginsFolder : string.

(** A turn of the batch that completes has read the manifest [data] of its
    archive.  For a candidate strictly newer than the installed version the
    saved configuration of the installed version is copied under the new key
    (the batch has no host settings, nothing is inherited); for a candidate
    strictly older the catalog and the configuration store are left as they
    are. *)
Lemma install_preset_versions installed configurations p w installed' configurations' w' :
  install_preset compareVersions pluginsFolder (installed, configurations) p w
    = (Ok (installed', configurations'), w') ->
  exists data,
    manifest_json (folder_at (disk w') (getFileNameWithoutExtension p)) = Content data /\
    forall v,
      installed_version (versions installed) (Manifest.pluginId data) = Some v ->
      (compareVersions (Manifest.version data) v = Some 1 ->
       Rec.get configurations'
               (versioned (Manifest.pluginId data) (Manifest.version data))
       = Some (or_empty (Rec.get configurations (versioned (Manifest.pluginId data) v)))) /\
      (compareVersions (Manifest.version data) v = Some (-1) ->
       installed' = installed /\ configurations' = configurations).
Proof.
  unfold install_preset, unzipFile, ensureDir, compare.
  cbv beta iota zeta delta [bind gets ret modify throw log fst snd].
  destruct (Rec.get (archives _) _) as [[|payload]|]; try discriminate.
  cbn [disk with_disk trace mgr].
  match goal with
  | |- context [manifest_json (folder_at ?d ?n)] =>
      destruct (manifest_json (folder_at d n)) as [| |data] eqn:Hman
  end; cbv beta iota zeta delta [readJSON throw ret]; try discriminate.
  change (Plugin.pluginId (descriptor pluginsFolder data)) with (Manifest.pluginId data).
  change (Plugin.version (descriptor pluginsFolder data)) with (Manifest.version data).
  destruct (installed_version (versions installed) (Manifest.pluginId data)) as [v|] eqn:Hv.
  - destruct (compareVersions (Manifest.version data) v) as [c|] eqn:Hc; [|discriminate].
    destruct (c =? 1) eqn:H1; destruct (c =? -1) eqn:Hm1; cbn [negb];
      intros [= <- <- <-]; exists data; (split; [exact Hman|]);
      intros v' Hv'; assert (v' = v) by congruence; subst v';
      split; intros Hcmp; rewrite Hc in Hcmp; injection Hcmp as ->;
      try discriminate;
      try (apply RecFacts.get_set_eq); try (split; reflexivity).
  - intros [= <- <- <-]. exists data. split; [exact Hman|].
    intros v' Hv'. congruence.
Qed.

End BatchVersions.

(** The batch keeps an installed 2.0.0 when the preset directory ships
    1.0.0: catalog and configuration are written back as they were. *)
Lemma preset_batch_skips_older :
  fst OlderPreset.installed = Ok tt /\
  index_json (disk (snd OlderPreset.installed)) = Content OlderPreset.registry /\
  configuration_json (disk (snd OlderPreset.installed))
    = Content [("p@2.0.0", [("a", JNum 1)])].
Proof. repeat apply conj; vm_compute; reflexivity. Qed.

(** ** Configuration carried over an upgrade *)

Lemma get_rev_unique {V} (o : list (string * V)) k :
  NoDup (Rec.keys o) -> Rec.get (rev o) k = Rec.get o k.
Proof.
  induction o as [|[k0 v0] o IH]; simpl; [reflexivity|].
  intros Hnd. apply NoDup_cons in Hnd as [Hnotin Hnd].
  assert (Happ : forall (l : list (string * V)),
    Rec.get (l ++ [(k0, v0)]) k =
    match Rec.get l k with
    | Some v => Some v
    | None => if String.eqb k0 k then Some v0 else None
    end).
  { induction l as [|[k1 v1] l IHl]; simpl; [reflexivity|].
    destruct (String.eqb k1 k); [reflexivity | exact IHl]. }
  rewrite Happ, (IH Hnd).
  destruct (String.eqb_spec k0 k) as [->|Hne].
  - assert (Hn : Rec.get o k = None).
    { clear -Hnotin. induction o as [|[k1 v1] o IHo]; simpl; [reflexivity|].
      destruct (String.eqb_spec k1 k) as [->|].
      - exfalso. apply Hnotin. simpl. left.
      - apply IHo. intros Hin. apply Hnotin. simpl. now right. }
    now rewrite Hn.
  - now destruct (Rec.get o k).
Qed.

(** C6. When a plugin that is installed and has a saved configuration is
    installed again from an archive that unpacks (in particular in a strictly
    newer version), the install succeeds and the configuration stored under
    ["{pluginId}@{newVersion}"] is [{ ...inherited, ...oldConfig }]: key by
    key the old saved value wins and the inherited value fills the other
    keys; old [{a:1}] with inherited [{a:2,b:3}] gives [{a:1,b:3}].  In the
    preset batch, which has no host settings and so inherits nothing, a
    strictly newer candidate gets the old saved configuration as it is. *)
Theorem upgrade_merges_configuration
    (w : World) (uuid : string) (packs : list string) (setting : json)
    (data : Manifest.t) (i18n : I18n) (w1 : World)
    (old : Plugin.t) (oldConfig : list (string * json)) :
  unpack uuid packs w = (Ok (Some (data, i18n)), w1) ->
  old_plugin (mgr w) (Manifest.pluginId data) = Some old ->
  Rec.get (pluginsConfigurations (mgr w))
          (versioned (Plugin.pluginId old) (Plugin.version old)) = Some oldConfig ->
  NoDup (Rec.keys oldConfig) ->
  let inherited := inheritPluginsConfigurations data setting in
  (exists w',
    installPlugins uuid packs setting w = (Ok (Some (mgr w')), w') /\
    Rec.get (pluginsConfigurations (mgr w'))
            (versioned (Manifest.pluginId data) (Manifest.version data))
      = Some (Rec.spread inherited oldConfig) /\
    (forall k, Rec.get (Rec.spread inherited oldConfig) k =
               match Rec.get oldConfig k with
               | Some v => Some v
               | None => Rec.get inherited k
               end) /\
    Rec.spread [("a", JNum 2); ("b", JNum 3)] [("a", JNum 1)]
      = [("a", JNum 1); ("b", JNum 3)]) /\
  (forall compareVersions pluginsFolder installed configurations p wb
          installed' configurations' wb',
     install_preset compareVersions pluginsFolder (installed, configurations) p wb
       = (Ok (installed', configurations'), wb') ->
     exists candidate,
       manifest_json (folder_at (disk wb') (getFileNameWithoutExtension p))
         = Content candidate /\
       forall v saved,
         installed_version (versions installed) (Manifest.pluginId candidate) = Some v ->
         compareVersions (Manifest.version candidate) v = Some 1 ->
         Rec.get configurations (versioned (Manifest.pluginId candidate) v) = Some saved ->
         Rec.get configurations'
                 (versioned (Manifest.pluginId candidate) (Manifest.version candidate))
         = Some saved).
Proof.
  intros Hun Hold Hcfg Hnd inherited. split.
  - destruct (installPlugins_unpacked uuid packs setting w data i18n w1 Hun) as [Hrun Hm].
    destruct (register_run data i18n setting w1) as (w' & Hreg & _ & _ & Hc & _).
    exists w'. rewrite Hrun. split; [exact Hreg|].
    split; [|split; [|reflexivity]].
    + rewrite Hc, Hm, RecFacts.get_set_eq.
      unfold old_configuration. rewrite Hold, Hcfg. reflexivity.
    + intros k. rewrite RecFacts.get_spread. now rewrite get_rev_unique.
  - intros cmp folder installed configurations p wb installed' configurations' wb' Hrun.
    destruct (install_preset_versions cmp folder _ _ _ _ _ _ _ Hrun)
      as (candidate & Hman & Hver).
    exists candidate. split; [exact Hman|].
    intros v saved Hv Hnewer Hsaved.
    destruct (Hver v Hv) as [Hcopy _].
    rewrite (Hcopy Hnewer), Hsaved. reflexivity.
Qed.

Lemma upgrade_merges_configuration_witness :
  semver_compare "1.1.0" "1.0.0" = Some 1 /\
  inheritPluginsConfigurations (Sample.manifest "p" "1.1.0" None Upgrade.fields)
                               Upgrade.setting = [("a", JNum 2); ("b", JNum 3)] /\
  Rec.get (pluginsConfigurations (mgr Upgrade.upgraded)) "p@1.1.0"
    = Some [("a", JNum 1); ("b", JNum 3)].
Proof.
  split; [reflexivity|]. split; [reflexivity|].
  destruct (upgrade_merges_configuration
              Upgrade.configured "u2" ["/tmp/p-1.1.0.zip"] Upgrade.setting
              (Sample.manifest "p" "1.1.0" None Upgrade.fields) empty_i18n
              (snd (unpack "u2" ["/tmp/p-1.1.0.zip"] Upgrade.configured))
              (descriptor "/plugins" (Sample.manifest "p" "1.0.0" None []))
              [("a", JNum 1)])
    as ((w' & Hrun & Hget & _) & _).
  - vm_compute. reflexivity.
  - vm_compute. reflexivity.
  - vm_compute. reflexivity.
  - repeat constructor. intros H. inversion H.
  - unfold Upgrade.upgraded, Sample.after. rewrite Hrun. simpl snd.
    etransitivity; [exact Hget | vm_compute; reflexivity].
Defined.

(** ** The preset batch: one flush, or none *)

Lemma writes_snoc name t e :
  writes name (t ++ [e]) =
  (writes name t +
   match e with
   | EWriteFile n => if String.eqb n name then 1 else 0
   | _ => 0
   end)%nat.
Proof.
  unfold writes. rewrite List.filter_app, length_app. f_equal.
  destruct e; simpl; try reflexivity.
  destruct (String.eqb name0 name); reflexivity.
Qed.

Lemma keeps_writes_log name e :
  is_write e = false -> keeps (fun w => writes name (trace w)) (log e).
Proof.
  intros He w. unfold log, modify. simpl. rewrite writes_snoc.
  destruct e; try discriminate; lia.
Qed.

Ltac keeps_more :=
  repeat first
    [ keeps_step
    | apply keeps_writes_log; reflexivity
    | match goal with
      | |- keeps _ (if ?x then _ else _) => destruct x
      | |- keeps _ (let '(_, _) := ?x in _) => destruct x
      end ].

Section Batch.
Variable compareVersions : string -> string -> option Z.
Variable pluginsFolder : string.

(** The loop over the archives writes neither registry file. *)
Lemma install_preset_keeps {B} (proj : World -> B) acc p :
  (forall f w, proj (with_disk (set_folders f) w) = proj w) ->
  (forall e, is_write e = false -> keeps proj (log e)) ->
  keeps proj (install_preset compareVersions pluginsFolder acc p).
Proof.
  intros Hf Hl. destruct acc as [installed configurations].
  unfold install_preset, unzipFile, ensureDir, compare.
  repeat first
    [ apply Hl; reflexivity
    | match goal with
      | |- keeps _ (modify (with_disk _)) =>
          apply keeps_modify; intros w0; unfold with_disk at 1;
          first [ apply (Hf _ w0)
                | destruct (Rec.has (folders (disk w0)) _);
                  [ destruct w0; reflexivity | apply (Hf _ w0) ] ]
      end
    | keeps_step
    | match goal with
      | |- keeps _ (if ?x then _ else _) => destruct x
      end ].
Qed.

Lemma install_presets_keeps {B} (proj : World -> B) res acc :
  (forall f w, proj (with_disk (set_folders f) w) = proj w) ->
  (forall e, is_write e = false -> keeps proj (log e)) ->
  keeps proj (install_presets compareVersions pluginsFolder res acc).
Proof.
  intros Hf Hl. revert acc. induction res as [|p res IH]; intros acc; simpl.
  - apply keeps_ret.
  - apply keeps_bind; [now apply install_preset_keeps | intros acc'; apply IH].
Qed.

End Batch.

Lemma flushed_folders f w : flushed (with_disk (set_folders f) w) = flushed w.
Proof. reflexivity. Qed.

Lemma flushed_log e : is_write e = false -> keeps flushed (log e).
Proof.
  intros He w. unfold flushed, log, modify. cbn [snd disk trace].
  rewrite !writes_snoc.
  destruct e; try discriminate; rewrite !Nat.add_0_r; reflexivity.
Qed.

Lemma removeFiles_fold names : removeFiles names = fold_left remove_step names (ret tt).
Proof. reflexivity. Qed.

Lemma remove_fold_keeps names acc :
  keeps flushed acc -> keeps flushed (fold_left remove_step names acc).
Proof.
  revert acc. induction names as [|name names IH]; intros acc Hacc; simpl.
  - exact Hacc.
  - apply IH. unfold remove_step.
    apply keeps_bind; [exact Hacc | intros _].
    apply keeps_bind; [apply keeps_gets | intros preset].
    apply keeps_bind; [apply keeps_gets | intros refused].
    destruct refused; [apply keeps_ret|].
    apply keeps_bind; [apply keeps_modify; intros w; reflexivity | intros _].
    now apply flushed_log.
Qed.

Lemma remove_fold_ok names acc :
  (forall w, fst (acc w) = Ok tt) -> forall w, fst (fold_left remove_step names acc w) = Ok tt.
Proof.
  revert acc. induction names as [|name names IH]; intros acc Hacc; simpl.
  - exact Hacc.
  - apply IH. intros w. unfold remove_step, bind, gets.
    specialize (Hacc w). destruct (acc w) as [r w1]. simpl in Hacc. subst r.
    now destruct (is_locked _ _).
Qed.

(** The flush after the loop returns, and writes each file once. *)
Lemma flush_presets_run res final w :
  exists w2,
    flush_presets res final w = (Ok tt, w2) /\
    flushed w2 = (Content (fst final), Content (roundtrip_store (snd final)),
                  S (writes "index.json" (trace w)),
                  S (writes "configuration.json" (trace w))).
Proof.
  set (wB := snd ((write_index (fst final) ;;; write_configuration (snd final)) w)).
  assert (HB : flushed wB =
               (Content (fst final), Content (roundtrip_store (snd final)),
                S (writes "index.json" (trace w)),
                S (writes "configuration.json" (trace w)))).
  { unfold wB, flushed. destruct w as [m d t n rc g].
    cbv beta iota zeta delta
      [bind modify ret log write_index write_configuration with_disk
       set_index_json set_configuration_json disk trace index_json configuration_json snd fst].
    rewrite !writes_snoc. simpl. f_equal; [f_equal|]; lia. }
  unfold flush_presets.
  destruct (removeDefaultPlugins (mgr w)) eqn:Hrm.
  - exists (snd (removeFiles res wB)). split.
    + pose proof (remove_fold_ok res (ret tt) (fun _ => eq_refl) wB) as Hok.
      rewrite <- removeFiles_fold in Hok.
      destruct w as [m d t n rc g]. simpl in Hrm.
      unfold wB. cbv beta iota zeta delta
        [bind modify ret log gets write_index write_configuration with_disk with_mgr
         mgr snd fst] in *.
      rewrite Hrm.
      destruct (removeFiles res _) as [r w2]. simpl in Hok. now subst r.
    + rewrite <- HB. rewrite removeFiles_fold.
      apply remove_fold_keeps. apply keeps_ret.
  - exists wB. split; [|exact HB].
    destruct w as [m d t n rc g]. simpl in Hrm.
    unfold wB. cbv beta iota zeta delta
      [bind modify ret log gets write_index write_configuration with_disk with_mgr
       mgr snd fst].
    rewrite Hrm. reflexivity.
Qed.

Section BatchFlush.
Variable compareVersions : string -> string -> option Z.
Variable pluginsFolder : string.

Lemma install_presets_flushed res acc :
  keeps flushed (install_presets compareVersions pluginsFolder res acc).
Proof.
  apply install_presets_keeps; [exact flushed_folders | exact flushed_log].
Qed.

(** A throw of one turn is the outcome of the loop: the archives after it
    are not looked at. *)
Lemma install_presets_stops pre p rest acc acc1 w w1 e w2 :
  install_presets compareVersions pluginsFolder pre acc w = (Ok acc1, w1) ->
  install_preset compareVersions pluginsFolder acc1 p w1 = (Throw e, w2) ->
  install_presets compareVersions pluginsFolder (pre ++ p :: rest) acc w = (Throw e, w2).
Proof.
  revert acc w. induction pre as [|q pre IH]; intros acc w;
    cbn [install_presets app].
  - intros [= -> ->] Hp. unfold bind. now rewrite Hp.
  - unfold bind.
    destruct (install_preset compareVersions pluginsFolder acc q w) as [[acc'|e'] w'].
    + apply IH.
    + discriminate.
Qed.

(** C7 (amended). The preset batch processes its archives in order.  The
    loop writes neither index.json nor configuration.json; when every archive
    is processed without error, the accumulated catalog and configuration are
    written once each, after the last archive (an index.json that did not
    exist is first created empty, before the loop).  When an archive fails
    (extraction failure, missing or malformed manifest), the batch rejects at
    that archive: the archives after it are not processed and the accumulated
    changes are not written. *)
Theorem preset_batch_flushes_once_or_aborts (w : World) (files : list string) :
  preset_files (disk w) = Some files ->
  let res := List.filter (fun f => String.eqb (extname f) ".memox") files in
  res <> [] ->
  configuration_json (disk w) <> Malformed ->
  index_json (disk w) <> Malformed ->
  let configurations :=
    match configuration_json (disk w) with Content c => c | _ => [] end in
  let installed :=
    match index_json (disk w) with Content c => c | _ => empty_catalog end in
  let w0 := match index_json (disk w) with
            | Absent => snd (write_index empty_catalog w)
            | _ => w
            end in
  let loop := install_presets compareVersions pluginsFolder res
                              (installed, configurations) w0 in
  flushed (snd loop) = flushed w0 /\
  match fst loop with
  | Ok final =>
      exists w2,
        _installDefaultPlugins compareVersions pluginsFolder w = (Ok tt, w2) /\
        flushed w2 = (Content (fst final), Content (roundtrip_store (snd final)),
                      S (writes "index.json" (trace w0)),
                      S (writes "configuration.json" (trace w0)))
  | Throw e =>
      _installDefaultPlugins compareVersions pluginsFolder w = (Throw e, snd loop)
  end /\
  (forall pre p rest acc1 w1 e w2,
      res = (pre ++ p :: rest)%list ->
      install_presets compareVersions pluginsFolder pre (installed, configurations) w0
        = (Ok acc1, w1) ->
      install_preset compareVersions pluginsFolder acc1 p w1 = (Throw e, w2) ->
      loop = (Throw e, w2)).
Proof.
  intros Hfiles res Hres Hcf Hix configurations installed w0 loop.
  split; [apply install_presets_flushed|]. split.
  - assert (Hstart :
      _installDefaultPlugins compareVersions pluginsFolder w =
      match loop with
      | (Ok final, w1) => flush_presets res final w1
      | (Throw e, w1) => (Throw e, w1)
      end).
    { unfold _installDefaultPlugins, getFilesWithExtension.
      unfold bind at 1. unfold bind at 1. unfold gets at 1. cbn [fst snd].
      rewrite Hfiles. unfold ret at 1. fold res.
      unfold loop, w0, installed, configurations.
      destruct res as [|r0 res']; [contradiction|].
      destruct (configuration_json (disk w)) as [| |c] eqn:Ecf; [|contradiction|];
        (destruct (index_json (disk w)) as [| |ix] eqn:Eix; [|contradiction|]);
        repeat (cbv beta iota zeta delta
                  [bind gets ret throw readJSON existsSync fst snd];
                rewrite ?Ecf, ?Eix);
        try reflexivity;
        cbv beta iota zeta delta [write_index bind modify log fst snd];
        reflexivity. }
    rewrite Hstart.
    pose proof (install_presets_flushed res (installed, configurations) w0) as Hk.
    fold loop in Hk. destruct loop as [[final|e] w1]; cbn [fst snd] in *.
    + destruct (flush_presets_run res final w1) as (w2 & Hrun & Hfl).
      exists w2. split; [exact Hrun|]. rewrite Hfl.
      unfold flushed in Hk. injection Hk as _ _ Hi Hc. now rewrite Hi, Hc.
    + reflexivity.
  - intros pre p rest acc1 w1 e w2 -> Hpre Hp.
    eapply install_presets_stops; eassumption.
Qed.

End BatchFlush.

(** C7 (counterexample). With a corrupt archive before a good one, the batch
    rejects at the corrupt archive: the good archive is never extracted or
    registered and nothing is written, while the same good archive alone is
    installed. *)
Lemma batch_failure_blocks_siblings :
  fst (PresetBatch.run PresetBatch.corrupt_first) = Throw (ExtractError "/preset/a.memox") /\
  trace (snd (PresetBatch.run PresetBatch.corrupt_first)) = [] /\
  index_json (disk (snd (PresetBatch.run PresetBatch.corrupt_first))) = Content empty_catalog /\
  Rec.has (folders (disk (snd (PresetBatch.run PresetBatch.corrupt_first)))) "b" = false /\
  fst (PresetBatch.run PresetBatch.good_only) = Ok tt /\
  option_map versions
    (match index_json (disk (snd (PresetBatch.run PresetBatch.good_only))) with
     | Content c => Some c
     | _ => None
     end) = Some [("b", "1.0.0")].
Proof. repeat apply conj; vm_compute; reflexivity. Qed.

Lemma preset_batch_flushes_once_or_aborts_witness :
  (exists w2,
     PresetBatch.run PresetBatch.good_only = (Ok tt, w2) /\
     writes "index.json" (trace w2) = 1%nat /\
     writes "configuration.json" (trace w2) = 1%nat) /\
  PresetBatch.run PresetBatch.corrupt_first
  = (Throw (ExtractError "/preset/a.memox"), Sample.boot
       (set_folders [("a", empty_folder)] PresetBatch.corrupt_first)).
Proof.
  split.
  - pose proof (preset_batch_flushes_once_or_aborts semver_compare "/plugins"
                  (Sample.boot PresetBatch.good_only) ["b.memox"; "notes.txt"] eq_refl) as H.
    cbv zeta in H.
    specialize (H ltac:(vm_compute; discriminate) ltac:(discriminate) ltac:(discriminate)).
    destruct H as (_ & H & _).
    vm_compute in H. destruct H as (w2 & Hrun & Hfl).
    exists w2. split; [vm_compute; exact Hrun|].
    injection Hfl as _ _ Hi Hc. split; assumption.
  - pose proof (preset_batch_flushes_once_or_aborts semver_compare "/plugins"
                  (Sample.boot PresetBatch.corrupt_first) ["a.memox"; "b.memox"] eq_refl) as H.
    cbv zeta in H.
    specialize (H ltac:(vm_compute; discriminate) ltac:(discriminate) ltac:(discriminate)).
    destruct H as (_ & H & _).
    vm_compute in H. vm_compute. exact H.
Defined.

(** ** Reconciliation at startup *)

Lemma drop_first_cons key x l :
  drop_first key (x :: l) = if has_id key x then l else x :: drop_first key l.
Proof.
  unfold drop_first. simpl. destruct (has_id key x); [reflexivity|].
  destruct (findIndex (has_id key) l); reflexivity.
Qed.

Lemma drop_first_subset key l id : In id (ids (drop_first key l)) -> In id (ids l).
Proof.
  induction l as [|x l IH]; [easy|].
  rewrite drop_first_cons. destruct (has_id key x); simpl.
  - intros H. now right.
  - intros [H|H]; [now left | right; now apply IH].
Qed.

Lemma drop_first_unique key l : NoDup (ids l) -> NoDup (ids (drop_first key l)).
Proof.
  induction l as [|x l IH]; [easy|].
  rewrite drop_first_cons. simpl. intros Hnd.
  apply NoDup_cons in Hnd as [Hx Hnd].
  destruct (has_id key x); simpl; [exact Hnd|].
  apply NoDup_cons. split; [|now apply IH].
  intros Hin. apply Hx. apply list_elem_of_In. apply list_elem_of_In in Hin.
  now apply drop_first_subset in Hin.
Qed.

Lemma drop_first_gone key l : NoDup (ids l) -> ~ In key (ids (drop_first key l)).
Proof.
  induction l as [|x l IH]; [easy|].
  rewrite drop_first_cons. simpl. intros Hnd.
  apply NoDup_cons in Hnd as [Hx Hnd]. unfold has_id.
  destruct (String.eqb_spec (Plugin.pluginId x) key) as [<-|Hne]; simpl.
  - intros Hin. apply Hx. now apply list_elem_of_In.
  - intros [H|H]; [contradiction | now apply IH].
Qed.

Lemma prune_catalog_plugins data key :
  plugins (prune_catalog data key) = drop_first key (plugins data).
Proof. reflexivity. Qed.

Lemma reconcile_keeps_disk data key : keeps disk (reconcile data key).
Proof. unfold reconcile, read_i18n. keeps_more. Qed.



Lemma existsb_snoc {A} (f : A -> bool) l x :
  existsb f (l ++ [x]) = existsb f l || f x.
Proof. rewrite existsb_app. simpl. now rewrite orb_false_r. Qed.



Lemma get_none_del {V} (o : list (string * V)) k k' :
  Rec.get o k = None -> Rec.get (Rec.del o k') k = None.
Proof.
  intros H. destruct (String.eqb_spec k' k) as [->|Hne].
  - apply RecFacts.get_del_eq.
  - now rewrite RecFacts.get_del_ne.
Qed.







(** *** The installed-plugins record built from index.json *)

Lemma keys_set_unique {V} (o : list (string * V)) k v :
  NoDup (Rec.keys o) -> NoDup (Rec.keys (Rec.set o k v)).
Proof.
  assert (Hin : forall (o : list (string * V)) k0,
            k0 ∈ Rec.keys (Rec.set o k v) -> k0 = k \/ k0 ∈ Rec.keys o).
  { clear. induction o as [|[k1 v1] o IH]; intros k0; simpl.
    - intros H. apply list_elem_of_singleton in H. now left.
    - destruct (String.eqb_spec k1 k) as [->|Hne]; simpl.
      + intros H. apply elem_of_cons in H as [->|H]; [now left|].
        right. now apply elem_of_cons; right.
      + intros H. apply elem_of_cons in H as [->|H].
        * right. now apply elem_of_cons; left.
        * destruct (IH _ H) as [->|H']; [now left|].
          right. now apply elem_of_cons; right. }
  induction o as [|[k1 v1] o IH]; simpl; intros Hnd.
  - apply NoDup_singleton.
  - apply NoDup_cons in Hnd as [Hk1 Hnd].
    destruct (String.eqb_spec k1 k) as [->|Hne]; simpl.
    + now apply NoDup_cons.
    + apply NoDup_cons. split; [|now apply IH].
      intros H. destruct (Hin _ _ H) as [->|H']; contradiction.
Qed.





Lemma get_in_keys {V} (o : list (string * V)) k v :
  Rec.get o k = Some v -> In k (Rec.keys o).
Proof.
  induction o as [|[k1 v1] o IH]; simpl; [discriminate|].
  destruct (String.eqb_spec k1 k) as [->|]; [now left | right; auto].
Qed.

(** *** The three parts of the reload *)

Lemma read_catalogs_ok w data w1 :
  read_catalogs w = (Ok data, w1) ->
  index_json (disk w) = Content data /\
  installedPlugins (mgr w1) = fold_left enter (plugins data) (installedPlugins (mgr w)) /\
  pluginProviders (mgr w1) = pluginProviders (mgr w) /\
  disk w1 = disk w /\ trace w1 = trace w.
Proof.
  destruct w as [m d t n rc g]. destruct m. destruct d as [ix cf ca pj pre fo pf ar lk].
  unfold read_catalogs.
  cbv beta iota zeta delta [bind gets ret modify throw fst snd disk mgr
    preset_plugins_json plugins_json index_json].
  destruct pre, pj, ix; cbv beta iota zeta delta [existsSync readJSON ret throw modify];
    try discriminate; intros [= <- <-]; repeat apply conj; reflexivity.
Qed.


Lemma reconcile_all_keeps {B} (proj : World -> B) keys :
  (forall data key, keeps proj (reconcile data key)) ->
  forall data, keeps proj (reconcile_all keys data).
Proof.
  intros H. induction keys as [|key keys IH]; intros data; cbn [reconcile_all].
  - apply keeps_ret.
  - apply keeps_bind; [apply H | exact IH].
Qed.




(** ** One catalog entry per pluginId *)

Lemma registry_unique_view w w' :
  catalog_view w' = catalog_view w -> registry_unique w -> registry_unique w'.
Proof.
  unfold catalog_view, registry_unique. intros [= -> ->]. exact id.
Qed.

Lemma preserves_ret {A} (a : A) (Q : A -> Prop) : Q a -> preserves (ret a) Q.
Proof. intros HQ w Hw. split; [exact Hw|]. now intros a' [= <-]. Qed.

Lemma preserves_throw {A} (e : exn) (Q : A -> Prop) : preserves (throw e) Q.
Proof. intros w Hw. split; [exact Hw|]. discriminate. Qed.

Lemma preserves_bind {A B} (m : M A) (k : A -> M B) (Q : A -> Prop) (R : B -> Prop) :
  preserves m Q -> (forall a, Q a -> preserves (k a) R) -> preserves (bind m k) R.
Proof.
  intros Hm Hk w Hw. unfold bind.
  destruct (Hm w Hw) as [Hw1 HQ].
  destruct (m w) as [[a|e] w1]; simpl in *.
  - apply (Hk a (HQ a eq_refl) w1 Hw1).
  - split; [exact Hw1 | discriminate].
Qed.

Lemma preserves_gets {A} (f : World -> A) :
  preserves (gets f) (fun a => exists w, registry_unique w /\ a = f w).
Proof. intros w Hw. split; [exact Hw|]. intros a [= <-]. now exists w. Qed.

Lemma preserves_modify (f : World -> World) :
  (forall w, registry_unique w -> registry_unique (f w)) ->
  preserves (modify f) (fun _ => True).
Proof. intros H w Hw. split; [now apply H | trivial]. Qed.

Lemma preserves_keeps {A} (m : M A) : keeps catalog_view m -> preserves m (fun _ => True).
Proof.
  intros Hk w Hw. split; [|trivial].
  eapply registry_unique_view; [apply Hk | exact Hw].
Qed.

Lemma preserves_weaken {A} (m : M A) (Q R : A -> Prop) :
  (forall a, Q a -> R a) -> preserves m Q -> preserves m R.
Proof.
  intros HQR Hm w Hw. destruct (Hm w Hw) as [H1 H2]. split; [exact H1|]. auto.
Qed.

Lemma preserves_readJSON {A} name (f : ondisk A) (Q : A -> Prop) :
  (forall a, f = Content a -> Q a) -> preserves (readJSON name f) Q.
Proof.
  intros H. destruct f; [apply preserves_throw | apply preserves_throw |].
  apply preserves_ret. now apply H.
Qed.

(** writing a duplicate-free catalog to index.json *)
Lemma preserves_write_index c :
  NoDup (ids (plugins c)) -> preserves (write_index c) (fun _ => True).
Proof.
  intros Hc w [Hw _]. split; [|trivial].
  destruct w as [m d t n rc g]. split; [exact Hw | exact Hc].
Qed.

Lemma keeps_view_write_configuration s : keeps catalog_view (write_configuration s).
Proof. unfold write_configuration. keeps_tac. Qed.

(** *** Replacing in place, prepending, removing *)

Lemma ids_replace l i p x :
  l !! i = Some x -> Plugin.pluginId x = Plugin.pluginId p -> ids (<[i := p]> l) = ids l.
Proof.
  revert i. induction l as [|y l IH]; intros [|i]; simpl; try discriminate.
  - intros [= ->] Hid. now rewrite Hid.
  - intros Hx Hid. f_equal. now apply IH.
Qed.

Lemma findIndex_none_notin id l : findIndex (has_id id) l = None -> ~ In id (ids l).
Proof.
  induction l as [|x l IH]; simpl; [easy|]. unfold has_id at 1.
  destruct (String.eqb_spec (Plugin.pluginId x) id) as [|Hne]; [discriminate|].
  destruct (findIndex (has_id id) l); [discriminate|].
  intros _ [H|H]; [contradiction | now apply IH].
Qed.

(** the catalog after [register]: the candidate replaces the entry of its
    pluginId where it stands, or is put in front when there is none *)
Lemma replace_or_prepend_unique l p :
  NoDup (ids l) ->
  NoDup (ids (match findIndex (has_id (Plugin.pluginId p)) l with
              | Some i => <[i := p]> l
              | None => p :: l
              end)).
Proof.
  intros Hnd. destruct (findIndex (has_id (Plugin.pluginId p)) l) as [i|] eqn:Hi.
  - destruct (findIndex_lookup _ _ _ Hi) as (x & Hx & Hid).
    unfold has_id in Hid. apply String.eqb_eq in Hid.
    now rewrite (ids_replace l i p x Hx Hid).
  - simpl. apply NoDup_cons. split; [|exact Hnd].
    intros Hin. apply list_elem_of_In in Hin. now apply findIndex_none_notin in Hi.
Qed.

(** *** Each operation keeps the registry duplicate-free *)

Lemma unpack_keeps_view uuid packs : keeps catalog_view (unpack uuid packs).
Proof.
  intros w. unfold catalog_view.
  pose proof (unpack_keeps_mgr uuid packs w) as Hm.
  pose proof (unpack_keeps_index uuid packs w) as Hi.
  simpl in Hi. now rewrite Hm, Hi.
Qed.

Lemma register_unique data i18n setting w :
  registry_unique w -> registry_unique (snd (register data i18n setting w)).
Proof.
  intros [Hw _].
  destruct (register_run data i18n setting w) as (w' & Hrun & Hpl & _ & _ & _ & _ & Hix & _).
  rewrite Hrun. simpl. unfold registry_unique. rewrite Hix.
  assert (H : NoDup (ids (plugins (localPlugins (mgr w'))))).
  { rewrite Hpl.
    apply (replace_or_prepend_unique _ (descriptor (location (mgr w)) data) Hw). }
  now split.
Qed.

Lemma installPlugins_unique uuid packs setting w :
  registry_unique w -> registry_unique (snd (installPlugins uuid packs setting w)).
Proof.
  intros Hw. unfold installPlugins, bind.
  pose proof (unpack_keeps_view uuid packs w) as Hv.
  destruct (unpack uuid packs w) as [[[[data i18n]|]|e] w1]; simpl in Hv.
  - apply register_unique. now apply (registry_unique_view w).
  - now apply (registry_unique_view w).
  - now apply (registry_unique_view w).
Qed.

Lemma installOnlinePlugins_unique uuid id net w :
  registry_unique w -> registry_unique (snd (installOnlinePlugins uuid id net w)).
Proof.
  intros Hw. unfold installOnlinePlugins.
  destruct (find (has_id id) (plugins (onlinePlugins (mgr w)))) as [online|]; [|exact Hw].
  destruct net as [| |a]; cbv beta iota zeta delta [log modify].
  - simpl. apply (registry_unique_view w); [|exact Hw]. now destruct w.
  - simpl. apply (registry_unique_view w); [|exact Hw]. now destruct w.
  - set (w2 := with_disk _ _).
    assert (H2 : registry_unique w2).
    { apply (registry_unique_view w); [|exact Hw]. now destruct w. }
    unfold bind.
    pose proof (installPlugins_unique uuid [resolve (location (mgr w)) "_download"]
                  JUndefined w2 H2) as H3.
    destruct (installPlugins _ _ _ w2) as [[r|e] w3]; simpl in *; exact H3.
Qed.

Lemma uninstall_run id w :
  exists w',
    uninstallPlugin id w = (Ok (mgr w'), w') /\
    plugins (localPlugins (mgr w')) = drop_first id (plugins (localPlugins (mgr w))) /\
    index_json (disk w') = Content (localPlugins (mgr w')).
Proof.
  destruct w as [m d t n rc g].
  destruct m as [pc ip cfg man i18 imp prov [pl vs] onl loc pre url rm].
  unfold drop_first. run_world.
  destruct (findIndex (has_id id) pl) as [i|] eqn:Hi.
  - destruct (findIndex_lookup _ _ _ Hi) as (x & Hx & _). rewrite Hx. run_world.
    destruct (findIndex (provider_has_id id) prov);
      (match goal with |- exists w', ?t = _ /\ _ => exists (snd t) end;
       unfold removeFolder; run_world; repeat apply conj; reflexivity).
  - run_world.
    destruct (findIndex (provider_has_id id) prov);
      (match goal with |- exists w', ?t = _ /\ _ => exists (snd t) end;
       run_world; repeat apply conj; reflexivity).
Qed.

Lemma uninstallPlugin_unique id w :
  registry_unique w -> registry_unique (snd (uninstallPlugin id w)).
Proof.
  intros [Hw _]. destruct (uninstall_run id w) as (w' & Hrun & Hpl & Hix).
  rewrite Hrun. simpl. unfold registry_unique. rewrite Hix.
  assert (H : NoDup (ids (plugins (localPlugins (mgr w'))))).
  { rewrite Hpl. now apply drop_first_unique. }
  now split.
Qed.

Lemma saveConfiguration_keeps_view id data : keeps catalog_view (saveConfiguration id data).
Proof. unfold saveConfiguration, write_configuration, getAllData. keeps_tac. Qed.

Lemma refreshOnlinePlugins_keeps_view fetch : keeps catalog_view (refreshOnlinePlugins fetch).
Proof.
  unfold refreshOnlinePlugins, getOnlinePlugins, write_plugins, getAllData.
  keeps_more.
Qed.

Lemma loadPlugin_keeps_view id : keeps catalog_view (loadPlugin id).
Proof.
  unfold loadPlugin, _loadLocalPlugin, require, evaluate, fresh_handle, readFileSync.
  keeps_more.
Qed.

Ltac keeps_modify_tac ::=
  apply keeps_modify; intros ?; unfold catalog_view, with_disk, with_mgr; simpl;
  repeat match goal with
         | |- context [if ?x then _ else _] => destruct x
         | |- context [match ?x with _ => _ end] => destruct x
         end;
  reflexivity.

Ltac keeps_view :=
  solve [ apply preserves_keeps;
          unfold read_i18n, record_plugin, prune_plugin, unzipFile, ensureDir, compare;
          keeps_more ].

Lemma reconcile_preserves data key :
  NoDup (ids (plugins data)) ->
  preserves (reconcile data key) (fun d => NoDup (ids (plugins d))).
Proof.
  intros Hnd. unfold reconcile.
  eapply preserves_bind; [apply preserves_gets | intros entry _].
  destruct entry as [p|]; [|now apply preserves_ret].
  eapply preserves_bind; [apply preserves_gets | intros present _].
  destruct present.
  - eapply preserves_bind; [keeps_view | intros manifest _].
    eapply preserves_bind; [keeps_view | intros i18n _].
    eapply preserves_bind; [keeps_view | intros _ _].
    now apply preserves_ret.
  - eapply preserves_bind; [keeps_view | intros _ _].
    apply preserves_ret. now apply drop_first_unique.
Qed.

Lemma reconcile_all_preserves keys : forall data,
  NoDup (ids (plugins data)) ->
  preserves (reconcile_all keys data) (fun d => NoDup (ids (plugins d))).
Proof.
  induction keys as [|key keys IH]; intros data Hnd; cbn [reconcile_all].
  - now apply preserves_ret.
  - eapply preserves_bind; [now apply reconcile_preserves | exact IH].
Qed.

Lemma read_index_preserves :
  preserves (ix <- gets (fun w => index_json (disk w)) ;; readJSON "index.json" ix)
            (fun d => NoDup (ids (plugins d))).
Proof.
  eapply preserves_bind; [apply preserves_gets | intros ix (w0 & [_ Hw0] & ->)].
  apply preserves_readJSON. intros a Ha. now rewrite Ha in Hw0.
Qed.

Lemma read_catalogs_preserves :
  preserves read_catalogs (fun d => NoDup (ids (plugins d))).
Proof.
  unfold read_catalogs.
  eapply preserves_bind; [apply preserves_gets | intros pre _].
  eapply preserves_bind; [apply preserves_gets | intros pj _].
  eapply preserves_bind; [keeps_view | intros _ _].
  eapply preserves_bind; [apply read_index_preserves | intros data Hdata].
  eapply preserves_bind; [keeps_view | intros _ _].
  now apply preserves_ret.
Qed.

Lemma read_stores_preserves data :
  NoDup (ids (plugins data)) -> preserves (read_stores data) (fun _ => True).
Proof.
  intros Hnd. unfold read_stores.
  eapply preserves_bind; [apply preserves_gets | intros cf _].
  eapply preserves_bind; [keeps_view | intros _ _].
  eapply preserves_bind; [apply preserves_gets | intros cache _].
  eapply preserves_bind; [keeps_view | intros _ _].
  apply preserves_modify. intros w [_ Hw]. split; [|exact Hw].
  destruct w as [m d t n rc g]. exact Hnd.
Qed.

Lemma readLocalPlugins_preserves : preserves _readLocalPlugins (fun _ => True).
Proof.
  unfold _readLocalPlugins.
  eapply preserves_bind; [apply read_catalogs_preserves | intros data Hdata].
  eapply preserves_bind; [apply preserves_gets | intros keys _].
  eapply preserves_bind; [now apply reconcile_all_preserves | intros data' Hdata'].
  eapply preserves_bind; [now apply read_stores_preserves | intros _ _].
  now apply preserves_ret.
Qed.

Lemma remove_fold_keeps_view names acc :
  keeps catalog_view acc -> keeps catalog_view (fold_left remove_step names acc).
Proof.
  revert acc. induction names as [|name names IH]; intros acc Hacc; simpl.
  - exact Hacc.
  - apply IH. unfold remove_step.
    apply keeps_bind; [exact Hacc | intros _]. keeps_more.
Qed.

Section BatchUnique.
Variable compareVersions : string -> string -> option Z.
Variable pluginsFolder : string.

Lemma install_preset_preserves acc p :
  NoDup (ids (plugins (fst acc))) ->
  preserves (install_preset compareVersions pluginsFolder acc p)
            (fun acc' => NoDup (ids (plugins (fst acc')))).
Proof.
  destruct acc as [installed configurations]. simpl. intros Hnd.
  unfold install_preset.
  eapply preserves_bind; [apply preserves_gets | intros preset _].
  eapply preserves_bind; [keeps_view | intros _ _].
  eapply preserves_bind; [keeps_view | intros data _].
  eapply preserves_bind; [keeps_view | intros configurations' _].
  eapply preserves_bind; [keeps_view | intros overwrite_it _].
  destruct overwrite_it; apply preserves_ret; simpl; [|exact Hnd].
  apply (replace_or_prepend_unique (plugins installed) (descriptor pluginsFolder data) Hnd).
Qed.

Lemma install_presets_preserves res : forall acc,
  NoDup (ids (plugins (fst acc))) ->
  preserves (install_presets compareVersions pluginsFolder res acc)
            (fun acc' => NoDup (ids (plugins (fst acc')))).
Proof.
  induction res as [|p res IH]; intros acc Hnd; cbn [install_presets].
  - now apply preserves_ret.
  - eapply preserves_bind; [now apply install_preset_preserves | exact IH].
Qed.

Lemma installDefaultPlugins_preserves :
  preserves (_installDefaultPlugins compareVersions pluginsFolder) (fun _ => True).
Proof.
  unfold _installDefaultPlugins.
  eapply preserves_bind;
    [apply preserves_keeps; unfold getFilesWithExtension; keeps_more | intros res _].
  destruct res as [|r0 res']; [now apply preserves_ret|].
  eapply preserves_bind; [apply preserves_gets | intros cf _].
  eapply preserves_bind; [keeps_view | intros configurations _].
  eapply preserves_bind; [apply preserves_gets | intros ix (w0 & [_ Hw0] & ->)].
  eapply preserves_bind with (Q := fun d => NoDup (ids (plugins d))).
  { destruct (index_json (disk w0)) as [| |c]; simpl.
    - eapply preserves_bind;
        [apply preserves_write_index; constructor | intros _ _].
      apply preserves_ret. constructor.
    - apply preserves_throw.
    - now apply preserves_ret. }
  intros installed Hinst.
  eapply preserves_bind;
    [now apply (install_presets_preserves (r0 :: res') (installed, configurations))
    | intros final Hfinal].
  unfold flush_presets.
  eapply preserves_bind; [now apply preserves_write_index | intros _ _].
  eapply preserves_bind;
    [apply preserves_keeps, keeps_view_write_configuration | intros _ _].
  eapply preserves_bind; [apply preserves_gets | intros remove _].
  destruct remove; [|now apply preserves_ret].
  apply preserves_keeps. rewrite removeFiles_fold.
  apply remove_fold_keeps_view, keeps_ret.
Qed.

End BatchUnique.

(** *** Sequences of operations *)

Lemma perform_unique compareVersions op w :
  registry_unique w -> registry_unique (perform compareVersions op w).
Proof.
  intros Hw. destruct op; simpl.
  - now apply installPlugins_unique.
  - now apply installOnlinePlugins_unique.
  - now apply uninstallPlugin_unique.
  - eapply registry_unique_view; [apply saveConfiguration_keeps_view | exact Hw].
  - eapply registry_unique_view; [apply refreshOnlinePlugins_keeps_view | exact Hw].
  - eapply registry_unique_view; [apply loadPlugin_keeps_view | exact Hw].
  - now apply installDefaultPlugins_preserves.
  - now apply readLocalPlugins_preserves.
Qed.

(** *** What a turn of the preset batch enters *)

Section BatchEnters.
Variable compareVersions : string -> string -> option Z.
Variable pluginsFolder : string.

(** A turn that completes has read a manifest from the directory it
    extracted into, and has entered its descriptor by the same rule as an
    install, unless a newer version is recorded. *)
Lemma install_preset_enters acc p w acc' w' :
  install_preset compareVersions pluginsFolder acc p w = (Ok acc', w') ->
  exists data,
    manifest_json (folder_at (disk w') (getFileNameWithoutExtension p)) = Content data /\
    let candidate := descriptor pluginsFolder data in
    let installed := plugins (fst acc) in
    let recorded := installed_version (versions (fst acc)) (Manifest.pluginId data) in
    let entered := match findIndex (has_id (Manifest.pluginId data)) installed with
                   | Some i => <[i := candidate]> installed
                   | None => candidate :: installed
                   end in
    (recorded = None -> plugins (fst acc') = entered) /\
    (forall v c, recorded = Some v ->
                 compareVersions (Manifest.version data) v = Some c ->
                 plugins (fst acc') = if c =? -1 then installed else entered) /\
    (forall v, recorded = Some v ->
               exists c, compareVersions (Manifest.version data) v = Some c).
Proof.
  destruct acc as [installed configurations]. unfold install_preset, compare.
  cbv beta iota zeta delta [bind gets ret throw fst snd].
  destruct (unzipFile _ _ w) as [[[]|e] wz]; [|discriminate].
  destruct (manifest_json (folder_at (disk wz) (getFileNameWithoutExtension p)))
    as [| |data] eqn:Hman;
    cbv beta iota zeta delta [readJSON ret throw]; try discriminate.
  change (Plugin.pluginId (descriptor pluginsFolder data)) with (Manifest.pluginId data).
  change (Plugin.version (descriptor pluginsFolder data)) with (Manifest.version data).
  destruct (installed_version (versions installed) (Manifest.pluginId data)) as [v|] eqn:Hv.
  - destruct (compareVersions (Manifest.version data) v) as [c|] eqn:Hc; [|discriminate].
    destruct (c =? -1) eqn:Hold; destruct (c =? 1);
      cbn [negb]; intros [= <- <-]; exists data; (split; [exact Hman|]);
      rewrite Hv; (split; [discriminate|]);
      (split; [|intros v0 [= <-]; now exists c]);
      intros v0 c0 [= <-]; rewrite Hc; intros [= <-]; now rewrite Hold.
  - intros [= <- <-]. exists data. split; [exact Hman|].
    rewrite Hv. repeat apply conj; [reflexivity | discriminate | discriminate].
Qed.

End BatchEnters.

(** C8. Starting from a registry without duplicate pluginIds (in memory and
    in index.json; in particular the empty registry of a new manager), after
    every sequence of installs (from an archive, online, or the preset batch),
    uninstalls and reloads, also mixed with configuration saves, catalog
    refreshes and loads, the local catalog's plugin list has at most one entry
    per pluginId.  An install from an archive that unpacks replaces the entry
    of the candidate's pluginId where it stands, and puts the candidate in
    front when there is none.  A turn of the preset batch that completes does
    the same with the descriptor of the manifest it extracted, in the catalog
    that the batch writes to index.json, unless the recorded version is newer
    than the candidate's; then the catalog is left as it is. *)
Theorem catalog_ids_unique
    (compareVersions : string -> string -> option Z) (ops : list Op) (w : World) :
  registry_unique w ->
  NoDup (ids (plugins (localPlugins (mgr (perform_all compareVersions ops w))))) /\
  registry_unique (perform_all compareVersions ops w) /\
  (forall uuid packs setting data i18n w1,
      unpack uuid packs w = (Ok (Some (data, i18n)), w1) ->
      let candidate := descriptor (location (mgr w)) data in
      let installed := plugins (localPlugins (mgr w)) in
      plugins (localPlugins (mgr (perform compareVersions (OpInstall uuid packs setting) w)))
      = match findIndex (has_id (Manifest.pluginId data)) installed with
        | Some i => <[i := candidate]> installed
        | None => candidate :: installed
        end) /\
  (forall pluginsFolder acc p w0 acc' w',
      install_preset compareVersions pluginsFolder acc p w0 = (Ok acc', w') ->
      exists data,
        manifest_json (folder_at (disk w') (getFileNameWithoutExtension p)) = Content data /\
        let candidate := descriptor pluginsFolder data in
        let installed := plugins (fst acc) in
        let recorded := installed_version (versions (fst acc)) (Manifest.pluginId data) in
        let entered := match findIndex (has_id (Manifest.pluginId data)) installed with
                       | Some i => <[i := candidate]> installed
                       | None => candidate :: installed
                       end in
        (recorded = None -> plugins (fst acc') = entered) /\
        (forall v c, recorded = Some v ->
                     compareVersions (Manifest.version data) v = Some c ->
                     plugins (fst acc') = if c =? -1 then installed else entered) /\
        (NoDup (ids installed) -> NoDup (ids (plugins (fst acc'))))) /\
  (forall pluginsFolder w2,
      _installDefaultPlugins compareVersions pluginsFolder w = (Ok tt, w2) ->
      registry_unique w2).
Proof.
  intros Hw.
  assert (Hall : registry_unique (perform_all compareVersions ops w)).
  { unfold perform_all. revert w Hw.
    induction ops as [|op ops IH]; intros w Hw; simpl; [exact Hw|].
    apply IH. now apply perform_unique. }
  split; [exact (proj1 Hall)|]. split; [exact Hall|]. repeat apply conj.
  - intros uuid packs setting data i18n w1 Hun candidate installed. simpl.
    destruct (installPlugins_unpacked uuid packs setting w data i18n w1 Hun) as [Hrun Hm].
    destruct (register_run data i18n setting w1) as (w' & Hreg & Hpl & _).
    rewrite Hrun, Hreg. simpl. rewrite Hpl, Hm. reflexivity.
  - intros pluginsFolder acc p w0 acc' w' Hturn.
    destruct (install_preset_enters compareVersions pluginsFolder acc p w0 acc' w' Hturn)
      as (data & Hman & Hnew & Hrec & Hcmp).
    exists data. split; [exact Hman|]. cbv zeta in *.
    split; [exact Hnew|]. split; [exact Hrec|].
    intros Hnd.
    pose proof (replace_or_prepend_unique _ (descriptor pluginsFolder data) Hnd) as Hent.
    change (Plugin.pluginId (descriptor pluginsFolder data))
      with (Manifest.pluginId data) in Hent.
    destruct (installed_version (versions (fst acc)) (Manifest.pluginId data)) as [v|].
    + destruct (Hcmp v eq_refl) as [c Hc].
      rewrite (Hrec v c eq_refl Hc). now destruct (c =? -1).
    + now rewrite (Hnew eq_refl).
  - intros pluginsFolder w2 Hrun.
    pose proof (installDefaultPlugins_preserves compareVersions pluginsFolder w Hw) as [H _].
    now rewrite Hrun in H.
Qed.

Lemma catalog_ids_unique_witness :
  NoDup (ids (plugins (localPlugins
    (mgr (perform_all semver_compare Lifecycle.ops Lifecycle.start))))) /\
  ids (plugins (localPlugins
    (mgr (perform_all semver_compare Lifecycle.ops Lifecycle.start)))) = ["r"; "p"; "q"] /\
  ids (plugins (localPlugins
    (mgr (perform_all semver_compare (firstn 5 Lifecycle.ops) Lifecycle.start)))) = ["p"; "q"].
Proof.
  split.
  - assert (Hstart : registry_unique Lifecycle.start)
      by (split; [constructor | exact I]).
    destruct (catalog_ids_unique semver_compare Lifecycle.ops Lifecycle.start Hstart)
      as [Hunique _].
    exact Hunique.
  - split; vm_compute; reflexivity.
Defined.

(** * Further properties of the code *)

(** ** Dotted paths *)

Lemma split_nonempty sep s : split sep s <> [].
Proof.
  destruct s as [|c r]; simpl; [discriminate|].
  destruct (Ascii.eqb c sep); [discriminate|].
  destruct (split sep r); discriminate.
Qed.

Lemma split_join sep a b :
  split sep (a ++ String sep b) = (split sep a ++ split sep b)%list.
Proof.
  induction a as [|c a IH]; simpl.
  - now rewrite Ascii.eqb_refl.
  - destruct (Ascii.eqb c sep); [now rewrite IH|].
    rewrite IH. pose proof (split_nonempty sep a) as Hne.
    destruct (split sep a); [contradiction | reflexivity].
Qed.

Lemma getValueFromKeys_undefined ks : ks <> [] -> getValueFromKeys JUndefined ks = JUndefined.
Proof. destruct ks; [contradiction | reflexivity]. Qed.

Lemma getValueFromKeys_app v ka kb :
  kb <> [] ->
  getValueFromKeys v (ka ++ kb) = getValueFromKeys (getValueFromKeys v ka) kb.
Proof.
  intros Hkb. revert v. induction ka as [|k ka IH]; intros v; simpl; [reflexivity|].
  destruct (truthy v && typeof_object v && js_in k v); [apply IH|].
  now rewrite getValueFromKeys_undefined.
Qed.

(** X1. Looking up the path [a.b] is looking up [b] in what the lookup of
    [a] returns, for all settings and all paths [a] and [b] (either may
    itself contain dots): a missing prefix gives [undefined], and so does any
    lookup inside it. *)
Theorem getValueFromJSON_compose (settings : json) (a b : string) :
  getValueFromJSON settings (a ++ "." ++ b)
  = getValueFromJSON (getValueFromJSON settings a) b.
Proof.
  unfold getValueFromJSON.
  change (a ++ "." ++ b) with (a ++ String "."%char b).
  rewrite split_join. apply getValueFromKeys_app, split_nonempty.
Qed.

(** X2. Over settings that are not an object or an array ([undefined],
    [null], a boolean, a number, a string), every path yields [undefined]:
    the lookup never returns the settings value itself, not even for the empty
    path, and never indexes into a string. *)
Theorem getValueFromJSON_primitive (settings : json) (path : string) :
  match settings with JObj _ | JArr _ => False | _ => True end ->
  getValueFromJSON settings path = JUndefined.
Proof.
  intros Hprim. unfold getValueFromJSON.
  pose proof (split_nonempty "."%char path) as Hne.
  destruct (split "."%char path) as [|k ks]; [contradiction|].
  destruct settings; try contradiction; simpl; try reflexivity.
  - now rewrite andb_false_r.
  - now rewrite andb_false_r.
  - now rewrite andb_false_r.
Qed.

Lemma getValueFromJSON_primitive_witness :
  getValueFromJSON (JStr "abc") "length" = JUndefined /\
  getValueFromJSON JUndefined "" = JUndefined.
Proof.
  split; apply getValueFromJSON_primitive; exact I.
Defined.

(** ** The online catalog *)

Lemma get_snoc {V} (o : list (string * V)) k0 v0 k :
  Rec.get (o ++ [(k0, v0)]) k =
  match Rec.get o k with
  | Some v => Some v
  | None => if String.eqb k0 k then Some v0 else None
  end.
Proof.
  induction o as [|[k1 v1] o IH]; simpl; [reflexivity|].
  destruct (String.eqb k1 k); [reflexivity | exact IH].
Qed.





(** X4. When the catalog request returns a response that is not a success
    envelope (a falsy body, [success] false, or no [data]),
    [refreshOnlinePlugins] writes nothing: with a cached plugins.json that
    parses, the online catalog becomes the cached one; without a cache it
    becomes the empty catalog; with a cache that does not parse, the refresh
    throws and the online catalog stays as it was. *)
Theorem refresh_without_success (w : World) (res : option ResponseBody) :
  match res with Some {| success := true; data := Some _ |} => False | _ => True end ->
  refreshOnlinePlugins (FetchResponse res) w =
  match plugins_json (disk w) with
  | Content c => (Ok (set_onlinePlugins c (mgr w)), with_mgr (set_onlinePlugins c) w)
  | Malformed => (Throw (SyntaxError "plugins.json"), w)
  | Absent => (Ok (set_onlinePlugins empty_catalog (mgr w)),
               with_mgr (set_onlinePlugins empty_catalog) w)
  end.
Proof.
  intros Hres. unfold refreshOnlinePlugins, bind.
  rewrite (refresh_bad_body_falls_back w res Hres).
  destruct (plugins_json (disk w)); reflexivity.
Qed.

Lemma refresh_without_success_witness :
  let w := Sample.boot Sample.empty_disk in
  refreshOnlinePlugins (FetchResponse (Some {| success := false; data := None |})) w
  = (Ok (mgr w), w).
Proof.
  cbv zeta.
  rewrite (refresh_without_success (Sample.boot Sample.empty_disk)
             (Some {| success := false; data := None |}) I).
  reflexivity.
Defined.

(** ** The runtime cache *)

(** X5. For a slot id that names no member of the built-in prototype, and
    a key other than [__proto__]: [pluginCache.set(key, value)] followed by
    [pluginCache.get(key)] for the same plugin returns [value]; the set leaves
    every other key of that plugin and every other plugin's slice as they
    were, changes nothing else in the manager, and writes the whole cache to
    cache.json, once. *)
Theorem pluginCache_set_get (w : World) (pluginId : option string) (key : string)
    (value : json) :
  inherited_name (cache_slot pluginId) = false ->
  key <> "__proto__" ->
  exists w',
    pluginCache_set pluginId key value w = (Ok tt, w') /\
    pluginCache_get pluginId key w' = (Ok value, w') /\
    (forall key', key' <> key ->
       fst (pluginCache_get pluginId key' w') = fst (pluginCache_get pluginId key' w)) /\
    (forall other key', cache_slot other <> cache_slot pluginId ->
       fst (pluginCache_get other key' w') = fst (pluginCache_get other key' w)) /\
    set_pluginsCache (pluginsCache (mgr w)) (mgr w') = mgr w /\
    cache_json (disk w') = Content (roundtrip_store (pluginsCache (mgr w'))) /\
    trace w' = (trace w ++ [EWriteFile "cache.json"])%list.
Proof.
  intros Hid Hkey.
  assert (Hproto : cache_slot pluginId <> "__proto__") by (intros E; now rewrite E in Hid).
  apply String.eqb_neq in Hkey, Hproto.
  exists (snd (pluginCache_set pluginId key value w)).
  destruct w as [m d t n rc g]. destruct m.
  unfold pluginCache_set, pluginCache_get, write_cache.
  cbv beta iota zeta delta [bind gets modify ret log with_mgr with_disk fst snd mgr disk
    trace pluginsCache set_pluginsCache set_cache_json cache_json].
  rewrite Hid, Hkey, Hproto.
  destruct (Rec.get pluginsCache0 (cache_slot pluginId)) as [slot|] eqn:Hslot;
    cbv beta iota zeta delta [bind gets modify ret throw log with_mgr with_disk fst snd mgr
      disk trace pluginsCache set_pluginsCache set_cache_json cache_json];
    rewrite ?Hslot, ?RecFacts.get_set_eq; cbn [or_empty];
    cbv beta iota zeta delta [bind gets modify ret throw log with_mgr with_disk fst snd mgr
      disk trace pluginsCache set_pluginsCache set_cache_json cache_json];
    rewrite ?RecFacts.get_set_eq.
  - repeat apply conj; try reflexivity.
    + unfold js_index, member. cbn [own_member]. now rewrite RecFacts.get_set_eq.
    + intros key' Hne. unfold js_index, member. cbn [own_member fst].
      rewrite RecFacts.get_set_ne by congruence. reflexivity.
    + intros other key' Hne. rewrite RecFacts.get_set_ne by congruence.
      destruct (Rec.get pluginsCache0 (cache_slot other)); [reflexivity|].
      destruct (String.eqb (cache_slot other) "__proto__"); [reflexivity|].
      now destruct (inherited_name (cache_slot other)).
  - repeat apply conj; try reflexivity.
    + unfold js_index, member. cbn [own_member]. now rewrite RecFacts.get_set_eq.
    + intros key' Hne. unfold js_index, member. cbn [own_member fst Rec.get Rec.set].
      apply String.eqb_neq in Hne. rewrite String.eqb_sym in Hne. now rewrite Hne.
    + intros other key' Hne. rewrite !RecFacts.get_set_ne by congruence.
      destruct (Rec.get pluginsCache0 (cache_slot other)); [reflexivity|].
      destruct (String.eqb (cache_slot other) "__proto__"); [reflexivity|].
      now destruct (inherited_name (cache_slot other)).
Qed.

Lemma pluginCache_set_get_witness :
  fst (pluginCache_get (Some "p") "token"
         (snd (pluginCache_set (Some "p") "token" (JNum 7) (Sample.boot Sample.empty_disk))))
  = Ok (JNum 7).
Proof.
  destruct (pluginCache_set_get (Sample.boot Sample.empty_disk) (Some "p") "token" (JNum 7))
    as (w' & Hset & Hget & _).
  - reflexivity.
  - discriminate.
  - rewrite Hset. cbn [snd]. rewrite Hget. reflexivity.
Defined.

(** *** What reaches the configuration and cache files *)

Lemma roundtrip_fields_defined (o : list (string * json)) key :
  Rec.get (roundtrip_fields o) key <> Some JUndefined.
Proof.
  unfold roundtrip_fields. cbn [json_roundtrip].
  induction o as [|[k v] o IH]; simpl; [discriminate|].
  destruct v; try exact IH; simpl;
    (destruct (String.eqb k key); [discriminate | exact IH]).
Qed.

Lemma roundtrip_fields_get (o : list (string * json)) key :
  NoDup (Rec.keys o) ->
  Rec.get (roundtrip_fields o) key =
  match Rec.get o key with
  | Some JUndefined | Some (JFun _) => None
  | Some v => Some (json_roundtrip v)
  | None => None
  end.
Proof.
  unfold roundtrip_fields. cbn [json_roundtrip].
  induction o as [|[k v] o IH]; simpl; [reflexivity|].
  intros Hnd. apply NoDup_cons in Hnd as [Hk Hnd].
  assert (Hnone : k = key -> Rec.get o key = None).
  { intros ->. destruct (Rec.get o key) eqn:E; [|reflexivity].
    exfalso. apply Hk. apply list_elem_of_In. eapply get_in_keys; eauto. }
  specialize (IH Hnd).
  destruct (String.eqb k key) eqn:E.
  - apply String.eqb_eq in E. specialize (Hnone E). rewrite Hnone in IH.
    destruct v; simpl; rewrite ?E, ?String.eqb_refl; try reflexivity; exact IH.
  - destruct v; simpl; rewrite ?E; exact IH.
Qed.

Lemma roundtrip_store_get s k :
  Rec.get (roundtrip_store s) k = option_map roundtrip_fields (Rec.get s k).
Proof.
  unfold roundtrip_store. induction s as [|[k0 c] s IH]; simpl; [reflexivity|].
  destruct (String.eqb k0 k); [reflexivity | exact IH].
Qed.

(** X6. What is written to configuration.json keeps every configuration key
    of the store, and under each the fields that hold a value: a field that
    holds [undefined] (an inherited setting that was absent) or a function (an
    inherited setting found on a built-in prototype) is in memory only and is
    not in the file, and no field of the file holds [undefined]. *)
Theorem configuration_file_drops_undefined
    (s : list (string * list (string * json))) (w : World) (k : string) :
  let w' := snd (write_configuration s w) in
  exists onfile,
    configuration_json (disk w') = Content onfile /\
    Rec.keys onfile = Rec.keys s /\
    (forall c, Rec.get s k = Some c ->
       exists c', Rec.get onfile k = Some c' /\
         (forall field, Rec.get c' field <> Some JUndefined) /\
         (forall field, NoDup (Rec.keys c) ->
            Rec.get c field = Some JUndefined -> Rec.get c' field = None) /\
         (forall field name, NoDup (Rec.keys c) ->
            Rec.get c field = Some (JFun name) -> Rec.get c' field = None) /\
         (forall field v, NoDup (Rec.keys c) ->
            Rec.get c field = Some v -> v <> JUndefined -> (forall name, v <> JFun name) ->
            Rec.get c' field = Some (json_roundtrip v))).
Proof.
  cbv zeta. exists (roundtrip_store s). destruct w as [m d t n rc g].
  split; [reflexivity|]. split.
  - unfold roundtrip_store, Rec.keys. rewrite map_map. reflexivity.
  - intros c Hc. exists (roundtrip_fields c). rewrite roundtrip_store_get, Hc.
    split; [reflexivity|]. repeat apply conj.
    + intros field. apply roundtrip_fields_defined.
    + intros field Hnd Hf. now rewrite roundtrip_fields_get, Hf.
    + intros field name Hnd Hf. now rewrite roundtrip_fields_get, Hf.
    + intros field v Hnd Hf Hv Hfun. rewrite roundtrip_fields_get, Hf by assumption.
      destruct v; try reflexivity; [contradiction | now destruct (Hfun name)].
Qed.

(** ** Saving a configuration *)

(** X7. [saveConfiguration(pluginId, data)] for a pluginId that is neither
    installed nor the name of a member that every object inherits returns the
    current state and changes and writes nothing.  For an installed plugin it
    stores [data] as a whole (nothing of an earlier configuration is merged
    in) under the key made of the id and of the installed descriptor's
    version, leaves the configurations under all other keys and the rest of
    the manager as they were, and writes configuration.json (one write;
    index.json is not written).  For a pluginId that is not installed but
    names an inherited member ([constructor], [toString], ...), the lookup is
    truthy and the same is done under the key ["{pluginId}@undefined"]. *)
Theorem saveConfiguration_overwrites (w : World) (pluginId : string)
    (data : list (string * json)) :
  match match Rec.get (installedPlugins (mgr w)) pluginId with
        | Some p => Some (Plugin.version p)
        | None => if inherited_name pluginId then Some "undefined" else None
        end with
  | None => saveConfiguration pluginId data w = (Ok (mgr w), w)
  | Some version =>
      let key := versioned pluginId version in
      exists w',
        saveConfiguration pluginId data w = (Ok (mgr w'), w') /\
        Rec.get (pluginsConfigurations (mgr w')) key = Some data /\
        (forall k, k <> key ->
           Rec.get (pluginsConfigurations (mgr w')) k
           = Rec.get (pluginsConfigurations (mgr w)) k) /\
        set_pluginsConfigurations (pluginsConfigurations (mgr w)) (mgr w') = mgr w /\
        configuration_json (disk w')
          = Content (roundtrip_store (pluginsConfigurations (mgr w'))) /\
        index_json (disk w') = index_json (disk w) /\
        trace w' = (trace w ++ [EWriteFile "configuration.json"])%list
  end.
Proof.
  destruct w as [m d t n rc g]. destruct m.
  run_world.
  destruct (match Rec.get installedPlugins0 pluginId with
            | Some p => Some (Plugin.version p)
            | None => if inherited_name pluginId then Some "undefined" else None
            end) as [version|]; [|reflexivity].
  run_world.
  match goal with |- exists w', ?t = _ /\ _ => exists (snd t) end.
  run_world. repeat apply conj; try reflexivity.
  - apply RecFacts.get_set_eq.
  - intros k Hk. apply RecFacts.get_set_ne. congruence.
Qed.

(** ** Uninstalling an installed plugin *)

Lemma uninstall_run_full id w :
  let m := mgr w in
  let old := old_plugin m id in
  let key := match old with
             | Some d => Some (versioned (Plugin.pluginId d) (Plugin.version d))
             | None => None
             end in
  exists w',
    uninstallPlugin id w = (Ok (mgr w'), w') /\
    plugins (localPlugins (mgr w')) = drop_first id (plugins (localPlugins m)) /\
    versions (localPlugins (mgr w')) = Rec.del (versions (localPlugins m)) id /\
    installedPlugins (mgr w') = Rec.del (installedPlugins m) id /\
    installedPluginsManifests (mgr w') = Rec.del (installedPluginsManifests m) id /\
    installedPluginsI18ns (mgr w') = Rec.del (installedPluginsI18ns m) id /\
    pluginsConfigurations (mgr w') =
      match key with
      | Some k => Rec.del (pluginsConfigurations m) k
      | None => pluginsConfigurations m
      end /\
    pluginProviders (mgr w') =
      match findIndex (provider_has_id id) (pluginProviders m) with
      | Some i => delete i (pluginProviders m)
      | None => pluginProviders m
      end /\
    index_json (disk w') = Content (localPlugins (mgr w')) /\
    configuration_json (disk w')
      = Content (roundtrip_store (pluginsConfigurations (mgr w'))) /\
    folders (disk w') =
      match key with
      | Some k => Rec.del (folders (disk w)) k
      | None => folders (disk w)
      end /\
    trace w' =
      (trace w ++ [EWriteFile "index.json"; EWriteFile "configuration.json"]
       ++ match key with Some k => [ERemoveFolder k] | None => [] end)%list /\
    pluginsCache (mgr w') = pluginsCache m /\
    importedPlugins (mgr w') = importedPlugins m /\
    onlinePlugins (mgr w') = onlinePlugins m.
Proof.
  destruct w as [m d t n rc g].
  destruct m as [pc ip cfg man i18 imp prov [pl vs] onl loc pre url rm].
  cbv zeta. unfold old_plugin, drop_first. run_world.
  destruct (findIndex (has_id id) pl) as [i|] eqn:Hi.
  - destruct (findIndex_lookup _ _ _ Hi) as (x & Hx & _). rewrite Hx. run_world.
    destruct (findIndex (provider_has_id id) prov);
      (match goal with |- exists w', ?t = _ /\ _ => exists (snd t) end;
       unfold removeFolder; run_world; rewrite <- !app_assoc;
       repeat apply conj; reflexivity).
  - run_world.
    destruct (findIndex (provider_has_id id) prov);
      (match goal with |- exists w', ?t = _ /\ _ => exists (snd t) end;
       run_world; rewrite <- !app_assoc; repeat apply conj; reflexivity).
Qed.

Lemma drop_first_keeps key l q :
  In q l -> Plugin.pluginId q <> key -> In q (drop_first key l).
Proof.
  induction l as [|x l IH]; [easy|].
  rewrite drop_first_cons. intros [->|Hin] Hne.
  - unfold has_id. destruct (String.eqb_spec (Plugin.pluginId q) key); [contradiction|].
    now left.
  - destruct (has_id key x); [exact Hin | right; now apply IH].
Qed.

(** X8. Uninstalling a plugin that is in the catalog, when the catalog
    lists each pluginId once, removes it as a unit: its entry leaves the
    catalog list and [versions], [installedPlugins], the manifests and the
    localization bundles; the configuration under ["{pluginId}@{version}"] of
    the removed descriptor is deleted; the entries of every other plugin stay.
    index.json and configuration.json are written with the new state before
    the versioned directory is removed, and that directory is gone
    afterwards. *)
Theorem uninstall_removes_unit (w : World) (pluginId : string) (d : Plugin.t) :
  NoDup (ids (plugins (localPlugins (mgr w)))) ->
  old_plugin (mgr w) pluginId = Some d ->
  let key := versioned (Plugin.pluginId d) (Plugin.version d) in
  exists w',
    uninstallPlugin pluginId w = (Ok (mgr w'), w') /\
    Plugin.pluginId d = pluginId /\
    ~ In pluginId (ids (plugins (localPlugins (mgr w')))) /\
    (forall q, In q (plugins (localPlugins (mgr w))) -> Plugin.pluginId q <> pluginId ->
               In q (plugins (localPlugins (mgr w')))) /\
    Rec.get (versions (localPlugins (mgr w'))) pluginId = None /\
    Rec.get (installedPlugins (mgr w')) pluginId = None /\
    Rec.get (installedPluginsManifests (mgr w')) pluginId = None /\
    Rec.get (installedPluginsI18ns (mgr w')) pluginId = None /\
    Rec.get (pluginsConfigurations (mgr w')) key = None /\
    (forall k, k <> key ->
       Rec.get (pluginsConfigurations (mgr w')) k = Rec.get (pluginsConfigurations (mgr w)) k) /\
    index_json (disk w') = Content (localPlugins (mgr w')) /\
    configuration_json (disk w')
      = Content (roundtrip_store (pluginsConfigurations (mgr w'))) /\
    Rec.get (folders (disk w')) key = None /\
    trace w' = (trace w ++ [EWriteFile "index.json"; EWriteFile "configuration.json";
                            ERemoveFolder key])%list.
Proof.
  intros Hnd Hold key.
  destruct (uninstall_run_full pluginId w)
    as (w' & Hrun & Hpl & Hvs & Hip & Hman & Hi18 & Hcfg & _ & Hix & Hcf & Hfo & Htr & _).
  cbv zeta in *. rewrite Hold in *.
  exists w'. split; [exact Hrun|].
  assert (Hid : Plugin.pluginId d = pluginId).
  { unfold old_plugin in Hold.
    destruct (findIndex (has_id pluginId) (plugins (localPlugins (mgr w)))) as [i|] eqn:Hi;
      [|discriminate].
    destruct (findIndex_lookup _ _ _ Hi) as (x & Hx & Hfx).
    rewrite Hx in Hold. injection Hold as <-. now apply String.eqb_eq. }
  split; [exact Hid|].
  rewrite Hpl, Hvs, Hip, Hman, Hi18, Hcfg, Hfo, Htr.
  repeat apply conj; try apply RecFacts.get_del_eq; try assumption.
  - now apply drop_first_gone.
  - intros q Hq Hne. now apply drop_first_keeps.
  - intros k Hk. apply RecFacts.get_del_ne. intros E. apply Hk. now rewrite <- E.
  - now rewrite <- Hcfg.
  - reflexivity.
Qed.

Lemma uninstall_removes_unit_witness :
  let w := Downgrade.newer_installed in
  ~ In "p" (ids (plugins (localPlugins (mgr (snd (uninstallPlugin "p" w)))))).
Proof.
  cbv zeta.
  destruct (uninstall_removes_unit Downgrade.newer_installed "p"
              (descriptor "/plugins" (Sample.manifest "p" "2.0.0" None [])))
    as (w' & Hrun & _ & Hgone & _).
  - vm_compute. repeat constructor. intros H. inversion H.
  - vm_compute. reflexivity.
  - rewrite Hrun. exact Hgone.
Defined.

(** ** What [unpack] leaves on disk *)

Ltac run_steps :=
  cbv beta iota zeta delta
    [bind gets modify ret throw log with_disk with_mgr fst snd
     mgr disk trace next_ref require_cache global_pluginCache].

Lemma folder_at_set d name f name' :
  folder_at (set_folders (Rec.set (folders d) name f) d) name'
  = if String.eqb name name' then f else folder_at d name'.
Proof.
  unfold folder_at. cbn [folders set_folders].
  destruct (String.eqb_spec name name') as [->|Hne].
  - now rewrite RecFacts.get_set_eq.
  - now rewrite RecFacts.get_set_ne.
Qed.

Lemma ensured_folder_at d name name' :
  folder_at (ensured d name) name' = folder_at d name'.
Proof.
  unfold ensured, Rec.has. destruct (Rec.get (folders d) name) eqn:E; [reflexivity|].
  rewrite folder_at_set. destruct (String.eqb_spec name name') as [<-|]; [|reflexivity].
  unfold folder_at. now rewrite E.
Qed.

Lemma ensured_archives d name : archives (ensured d name) = archives d.
Proof. unfold ensured. now destruct (Rec.has (folders d) name). Qed.

Lemma ensured_twice d name : ensured (ensured d name) name = ensured d name.
Proof.
  unfold ensured at 1.
  assert (H : Rec.has (folders (ensured d name)) name = true).
  { unfold ensured, Rec.has. destruct (Rec.get (folders d) name) eqn:E.
    - now rewrite E.
    - cbn [folders set_folders]. now rewrite RecFacts.get_set_eq. }
  now rewrite H.
Qed.

Lemma unpack_ok_inv uuid packs w data i18n w1 :
  unpack uuid packs w = (Ok (Some (data, i18n)), w1) ->
  let target := versioned (Manifest.pluginId data) (Manifest.version data) in
  exists pack rest payload,
    packs = pack :: rest /\
    Rec.get (archives (disk w)) pack = Some (ArchiveOf payload) /\
    manifest_json (merge_folder (folder_at (disk w) uuid) payload) = Content data /\
    trace w1 = (trace w ++ [EUnzip pack uuid; ECopyFolder target; ERemoveFolder uuid])%list /\
    (uuid <> target ->
     Rec.get (folders (disk w1)) uuid = None /\
     exists f, Rec.get (folders (disk w1)) target = Some f /\
               manifest_json f = Content data).
Proof.
  destruct w as [m d t n rc g].
  unfold unpack, unzipFile, ensureDir, findFileInFolder, copyFolder, removeFolder, read_i18n.
  destruct packs as [|pack rest]; run_steps; [discriminate|].
  fold (ensured d uuid). fold (ensured (ensured d uuid) uuid).
  rewrite ensured_twice, ensured_archives.
  destruct (Rec.get (archives d) pack) as [[|payload]|] eqn:Hpack; try discriminate.
  run_steps.
  rewrite !folder_at_set, !String.eqb_refl, !ensured_folder_at.
  set (unpacked := merge_folder (folder_at d uuid) payload).
  destruct (manifest_json unpacked) as [| |data0] eqn:Hman;
    cbv beta iota zeta delta [existsSync readJSON ret throw]; try discriminate;
    run_steps; rewrite !folder_at_set, !String.eqb_refl; fold unpacked; rewrite Hman;
    run_steps; try discriminate.
  match goal with
  | |- context [i18n_json ?f] => destruct (i18n_json f) as [| |b] eqn:Hi18
  end; cbv beta iota zeta delta [existsSync readJSON ret throw]; try discriminate;
    intros [= <- <- <-]; cbv zeta; exists pack, rest, payload;
    (split; [reflexivity|]); (split; [exact Hpack|]); (split; [exact Hman|]);
    (split; [cbn [trace]; now rewrite <- !app_assoc|]);
    intros Hne; cbn [disk]; cbn [folders set_folders];
    (split; [apply RecFacts.get_del_eq|]);
    rewrite RecFacts.get_del_ne by exact Hne;
    rewrite RecFacts.get_set_eq; eexists; (split; [reflexivity|]);
    unfold merge_folder at 1; cbn [manifest_json];
    rewrite (folder_at_set (ensured d uuid) uuid unpacked uuid), String.eqb_refl, Hman;
    reflexivity.
Qed.

(** The archive at the head of [packs] extracts, the directory it leaves
    holds a manifest that parses, and the localization file of the versioned
    directory, if any, parses: then [unpack] returns that manifest. *)
Lemma unpack_run uuid pack rest w payload data :
  let d := disk w in
  let unpacked := merge_folder (folder_at d uuid) payload in
  let target := versioned (Manifest.pluginId data) (Manifest.version data) in
  let bundle := overwrite (i18n_json (folder_at d target)) (i18n_json unpacked) in
  Rec.get (archives d) pack = Some (ArchiveOf payload) ->
  manifest_json unpacked = Content data ->
  uuid <> target ->
  bundle <> Malformed ->
  exists w1,
    unpack uuid (pack :: rest) w
    = (Ok (Some (data, match bundle with Content b => b | _ => empty_i18n end)), w1).
Proof.
  destruct w as [m d t n rc g]. cbn [disk]. cbv zeta.
  intros Hpack Hman Hne Hbundle.
  unfold unpack, unzipFile, ensureDir, findFileInFolder, copyFolder, removeFolder, read_i18n.
  run_steps.
  fold (ensured d uuid). fold (ensured (ensured d uuid) uuid).
  rewrite ensured_twice, ensured_archives, Hpack.
  run_steps.
  rewrite !folder_at_set, !String.eqb_refl, !ensured_folder_at, Hman.
  cbv beta iota zeta delta [existsSync readJSON ret throw]. run_steps.
  rewrite !folder_at_set, !String.eqb_refl, Hman. run_steps.
  set (target := versioned (Manifest.pluginId data) (Manifest.version data)) in *.
  match goal with
  | |- context [i18n_json ?f] =>
      assert (Hf : i18n_json f
                   = overwrite (i18n_json (folder_at d target))
                               (i18n_json (merge_folder (folder_at d uuid) payload)))
  end.
  { unfold folder_at at 1. cbn [folders set_folders].
    rewrite RecFacts.get_del_ne by exact Hne. rewrite RecFacts.get_set_eq.
    unfold merge_folder at 1. cbn [i18n_json].
    rewrite !folder_at_set, String.eqb_refl.
    destruct (String.eqb_spec uuid target) as [E|_]; [contradiction|].
    now rewrite ensured_folder_at. }
  rewrite Hf.
  destruct (overwrite _ _) as [| |b]; [| contradiction |];
    cbv beta iota zeta delta [existsSync readJSON ret throw]; eexists; reflexivity.
Qed.

(** ** Installing from an archive *)

Lemma register_run_more (data : Manifest.t) (i18n : I18n) (setting : json) (w : World) :
  let m := mgr w in
  let id := Manifest.pluginId data in
  let w' := snd (register data i18n setting w) in
  installedPluginsI18ns (mgr w') = Rec.set (installedPluginsI18ns m) id i18n /\
  pluginProviders (mgr w') =
    match findIndex (provider_has_id id) (pluginProviders m) with
    | None => (pluginProviders m
               ++ [provider_entry (Manifest.provider data) id (Manifest.type data)])%list
    | Some _ => pluginProviders m
    end /\
  configuration_json (disk w')
    = Content (roundtrip_store (pluginsConfigurations (mgr w'))) /\
  pluginsCache (mgr w') = pluginsCache m /\
  importedPlugins (mgr w') = importedPlugins m /\
  onlinePlugins (mgr w') = onlinePlugins m.
Proof.
  destruct w as [m d t n rc g].
  destruct m as [pc ip cfg man i18 imp prov [pl vs] onl loc pre url rm].
  cbv zeta. run_world.
  change (Plugin.pluginId (descriptor loc data)) with (Manifest.pluginId data).
  change (Plugin.version (descriptor loc data)) with (Manifest.version data).
  change (Plugin.type (descriptor loc data)) with (Manifest.type data).
  destruct (findIndex (has_id (Manifest.pluginId data)) pl) as [i|] eqn:Hi.
  - destruct (findIndex_lookup _ _ _ Hi) as (x & Hx & _). rewrite Hx. run_world.
    destruct (findIndex (provider_has_id (Manifest.pluginId data)) prov);
      run_world; repeat apply conj; reflexivity.
  - run_world.
    destruct (findIndex (provider_has_id (Manifest.pluginId data)) prov);
      run_world; repeat apply conj; reflexivity.
Qed.

Lemma replace_or_prepend_in l p :
  In p (match findIndex (has_id (Plugin.pluginId p)) l with
        | Some i => <[i := p]> l
        | None => p :: l
        end).
Proof.
  destruct (findIndex (has_id (Plugin.pluginId p)) l) as [i|] eqn:Hi; [|now left].
  destruct (findIndex_lookup _ _ _ Hi) as (x & Hx & _).
  apply list_elem_of_In. apply list_elem_of_lookup. exists i.
  apply list_lookup_insert_eq. eapply lookup_lt_Some; eauto.
Qed.



(** ** Installing and then uninstalling *)

(** The whole of a successful install, on the registry and on the disk. *)
Lemma install_run uuid pack rest setting payload data w :
  let d := disk w in
  let m := mgr w in
  let id := Manifest.pluginId data in
  let unpacked := merge_folder (folder_at d uuid) payload in
  let target := versioned id (Manifest.version data) in
  let plugin := descriptor (location m) data in
  let bundle := overwrite (i18n_json (folder_at d target)) (i18n_json unpacked) in
  Rec.get (archives d) pack = Some (ArchiveOf payload) ->
  manifest_json unpacked = Content data ->
  uuid <> target ->
  bundle <> Malformed ->
  exists w',
    installPlugins uuid (pack :: rest) setting w = (Ok (Some (mgr w')), w') /\
    plugins (localPlugins (mgr w')) =
      match findIndex (has_id id) (plugins (localPlugins m)) with
      | Some i => <[i := plugin]> (plugins (localPlugins m))
      | None => plugin :: plugins (localPlugins m)
      end /\
    versions (localPlugins (mgr w')) =
      Rec.set (versions (localPlugins m)) id (Manifest.version data) /\
    pluginsConfigurations (mgr w') =
      Rec.set (pluginsConfigurations m) target
              (Rec.spread (inheritPluginsConfigurations data setting)
                          (old_configuration m id)) /\
    installedPluginsManifests (mgr w') = Rec.set (installedPluginsManifests m) id data /\
    installedPlugins (mgr w') = Rec.set (installedPlugins m) id plugin /\
    installedPluginsI18ns (mgr w') =
      Rec.set (installedPluginsI18ns m) id
              (match bundle with Content b => b | _ => empty_i18n end) /\
    pluginProviders (mgr w') =
      match findIndex (provider_has_id id) (pluginProviders m) with
      | None => (pluginProviders m
                 ++ [provider_entry (Manifest.provider data) id (Manifest.type data)])%list
      | Some _ => pluginProviders m
      end /\
    index_json (disk w') = Content (localPlugins (mgr w')) /\
    configuration_json (disk w')
      = Content (roundtrip_store (pluginsConfigurations (mgr w'))) /\
    Rec.get (folders (disk w')) uuid = None /\
    (exists f, Rec.get (folders (disk w')) target = Some f /\
               manifest_json f = Content data) /\
    trace w' = (trace w ++ [EUnzip pack uuid; ECopyFolder target; ERemoveFolder uuid;
                            EWriteFile "index.json"; EWriteFile "configuration.json"])%list.
Proof.
  cbv zeta. intros Hpack Hman Hne Hbundle.
  destruct (unpack_run uuid pack rest w payload data Hpack Hman Hne Hbundle) as (w1 & Hun).
  match type of Hun with _ = (Ok (Some (_, ?b)), _) => set (bundle := b) in * end.
  destruct (installPlugins_unpacked uuid (pack :: rest) setting w data bundle w1 Hun)
    as [Hrun Hm].
  destruct (unpack_ok_inv _ _ _ _ _ _ Hun)
    as (pack0 & rest0 & payload0 & Hpacks & _ & _ & Htr1 & Hfold).
  injection Hpacks as <- <-.
  destruct (Hfold Hne) as (Htmp & f & Hf & Hfman).
  destruct (register_run data bundle setting w1)
    as (w' & Hreg & Hpl & Hvs & Hcfg & Hmanif & Hip & Hix & Hfo & Htr).
  pose proof (register_run_more data bundle setting w1) as Hmore.
  cbv zeta in Hmore. rewrite Hreg in Hmore. cbn [snd] in Hmore.
  destruct Hmore as (Hi18 & Hprov & Hcf & _).
  exists w'. split; [now rewrite Hrun|].
  rewrite Hm in *. rewrite <- Hfo in Htmp, Hf.
  repeat apply conj; try assumption.
  - exists f. now split.
  - rewrite Htr, Htr1, <- app_assoc. reflexivity.
Qed.







(** ** An archive without a manifest *)

Lemma ensured_files d name :
  index_json (ensured d name) = index_json d /\
  configuration_json (ensured d name) = configuration_json d.
Proof. unfold ensured. now destruct (Rec.has (folders d) name). Qed.

Lemma ensured_get_ne d name name' :
  name' <> name -> Rec.get (folders (ensured d name)) name' = Rec.get (folders d) name'.
Proof.
  intros Hne. unfold ensured. destruct (Rec.has (folders d) name); [reflexivity|].
  cbn [folders set_folders]. apply RecFacts.get_set_ne. congruence.
Qed.

(** X11. When the first archive extracts but the directory it leaves holds
    no manifest.json, [installPlugins] returns [undefined] without throwing:
    the manager is unchanged, neither index.json nor configuration.json is
    written, and the temporary directory is not removed: it stays on disk
    with the extracted files. *)
Theorem install_without_manifest
    (w : World) (uuid pack : string) (rest : list string) (setting : json)
    (payload : Folder) :
  let d := disk w in
  let unpacked := merge_folder (folder_at d uuid) payload in
  Rec.get (archives d) pack = Some (ArchiveOf payload) ->
  manifest_json unpacked = Absent ->
  exists w',
    installPlugins uuid (pack :: rest) setting w = (Ok None, w') /\
    mgr w' = mgr w /\
    Rec.get (folders (disk w')) uuid = Some unpacked /\
    (forall name, name <> uuid ->
       Rec.get (folders (disk w')) name = Rec.get (folders d) name) /\
    index_json (disk w') = index_json d /\
    configuration_json (disk w') = configuration_json d /\
    trace w' = (trace w ++ [EUnzip pack uuid])%list.
Proof.
  destruct w as [m d t n rc g]. cbn [disk]. cbv zeta.
  intros Hpack Hman.
  unfold installPlugins, unpack, unzipFile, ensureDir, findFileInFolder.
  run_steps.
  fold (ensured d uuid). fold (ensured (ensured d uuid) uuid).
  rewrite ensured_twice, ensured_archives, Hpack.
  run_steps.
  rewrite !folder_at_set, !String.eqb_refl, !ensured_folder_at, Hman.
  cbv beta iota zeta delta [existsSync ret]. run_steps.
  eexists. split; [reflexivity|].
  cbn [mgr disk trace folders set_folders index_json configuration_json].
  destruct (ensured_files d uuid) as [Hix Hcf].
  repeat apply conj; try reflexivity; try assumption.
  - apply RecFacts.get_set_eq.
  - intros name Hne. rewrite RecFacts.get_set_ne by congruence.
    now apply ensured_get_ne.
Qed.

Lemma install_without_manifest_witness :
  let d := set_archives [("/tmp/empty.zip", ArchiveOf empty_folder)] Sample.empty_disk in
  fst (installPlugins "u1" ["/tmp/empty.zip"] JUndefined (Sample.boot d)) = Ok None.
Proof.
  cbv zeta.
  destruct (install_without_manifest
              (Sample.boot (set_archives [("/tmp/empty.zip", ArchiveOf empty_folder)]
                              Sample.empty_disk))
              "u1" "/tmp/empty.zip" [] JUndefined empty_folder)
    as (w' & Hrun & _).
  - vm_compute. reflexivity.
  - vm_compute. reflexivity.
  - rewrite Hrun. reflexivity.
Defined.

(** ** The promise of an online install *)

Lemma register_returns data i18n setting w :
  exists w', register data i18n setting w = (Ok (Some (mgr w')), w').
Proof.
  destruct (register_run data i18n setting w) as (w' & H & _). now exists w'.
Qed.

(** A throw of [installPlugins] comes from the unpacking, before the
    registry is touched. *)
Lemma installPlugins_throw uuid packs setting w e w' :
  installPlugins uuid packs setting w = (Throw e, w') ->
  unpack uuid packs w = (Throw e, w') /\ mgr w' = mgr w.
Proof.
  unfold installPlugins, bind.
  pose proof (unpack_keeps_mgr uuid packs w) as K.
  destruct (unpack uuid packs w) as [[[[data i18n]|]|e0] w1]; cbn [snd] in K.
  - destruct (register_returns data i18n setting w1) as (w2 & ->). discriminate.
  - discriminate.
  - intros [= <- <-]. now split.
Qed.

Lemma unpack_keeps_archives uuid packs :
  keeps (fun w => archives (disk w)) (unpack uuid packs).
Proof.
  unfold unpack, ensureDir, unzipFile, findFileInFolder, copyFolder, removeFolder,
    read_i18n, ensureDir.
  keeps_tac.
Qed.

(** X12. The promise of [installOnlinePlugins] for a plugin that the online
    catalog lists, by what the download meets.  A request that fails rejects
    the promise, with the manager and the disk as before.  A transfer that
    does not finish leaves the promise pending for ever, nothing else
    changed.  After a saved file the install runs on it without host
    settings: when the install returns, the promise resolves with the
    manager's state after it; when the install throws (an archive that does
    not extract, a manifest that does not parse) the promise is never
    settled, the manager is unchanged and the downloaded file stays at its
    path. *)
Theorem online_install_outcomes
    (w : World) (uuid pluginId : string) (net : DownloadResult) (online : Plugin.t) :
  find (has_id pluginId) (plugins (onlinePlugins (mgr w))) = Some online ->
  let save := resolve (location (mgr w)) "_download" in
  let started := snd (log (EDownload (Plugin.link online)) w) in
  mgr started = mgr w /\ disk started = disk w /\
  match net with
  | DownloadFails =>
      installOnlinePlugins uuid pluginId net w = (Rejected NetworkError, started)
  | DownloadStalls =>
      installOnlinePlugins uuid pluginId net w = (Pending, started)
  | Downloaded a =>
      let saved := with_disk (fun d => set_archives (Rec.set (archives d) save a) d) started in
      match installPlugins uuid [save] JUndefined saved with
      | (Ok _, w') =>
          installOnlinePlugins uuid pluginId net w = (Resolved (mgr w'), w')
      | (Throw _, w') =>
          installOnlinePlugins uuid pluginId net w = (Pending, w') /\
          mgr w' = mgr w /\
          Rec.get (archives (disk w')) save = Some a
      end
  end.
Proof.
  intros Hfind. cbv zeta. unfold installOnlinePlugins. rewrite Hfind.
  destruct w as [m d t n rc g].
  unfold log, modify.
  cbn [mgr disk trace next_ref require_cache global_pluginCache snd].
  split; [reflexivity|]. split; [reflexivity|].
  destruct net as [| |a]; try reflexivity.
  set (save := resolve (location m) "_download").
  match goal with
  | |- context [installPlugins uuid [save] JUndefined ?x] => set (w2 := x)
  end.
  destruct (installPlugins uuid [save] JUndefined w2) as [[r|e] w3] eqn:Hrun;
    unfold bind at 1; rewrite Hrun.
  - reflexivity.
  - destruct (installPlugins_throw _ _ _ _ _ _ Hrun) as [Hun Hm].
    split; [reflexivity|]. split; [exact Hm|].
    pose proof (unpack_keeps_archives uuid [save] w2) as K.
    rewrite Hun in K. cbn [snd] in K. rewrite K.
    subst w2. unfold with_disk. cbn [disk archives set_archives set_preset].
    apply RecFacts.get_set_eq.
Qed.

Lemma online_install_outcomes_witness :
  let listed := descriptor "/plugins" (Sample.manifest "p" "1.0.0" None []) in
  let w := with_mgr (set_onlinePlugins {| plugins := [listed]; versions := [("p", "1.0.0")] |})
                    (Sample.boot Sample.empty_disk) in
  fst (installOnlinePlugins "u1" "p" (Downloaded ArchiveCorrupt) w) = Pending /\
  fst (installOnlinePlugins "u1" "p" DownloadStalls w) = Pending /\
  fst (installOnlinePlugins "u1" "p" DownloadFails w) = Rejected NetworkError.
Proof.
  cbv zeta.
  set (listed := descriptor "/plugins" (Sample.manifest "p" "1.0.0" None [])).
  set (w := with_mgr (set_onlinePlugins {| plugins := [listed]; versions := [("p", "1.0.0")] |})
                     (Sample.boot Sample.empty_disk)).
  assert (Hfind : find (has_id "p") (plugins (onlinePlugins (mgr w))) = Some listed)
    by (vm_compute; reflexivity).
  repeat apply conj.
  - destruct (online_install_outcomes w "u1" "p" (Downloaded ArchiveCorrupt) listed Hfind)
      as (_ & _ & H).
    cbv zeta in H.
    destruct (installPlugins "u1" _ JUndefined _) as [[r|e] w3] eqn:Hrun.
    + vm_compute in Hrun. discriminate.
    + destruct H as [-> _]. reflexivity.
  - destruct (online_install_outcomes w "u1" "p" DownloadStalls listed Hfind) as (_ & _ & ->).
    reflexivity.
  - destruct (online_install_outcomes w "u1" "p" DownloadFails listed Hfind) as (_ & _ & ->).
    reflexivity.
Defined.

(** ** Loading *)


Ltac run_steps_in H :=
  cbv beta iota zeta delta
    [bind gets modify ret throw log with_disk with_mgr fst snd
     mgr disk trace next_ref require_cache global_pluginCache] in H.

Lemma truthy_id_some id : id <> "" -> truthy_id (Some id) = Some id.
Proof.
  intros H. unfold truthy_id. destruct (String.eqb_spec id ""); [contradiction | reflexivity].
Qed.

Lemma loadPlugin_cached (w : World) (pluginId : string) (sp : Plugin.t) (h : Handle) :
  pluginId <> "" ->
  Rec.get (installedPlugins (mgr w)) pluginId = Some sp ->
  Rec.get (importedPlugins (mgr w)) pluginId = Some h ->
  let file := resolve_any (location (mgr w)) (Plugin.file sp) in
  match script_at w file with
  | Absent => loadPlugin pluginId w = (Throw (ENOENT file), w)
  | _ =>
      loadPlugin pluginId w
      = (Ok h, {| mgr := mgr w; disk := disk w; trace := trace w; next_ref := next_ref w;
                  require_cache := require_cache w;
                  global_pluginCache := Some (Some pluginId) |})
  end.
Proof.
  intros Hid Hsp Himp. destruct w as [m d t n rc g]. cbn [mgr] in *. cbv zeta.
  unfold loadPlugin, _loadLocalPlugin, readFileSync. run_steps.
  rewrite Hsp. run_steps.
  destruct (script_at _ _); run_steps; try reflexivity;
    rewrite (truthy_id_some _ Hid), Himp; reflexivity.
Qed.



(** X14. A plugin that is installed and already imported: [loadPlugin]
    returns the imported object without running anything, and binds the
    process-wide [pluginCache] accessor to this plugin.  But the entry file is
    read before the imported object is looked up: when the file is gone the
    call throws, although the module is cached. *)
Theorem load_cached_module (w : World) (pluginId : string) (sp : Plugin.t) (h : Handle) :
  pluginId <> "" ->
  Rec.get (installedPlugins (mgr w)) pluginId = Some sp ->
  Rec.get (importedPlugins (mgr w)) pluginId = Some h ->
  let file := resolve_any (location (mgr w)) (Plugin.file sp) in
  match script_at w file with
  | Absent => loadPlugin pluginId w = (Throw (ENOENT file), w)
  | _ =>
      loadPlugin pluginId w
      = (Ok h, {| mgr := mgr w; disk := disk w; trace := trace w; next_ref := next_ref w;
                  require_cache := require_cache w;
                  global_pluginCache := Some (Some pluginId) |})
  end.
Proof. exact (loadPlugin_cached w pluginId sp h). Qed.

Lemma load_cached_module_witness :
  fst (loadPlugin "p" (snd (LoadTwice.first (Some import_module))))
  = Ok {| href := 0; hfile := "/plugins/p@1.0.0/index.js" |}.
Proof.
  pose proof (load_cached_module (snd (LoadTwice.first (Some import_module))) "p"
                (descriptor "/plugins" (Sample.manifest "p" "1.0.0" (Some import_module) []))
                {| href := 0; hfile := "/plugins/p@1.0.0/index.js" |}) as H.
  cbv zeta in H.
  assert (Hf : resolve_any (location (mgr (snd (LoadTwice.first (Some import_module)))))
                 (Plugin.file (descriptor "/plugins"
                                 (Sample.manifest "p" "1.0.0" (Some import_module) [])))
               = "/plugins/p@1.0.0/index.js") by (vm_compute; reflexivity).
  assert (Hscr : script_at (snd (LoadTwice.first (Some import_module)))
                   "/plugins/p@1.0.0/index.js"
                 = Content {| script_source := "module.exports = {}";
                              script_throws := false |})
    by (vm_compute; reflexivity).
  rewrite Hf, Hscr in H.
  rewrite H.
  - reflexivity.
  - discriminate.
  - vm_compute. reflexivity.
  - vm_compute. reflexivity.
Defined.



(** ** Removing the preset archives *)

Lemma removeFiles_snoc names name :
  removeFiles (names ++ [name]) = remove_step (removeFiles names) name.
Proof. unfold removeFiles. now rewrite fold_left_app. Qed.

Lemma filter_filter_negb {A} (f g : A -> bool) l :
  List.filter (fun x => negb (g x)) (List.filter (fun x => negb (f x)) l)
  = List.filter (fun x => negb (f x || g x)) l.
Proof.
  induction l as [|x l IH]; simpl; [reflexivity|].
  destruct (f x); simpl; [exact IH|].
  destruct (g x); simpl; [exact IH | now rewrite IH].
Qed.

Lemma filter_ext_bool {A} (f g : A -> bool) l :
  (forall x, f x = g x) -> List.filter f l = List.filter g l.
Proof.
  intros H. induction l as [|x l IH]; simpl; [reflexivity|]. now rewrite H, IH.
Qed.

Lemma removeFiles_run (names : list string) (w : World) :
  let preset := presetLocation (mgr w) in
  let refused := fun n => is_locked (disk w) (resolve preset n) in
  exists w',
    removeFiles names w = (Ok tt, w') /\
    mgr w' = mgr w /\
    locked (disk w') = locked (disk w) /\
    preset_files (disk w') =
      option_map
        (List.filter (fun f => negb (existsb (fun n => String.eqb f n && negb (refused n))
                                             names)))
        (preset_files (disk w)) /\
    (forall n, In n names -> refused n = false ->
       Rec.get (archives (disk w')) (resolve preset n) = None) /\
    (forall path, (forall n, In n names -> refused n = false -> resolve preset n <> path) ->
       Rec.get (archives (disk w')) path = Rec.get (archives (disk w)) path) /\
    folders (disk w') = folders (disk w) /\
    flushed w' = flushed w /\
    trace w' = (trace w ++ map (fun n => ERemoveFile (resolve preset n))
                               (List.filter (fun n => negb (refused n)) names))%list.
Proof.
  cbv zeta. destruct w as [m d t n rc g]. cbn [mgr disk trace].
  induction names as [|name names IH] using rev_ind.
  - eexists. unfold removeFiles. cbn [fold_left map existsb negb List.filter].
    split; [reflexivity|]. cbn [mgr disk trace].
    repeat apply conj; try reflexivity.
    + destruct (preset_files d) as [l|]; [|reflexivity]. cbn [option_map].
      f_equal. induction l as [|x l IHl]; [reflexivity|]. cbn. now rewrite <- IHl.
    + intros n0 [].
    + now rewrite app_nil_r.
  - destruct IH as (w1 & Hrun & Hm & Hlk & Hpf & Hgone & Hkept & Hfo & Hfl & Htr).
    rewrite removeFiles_snoc. unfold remove_step. unfold bind at 1. rewrite Hrun.
    destruct w1 as [m1 d1 t1 n1 rc1 g1]. cbn [mgr disk trace] in *. subst m1.
    run_steps.
    assert (Hsame : is_locked d1 (resolve (presetLocation m) name)
                    = is_locked d (resolve (presetLocation m) name))
      by (unfold is_locked; now rewrite Hlk).
    rewrite Hsame. rewrite List.filter_app. cbn [List.filter].
    destruct (is_locked d (resolve (presetLocation m) name)) eqn:Hname; cbn [negb].
    + eexists. split; [reflexivity|]. cbn [mgr disk trace].
      repeat apply conj; try assumption; try reflexivity.
      * rewrite Hpf. destruct (preset_files d) as [l|]; [|reflexivity].
        cbn [option_map]. f_equal. apply filter_ext_bool. intros x.
        rewrite existsb_snoc.
        destruct (String.eqb_spec x name) as [->|]; [|now rewrite orb_false_r].
        rewrite Hname. cbn. now rewrite orb_false_r.
      * intros n0 Hin Hn0. apply in_app_or in Hin as [Hin|[<-|[]]]; [now apply Hgone|].
        congruence.
      * intros path Hpath. apply Hkept. intros n0 Hin. apply Hpath. apply in_or_app. now left.
      * now rewrite app_nil_r.
    + run_steps. eexists. split; [reflexivity|].
      cbn [mgr disk trace preset_files archives folders locked set_preset].
      repeat apply conj.
      * reflexivity.
      * exact Hlk.
      * rewrite Hpf. destruct (preset_files d) as [l|]; [|reflexivity].
        cbn [option_map]. f_equal.
        rewrite (filter_filter_negb
                   (fun f => existsb (fun n => String.eqb f n
                                               && negb (is_locked d (resolve (presetLocation m) n)))
                                     names)
                   (fun f => String.eqb f name)).
        apply filter_ext_bool. intros x. rewrite existsb_snoc.
        destruct (String.eqb_spec x name) as [->|]; [|now rewrite !orb_false_r].
        rewrite Hname. reflexivity.
      * intros n0 Hin Hn0. apply in_app_or in Hin as [Hin|[<-|[]]].
        -- apply get_none_del. now apply Hgone.
        -- apply RecFacts.get_del_eq.
      * intros path Hpath. rewrite RecFacts.get_del_ne.
        -- apply Hkept. intros n0 Hin. apply Hpath. apply in_or_app. now left.
        -- apply Hpath; [apply in_or_app; right; now left | exact Hname].
      * exact Hfo.
      * rewrite <- Hfl. unfold flushed.
        cbn [disk trace index_json configuration_json set_preset].
        now rewrite !writes_snoc, !Nat.add_0_r.
      * rewrite Htr, map_app, app_assoc. reflexivity.
Qed.

(** X16. [removeFiles] never rejects: a removal that the file system
    refuses is caught, and that file stays.  Every other named file is
    removed and nothing else is: the listing loses exactly the names that
    could be removed, their archives are gone, every other archive and every
    plugin directory stays, the manager is unchanged, and the removals are
    performed in the order of the list. *)
Theorem removeFiles_removes_named (names : list string) (w : World) :
  let preset := presetLocation (mgr w) in
  let refused := fun n => is_locked (disk w) (resolve preset n) in
  exists w',
    removeFiles names w = (Ok tt, w') /\
    mgr w' = mgr w /\
    preset_files (disk w') =
      option_map
        (List.filter (fun f => negb (existsb (fun n => String.eqb f n && negb (refused n))
                                             names)))
        (preset_files (disk w)) /\
    (forall n, In n names -> refused n = false ->
       Rec.get (archives (disk w')) (resolve preset n) = None) /\
    (forall n, refused n = true ->
       Rec.get (archives (disk w')) (resolve preset n)
       = Rec.get (archives (disk w)) (resolve preset n)) /\
    (forall path, (forall n, In n names -> refused n = false -> resolve preset n <> path) ->
       Rec.get (archives (disk w')) path = Rec.get (archives (disk w)) path) /\
    folders (disk w') = folders (disk w) /\
    trace w' = (trace w ++ map (fun n => ERemoveFile (resolve preset n))
                               (List.filter (fun n => negb (refused n)) names))%list.
Proof.
  cbv zeta.
  destruct (removeFiles_run names w) as (w' & H1 & H2 & _ & H3 & H4 & H5 & H6 & _ & H8).
  exists w'. repeat apply conj; try assumption.
  intros n Hn. apply H5. intros n0 _ Hn0 E. unfold is_locked in *. rewrite E in Hn0.
  congruence.
Qed.

(** ** The preset batch, run again *)

Lemma filter_nil_of {A} (f : A -> bool) l :
  (forall x, In x l -> f x = false) -> List.filter f l = [].
Proof.
  induction l as [|x l IH]; intros H; simpl; [reflexivity|].
  rewrite (H x) by now left. apply IH. intros y Hy. apply H. now right.
Qed.

Lemma filter_of_removed (f : string -> bool) files :
  List.filter f
    (List.filter (fun x => negb (existsb (String.eqb x) (List.filter f files))) files) = [].
Proof.
  apply filter_nil_of. intros x Hx. apply filter_In in Hx as [Hin Hnot].
  destruct (f x) eqn:Hf; [|reflexivity].
  apply negb_true_iff in Hnot.
  assert (Hex : existsb (String.eqb x) (List.filter f files) = true).
  { apply existsb_exists. exists x. split; [|apply String.eqb_refl].
    apply filter_In. now split. }
  congruence.
Qed.

Section BatchAgain.
Variable compareVersions : string -> string -> option Z.
Variable pluginsFolder : string.

Lemma install_presets_keeps_preset res acc :
  keeps (fun w => (mgr w, preset_files (disk w), locked (disk w)))
        (install_presets compareVersions pluginsFolder res acc).
Proof.
  apply install_presets_keeps.
  - intros f w. reflexivity.
  - intros e _ w. reflexivity.
Qed.

(** With no archive in the preset directory the batch does nothing. *)
Lemma batch_without_archives w files :
  preset_files (disk w) = Some files ->
  List.filter (fun f => String.eqb (extname f) ".memox") files = [] ->
  _installDefaultPlugins compareVersions pluginsFolder w = (Ok tt, w).
Proof.
  intros Hfiles Hres.
  unfold _installDefaultPlugins, getFilesWithExtension.
  unfold bind at 1. unfold bind at 1. unfold gets at 1. cbn [fst snd].
  rewrite Hfiles. unfold ret at 1. rewrite Hres. reflexivity.
Qed.

(** A batch that completes: either there was no archive, or the loop ran
    from the registry files and its result was flushed. *)
Lemma batch_ok_inv w w2 :
  _installDefaultPlugins compareVersions pluginsFolder w = (Ok tt, w2) ->
  exists files,
    preset_files (disk w) = Some files /\
    let res := List.filter (fun f => String.eqb (extname f) ".memox") files in
    match res with
    | [] => w2 = w
    | _ => exists final w1,
             mgr w1 = mgr w /\ preset_files (disk w1) = Some files /\
             locked (disk w1) = locked (disk w) /\
             flush_presets res final w1 = (Ok tt, w2)
    end.
Proof.
  unfold _installDefaultPlugins, getFilesWithExtension.
  unfold bind at 1. unfold bind at 1. unfold gets at 1. cbn [fst snd].
  destruct (preset_files (disk w)) as [files|] eqn:Hfiles.
  2:{ unfold bind, gets, throw. discriminate. }
  unfold ret at 1. intros Hrun. exists files. split; [reflexivity|]. cbv zeta.
  destruct (List.filter _ files) as [|r0 res'] eqn:Hres.
  - unfold ret in Hrun. now injection Hrun as <-.
  - set (res := r0 :: res') in *.
    unfold bind at 1 in Hrun. unfold gets at 1 in Hrun. cbn [fst snd] in Hrun.
    unfold bind at 1 in Hrun.
    match type of Hrun with
    | context [(if existsSync ?cf then _ else _) w] =>
        destruct ((if existsSync cf then readJSON "configuration.json" cf else ret [])%js w)
          as [[configurations|e] wa] eqn:Hcf
    end; [|discriminate].
    assert (Ha : wa = w).
    { destruct (configuration_json (disk w));
        cbv beta iota zeta delta [existsSync readJSON ret throw] in Hcf; congruence. }
    subst wa.
    unfold bind at 1 in Hrun. unfold gets at 1 in Hrun. cbn [fst snd] in Hrun.
    unfold bind at 1 in Hrun.
    match type of Hrun with
    | context [(if existsSync ?ix then ?a else ?b) w] =>
        destruct ((if existsSync ix then a else b) w) as [[installed|e] w0] eqn:Hix
    end; [|discriminate].
    assert (H0 : mgr w0 = mgr w /\ preset_files (disk w0) = Some files
                 /\ locked (disk w0) = locked (disk w)).
    { destruct (index_json (disk w));
        cbv beta iota zeta delta [existsSync readJSON ret throw write_index bind modify log]
          in Hix; try discriminate; injection Hix as _ <-;
        destruct w; cbn; now repeat split. }
    destruct H0 as (Hm0 & Hp0 & Hl0).
    unfold bind at 1 in Hrun.
    pose proof (install_presets_keeps_preset res (installed, configurations) w0) as K.
    destruct (install_presets _ _ res _ w0) as [[final|e] w1]; [|discriminate].
    cbn [snd] in K. injection K as Hm1 Hp1 Hl1.
    exists final, w1. repeat apply conj; [congruence | congruence | congruence | exact Hrun].
Qed.

(** X17. With [removeDefaultPlugins] set, a preset batch that completes,
    in a preset directory where no archive is refused removal, leaves no
    archive behind: running the batch again finds nothing to install and
    changes nothing, it does not even rewrite the registry files. *)
Theorem preset_batch_removed_then_idle (w w2 : World) :
  removeDefaultPlugins (mgr w) = true ->
  (forall f, is_locked (disk w) (resolve (presetLocation (mgr w)) f) = true ->
             extname f <> ".memox") ->
  _installDefaultPlugins compareVersions pluginsFolder w = (Ok tt, w2) ->
  _installDefaultPlugins compareVersions pluginsFolder w2 = (Ok tt, w2) /\
  mgr w2 = mgr w.
Proof.
  intros Hrm Hfree Hrun.
  destruct (batch_ok_inv w w2 Hrun) as (files & Hfiles & Hcase). cbv zeta in Hcase.
  destruct (List.filter _ files) as [|r0 res'] eqn:Hres.
  - subst w2. split; [|reflexivity]. now apply (batch_without_archives w files).
  - rewrite <- Hres in Hcase. destruct Hcase as (final & w1 & Hm1 & Hp1 & Hl1 & Hfl).
    unfold flush_presets in Hfl.
    set (wB := snd ((write_index (fst final) ;;; write_configuration (snd final)) w1)).
    assert (HB : mgr wB = mgr w1 /\ preset_files (disk wB) = preset_files (disk w1)
                 /\ locked (disk wB) = locked (disk w1)).
    { unfold wB. destruct w1. cbn. now repeat split. }
    destruct HB as (HmB & HpB & HlB).
    set (res := List.filter (fun f => String.eqb (extname f) ".memox") files) in *.
    assert (Hfl' : removeFiles res wB = (Ok tt, w2)).
    { rewrite <- Hfl. unfold wB. destruct w1 as [m1 d1 t1 n1 rc1 g1]. cbn [mgr] in *.
      cbv beta iota zeta delta
        [bind modify ret log gets write_index write_configuration with_disk with_mgr
         mgr snd fst].
      rewrite Hm1, Hrm. reflexivity. }
    destruct (removeFiles_run res wB) as (w2' & Hrem & Hm2 & _ & Hp2 & _).
    rewrite Hfl' in Hrem. injection Hrem as <-.
    split; [|congruence].
    rewrite HpB, Hp1 in Hp2. cbn [option_map] in Hp2.
    apply (batch_without_archives w2 _ Hp2).
    apply filter_nil_of. intros x Hx. apply filter_In in Hx as [Hin Hnot].
    destruct (String.eqb (extname x) ".memox") eqn:Hext; [|reflexivity].
    apply negb_true_iff in Hnot.
    assert (Hex : existsb
              (fun n => String.eqb x n
                        && negb (is_locked (disk wB) (resolve (presetLocation (mgr wB)) n)))
              res = true).
    { apply existsb_exists. exists x. split.
      - apply filter_In. now split.
      - rewrite String.eqb_refl. cbn [andb]. apply negb_true_iff.
        destruct (is_locked (disk wB) (resolve (presetLocation (mgr wB)) x)) eqn:Hlk;
          [|reflexivity].
        exfalso. apply (Hfree x).
        + unfold is_locked in *. now rewrite <- Hl1, <- HlB, <- Hm1, <- HmB.
        + now apply String.eqb_eq. }
    congruence.
Qed.

End BatchAgain.

Lemma preset_batch_removed_then_idle_witness :
  let w := with_mgr (fun m => new_manager (location m) (presetLocation m) (requestUrl m) true)
                    (Sample.boot PresetBatch.good_only) in
  let w2 := snd (_installDefaultPlugins semver_compare "/plugins" w) in
  fst (_installDefaultPlugins semver_compare "/plugins" w2) = Ok tt.
Proof.
  cbv zeta.
  set (w := with_mgr (fun m => new_manager (location m) (presetLocation m) (requestUrl m) true)
                     (Sample.boot PresetBatch.good_only)).
  destruct (preset_batch_removed_then_idle semver_compare "/plugins" w
              (snd (_installDefaultPlugins semver_compare "/plugins" w))) as [H _].
  - reflexivity.
  - intros f Hf. vm_compute in Hf. discriminate.
  - vm_compute. reflexivity.
  - rewrite H. reflexivity.
Defined.

(** With an archive that cannot be removed the second batch is not idle:
    the archive is still listed, is installed again, and the registry files
    are written again. *)
Lemma preset_batch_locked_archive_runs_again :
  let d := {| index_json := index_json PresetBatch.good_only;
              configuration_json := configuration_json PresetBatch.good_only;
              cache_json := cache_json PresetBatch.good_only;
              plugins_json := plugins_json PresetBatch.good_only;
              preset_plugins_json := preset_plugins_json PresetBatch.good_only;
              folders := folders PresetBatch.good_only;
              preset_files := preset_files PresetBatch.good_only;
              archives := archives PresetBatch.good_only;
              locked := ["/preset/b.memox"] |} in
  let w := with_mgr (fun m => new_manager (location m) (presetLocation m) (requestUrl m) true)
                    (Sample.boot d) in
  let w2 := snd (_installDefaultPlugins semver_compare "/plugins" w) in
  let w3 := snd (_installDefaultPlugins semver_compare "/plugins" w2) in
  fst (_installDefaultPlugins semver_compare "/plugins" w) = Ok tt /\
  preset_files (disk w2) = Some ["b.memox"; "notes.txt"] /\
  writes "index.json" (trace w2) = 1%nat /\
  writes "index.json" (trace w3) = 2%nat.
Proof. repeat apply conj; vm_compute; reflexivity. Qed.

(** ** Startup *)

Section Startup.
Variable compareVersions : string -> string -> option Z.

(** X18. When the preset directory does not exist, listing it fails and
    [_init] rejects with that error before anything is read or written: the
    reload of the local registry is never reached, and the manager stays as
    the constructor left it. *)
Theorem init_without_preset_directory (w : World) :
  preset_files (disk w) = None ->
  _init compareVersions w = (Throw (ENOENT (presetLocation (mgr w))), w).
Proof.
  intros Hnone.
  unfold _init, _installDefaultPlugins, getFilesWithExtension.
  cbv beta iota zeta delta [bind gets throw fst snd].
  rewrite Hnone. reflexivity.
Qed.

(** X19. When the preset directory holds no [.memox] archive, the batch
    install does nothing and [_init] is the reload of the local registry. *)
Theorem init_without_archives (w : World) (files : list string) :
  preset_files (disk w) = Some files ->
  List.filter (fun f => String.eqb (extname f) ".memox") files = [] ->
  _init compareVersions w = _readLocalPlugins w.
Proof.
  intros Hfiles Hres. unfold _init.
  unfold bind at 1. unfold gets at 1. unfold bind at 1.
  now rewrite (batch_without_archives compareVersions _ w files Hfiles Hres).
Qed.

End Startup.

Lemma init_without_preset_directory_witness :
  fst (_init semver_compare
         (Sample.boot (set_preset None [] Sample.empty_disk)))
  = Throw (ENOENT "/preset").
Proof.
  rewrite (init_without_preset_directory semver_compare
             (Sample.boot (set_preset None [] Sample.empty_disk)) eq_refl).
  reflexivity.
Defined.

Lemma init_without_archives_witness :
  let w := Sample.boot (set_preset (Some ["notes.txt"]) [] Reload.on_disk) in
  _init semver_compare w = _readLocalPlugins w.
Proof.
  cbv zeta.
  apply (init_without_archives semver_compare
           (Sample.boot (set_preset (Some ["notes.txt"]) [] Reload.on_disk)) ["notes.txt"]).
  - reflexivity.
  - vm_compute. reflexivity.
Defined.

(** ** The seed configuration *)




(** ** Descriptors kept by the reload *)







(** ** Agreement of the catalog, the versions and the installed descriptors *)











(** ** The order of the catalog *)

(** X23. A successful install keeps the order of the catalog: the
    descriptor of a pluginId that is already listed is replaced where it
    stands, so the list of ids is unchanged; the descriptor of a new pluginId
    is put in front of the list. *)
Theorem install_keeps_catalog_order
    (w : World) (uuid pack : string) (rest : list string) (setting : json)
    (payload : Folder) (data : Manifest.t) :
  let d := disk w in
  let id := Manifest.pluginId data in
  let unpacked := merge_folder (folder_at d uuid) payload in
  let target := versioned id (Manifest.version data) in
  Rec.get (archives d) pack = Some (ArchiveOf payload) ->
  manifest_json unpacked = Content data ->
  uuid <> target ->
  overwrite (i18n_json (folder_at d target)) (i18n_json unpacked) <> Malformed ->
  exists w',
    installPlugins uuid (pack :: rest) setting w = (Ok (Some (mgr w')), w') /\
    ids (plugins (localPlugins (mgr w'))) =
      match old_plugin (mgr w) id with
      | Some _ => ids (plugins (localPlugins (mgr w)))
      | None => id :: ids (plugins (localPlugins (mgr w)))
      end /\
    plugins (localPlugins (mgr w')) !! (match findIndex (has_id id) (plugins (localPlugins (mgr w))) with
                                        | Some i => i
                                        | None => 0%nat
                                        end)
      = Some (descriptor (location (mgr w)) data).
Proof.
  cbv zeta. intros Hpack Hman Hne Hbundle.
  destruct (install_run uuid pack rest setting payload data w Hpack Hman Hne Hbundle)
    as (w' & Hrun & Hpl & _).
  exists w'. split; [exact Hrun|]. rewrite Hpl. unfold old_plugin.
  destruct (findIndex (has_id (Manifest.pluginId data)) (plugins (localPlugins (mgr w))))
    as [i|] eqn:Hi.
  - destruct (findIndex_lookup _ _ _ Hi) as (x & Hx & Hid). rewrite Hx.
    unfold has_id in Hid. apply String.eqb_eq in Hid. split.
    + now apply (ids_replace _ i _ x).
    + apply list_lookup_insert_eq. eapply lookup_lt_Some; eauto.
  - split; reflexivity.
Qed.

Lemma install_keeps_catalog_order_witness :
  ids (plugins (localPlugins (mgr Upgrade.upgraded))) = ["p"].
Proof.
  destruct (install_keeps_catalog_order
              Upgrade.configured "u2" "/tmp/p-1.1.0.zip" [] Upgrade.setting
              (Sample.package "p" "1.1.0" None Upgrade.fields)
              (Sample.manifest "p" "1.1.0" None Upgrade.fields))
    as (w' & Hrun & Hids & _).
  - vm_compute. reflexivity.
  - vm_compute. reflexivity.
  - vm_compute. discriminate.
  - vm_compute. discriminate.
  - unfold Upgrade.upgraded, Sample.after. rewrite Hrun. cbn [snd]. rewrite Hids.
    vm_compute. reflexivity.
Defined.

(** ** Where a preset archive is extracted *)

Section PresetTurn.
Variable compareVersions : string -> string -> option Z.
Variable pluginsFolder : string.

Lemma install_preset_ok_inv acc p w acc' w' :
  install_preset compareVersions pluginsFolder acc p w = (Ok acc', w') ->
  let dest := getFileNameWithoutExtension p in
  let path := resolve (presetLocation (mgr w)) p in
  exists payload data,
    Rec.get (archives (disk w)) path = Some (ArchiveOf payload) /\
    manifest_json (merge_folder (folder_at (disk w) dest) payload) = Content data /\
    mgr w' = mgr w /\
    folders (disk w') = Rec.set (folders (ensured (disk w) dest)) dest
                                (merge_folder (folder_at (disk w) dest) payload) /\
    trace w' = (trace w ++ [EUnzip path dest])%list /\
    (In (descriptor pluginsFolder data) (plugins (fst acc')) \/
     exists v, installed_version (versions (fst acc)) (Manifest.pluginId data) = Some v /\
               compareVersions (Manifest.version data) v = Some (-1)).
Proof.
  destruct acc as [installed configurations]. destruct w as [m d t n rc g].
  cbn [mgr disk trace]. cbv zeta.
  unfold install_preset, unzipFile, ensureDir, compare. intros Hrun. run_steps_in Hrun.
  set (dest := getFileNameWithoutExtension p) in *.
  set (path := resolve (presetLocation m) p) in *.
  fold (ensured d dest) in Hrun. rewrite ensured_archives in Hrun.
  destruct (Rec.get (archives d) path) as [[|payload]|] eqn:Hpack; try discriminate.
  run_steps_in Hrun.
  rewrite !folder_at_set, !String.eqb_refl, !ensured_folder_at in Hrun.
  set (unpacked := merge_folder (folder_at d dest) payload) in *.
  destruct (manifest_json unpacked) as [| |data] eqn:Hman;
    cbv beta iota zeta delta [readJSON ret throw] in Hrun; try discriminate.
  exists payload, data.
  change (Plugin.pluginId (descriptor pluginsFolder data)) with (Manifest.pluginId data) in Hrun.
  change (Plugin.version (descriptor pluginsFolder data)) with (Manifest.version data) in Hrun.
  cbn [fst].
  destruct (installed_version (versions installed) (Manifest.pluginId data)) as [v|] eqn:Hv.
  - destruct (compareVersions (Manifest.version data) v) as [c|] eqn:Hc; [|discriminate].
    destruct (c =? -1) eqn:Hold; destruct (c =? 1);
      cbn [negb] in Hrun; injection Hrun as <- <-; cbn [mgr disk trace folders set_folders fst];
      repeat apply conj; try reflexivity; try exact Hman;
      try (left; apply (replace_or_prepend_in (plugins installed)
                          (descriptor pluginsFolder data)));
      right; exists v; apply Z.eqb_eq in Hold; subst c; now split.
  - injection Hrun as <- <-. cbn [mgr disk trace folders set_folders fst].
    repeat apply conj; try reflexivity; try exact Hman.
    left. apply (replace_or_prepend_in (plugins installed) (descriptor pluginsFolder data)).
Qed.

(** X24. A turn of the preset batch that completes extracts the archive
    into the directory named after the archive file (its name without the
    extension) and touches no other directory; the manager is not changed.
    The descriptor it enters in the catalog (unless a newer version is
    recorded) points into the directory ["{pluginId}@{version}"]: when the
    archive file is not named that way and no such directory exists already,
    the directory of the recorded descriptor is not on disk after the turn. *)
Theorem preset_turn_extracts_by_file_name acc p w acc' w' :
  install_preset compareVersions pluginsFolder acc p w = (Ok acc', w') ->
  let dest := getFileNameWithoutExtension p in
  exists data,
    manifest_json (folder_at (disk w') dest) = Content data /\
    (forall dir, dir <> dest ->
       Rec.get (folders (disk w')) dir = Rec.get (folders (disk w)) dir) /\
    mgr w' = mgr w /\
    (In (descriptor pluginsFolder data) (plugins (fst acc')) \/
     exists v, installed_version (versions (fst acc)) (Manifest.pluginId data) = Some v /\
               compareVersions (Manifest.version data) v = Some (-1)) /\
    (versioned (Manifest.pluginId data) (Manifest.version data) <> dest ->
     Rec.has (folders (disk w)) (versioned (Manifest.pluginId data) (Manifest.version data))
       = false ->
     dir_present (disk w') (descriptor pluginsFolder data) = false).
Proof.
  intros Hrun. cbv zeta.
  destruct (install_preset_ok_inv acc p w acc' w' Hrun)
    as (payload & data & _ & Hman & Hm & Hfo & _ & Hcat).
  assert (Hother : forall dir, dir <> getFileNameWithoutExtension p ->
            Rec.get (folders (disk w')) dir = Rec.get (folders (disk w)) dir).
  { intros dir Hne. rewrite Hfo, RecFacts.get_set_ne by congruence.
    now apply ensured_get_ne. }
  exists data. repeat apply conj; try assumption.
  - unfold folder_at. now rewrite Hfo, RecFacts.get_set_eq.
  - intros Hne Habs. unfold dir_present.
    cbn [Plugin.pluginId Plugin.version descriptor].
    unfold Rec.has in *. rewrite (Hother _ Hne).
    now destruct (Rec.get (folders (disk w)) _).
Qed.

End PresetTurn.

Lemma preset_turn_extracts_by_file_name_witness :
  let w := Sample.boot PresetBatch.good_only in
  let turn := install_preset semver_compare "/plugins" (empty_catalog, []) "b.memox" w in
  dir_present (disk (snd turn))
    (descriptor "/plugins" (Sample.manifest "b" "1.0.0" None [])) = false.
Proof.
  cbv zeta.
  set (w := Sample.boot PresetBatch.good_only).
  set (turn := install_preset semver_compare "/plugins" (empty_catalog, []) "b.memox" w).
  assert (Hturn : turn
                  = (Ok ({| plugins := [descriptor "/plugins"
                                          (Sample.manifest "b" "1.0.0" None [])];
                            versions := [("b", "1.0.0")] |}, []), snd turn))
    by (vm_compute; reflexivity).
  destruct (preset_turn_extracts_by_file_name semver_compare "/plugins" _ _ _ _ _ Hturn)
    as (data & Hman & _ & _ & _ & Habsent).
  assert (Hdata : data = Sample.manifest "b" "1.0.0" None []).
  { vm_compute in Hman. now injection Hman as <-. }
  subst data. apply Habsent.
  - vm_compute. discriminate.
  - vm_compute. reflexivity.
Defined.

(** ** What a restart reads back *)

Lemma get_notin {V} (o : list (string * V)) k : ~ In k (Rec.keys o) -> Rec.get o k = None.
Proof.
  intros H. destruct (Rec.get o k) eqn:E; [|reflexivity].
  exfalso. apply H. eapply get_in_keys; eauto.
Qed.

(** Assigning the entries of a parsed file one by one: the file wins. *)
Lemma fold_set_get {V} (c : list (string * V)) : forall o k,
  NoDup (Rec.keys c) ->
  Rec.get (fold_left (fun o kv => Rec.set o (fst kv) (snd kv)) c o) k
  = match Rec.get c k with Some v => Some v | None => Rec.get o k end.
Proof.
  induction c as [|[k0 v0] c IH]; intros o k Hnd; [reflexivity|].
  cbn [Rec.keys map fst] in Hnd. apply NoDup_cons in Hnd as [Hk0 Hnd].
  cbn [fold_left fst snd Rec.get]. rewrite IH by exact Hnd.
  destruct (String.eqb_spec k0 k) as [<-|Hne].
  - rewrite get_notin by (intros H; apply Hk0; now apply list_elem_of_In).
    apply RecFacts.get_set_eq.
  - destruct (Rec.get c k); [reflexivity | now apply RecFacts.get_set_ne].
Qed.

Lemma read_stores_loads data w w' :
  read_stores data w = (Ok tt, w') ->
  pluginsConfigurations (mgr w') =
    match configuration_json (disk w) with
    | Content c => fold_left (fun o kv => Rec.set o (fst kv) (snd kv)) c
                             (pluginsConfigurations (mgr w))
    | _ => pluginsConfigurations (mgr w)
    end /\
  pluginsCache (mgr w') =
    match cache_json (disk w) with
    | Content c => fold_left (fun o kv => Rec.set o (fst kv) (snd kv)) c (pluginsCache (mgr w))
    | _ => pluginsCache (mgr w)
    end.
Proof.
  destruct w as [m d t n rc g]. destruct m. destruct d as [ix cf ca pj pre fo pf ar lk].
  unfold read_stores.
  cbv beta iota zeta delta [bind gets ret modify throw fst snd disk mgr
    configuration_json cache_json].
  destruct cf, ca; cbv beta iota zeta delta [existsSync readJSON ret throw modify];
    try discriminate; intros [= <-]; split; reflexivity.
Qed.

(** A reload that completes has read the two stores from the disk as it
    was when the reload began. *)
Lemma reload_loads w data' w' :
  _readLocalPlugins w = (Ok data', w') ->
  exists w2,
    pluginsCache (mgr w2) = pluginsCache (mgr w) /\
    pluginsConfigurations (mgr w') =
      match configuration_json (disk w) with
      | Content c => fold_left (fun o kv => Rec.set o (fst kv) (snd kv)) c
                               (pluginsConfigurations (mgr w2))
      | _ => pluginsConfigurations (mgr w2)
      end /\
    pluginsCache (mgr w') =
      match cache_json (disk w) with
      | Content c => fold_left (fun o kv => Rec.set o (fst kv) (snd kv)) c
                               (pluginsCache (mgr w2))
      | _ => pluginsCache (mgr w2)
      end.
Proof.
  intros Hrun.
  unfold _readLocalPlugins in Hrun. unfold bind at 1 in Hrun.
  destruct (read_catalogs w) as [[data0|e0] w1] eqn:Hcat; [|discriminate].
  assert (Hc1 : pluginsCache (mgr w1) = pluginsCache (mgr w)).
  { pose proof Hcat as Hk. revert Hk. clear.
    destruct w as [m d t n rc g]. destruct m. destruct d as [ix cf ca pj pre fo pf ar lk].
    unfold read_catalogs.
    cbv beta iota zeta delta [bind gets ret modify throw fst snd disk mgr
      preset_plugins_json plugins_json index_json].
    destruct pre, pj, ix; cbv beta iota zeta delta [existsSync readJSON ret throw modify];
      try discriminate; intros [= <- <-]; reflexivity. }
  apply read_catalogs_ok in Hcat as (_ & _ & _ & Hd1 & _).
  unfold bind at 1 in Hrun. unfold gets at 1 in Hrun.
  unfold bind at 1 in Hrun.
  destruct (reconcile_all _ data0 w1) as [[data1|e1] w2] eqn:Hloop; [|discriminate].
  unfold bind in Hrun.
  destruct (read_stores data1 w2) as [[[]|e2] w3] eqn:Hst; [|discriminate].
  unfold ret in Hrun. injection Hrun as <- <-.
  pose proof (reconcile_all_keeps disk (Rec.keys (installedPlugins (mgr w1)))
                reconcile_keeps_disk data0 w1) as Hd2.
  assert (Hkc : forall data key, keeps (fun w => pluginsCache (mgr w)) (reconcile data key)).
  { intros data key. unfold reconcile, read_i18n, record_plugin, prune_plugin. keeps_more. }
  pose proof (reconcile_all_keeps (fun w => pluginsCache (mgr w))
                (Rec.keys (installedPlugins (mgr w1))) Hkc data0 w1) as Hc2.
  rewrite Hloop in Hd2, Hc2. cbn [snd] in Hd2, Hc2.
  apply read_stores_loads in Hst as [Hcfg Hcache].
  rewrite Hd2, Hd1 in Hcfg, Hcache.
  exists w2. split; [congruence|]. now split.
Qed.

Lemma roundtrip_store_keys s : Rec.keys (roundtrip_store s) = Rec.keys s.
Proof. unfold roundtrip_store, Rec.keys. now rewrite map_map. Qed.

(** X25. A saved configuration survives a restart.  After
    [saveConfiguration(pluginId, data)] for an installed plugin, a manager
    that starts on the same disk and completes its reload holds, under the
    plugin's ["{pluginId}@{version}"] key, what [JSON.parse(JSON.stringify(data))]
    gives: the fields of [data] without those that hold [undefined]. *)
Theorem saved_configuration_survives_restart
    (w : World) (pluginId : string) (p : Plugin.t) (data : list (string * json))
    (fresh : World) (cat : MemoPlugins) (w' : World) :
  Rec.get (installedPlugins (mgr w)) pluginId = Some p ->
  NoDup (Rec.keys (pluginsConfigurations (mgr w))) ->
  disk fresh = disk (snd (saveConfiguration pluginId data w)) ->
  _readLocalPlugins fresh = (Ok cat, w') ->
  Rec.get (pluginsConfigurations (mgr w')) (versioned pluginId (Plugin.version p))
  = Some (roundtrip_fields data).
Proof.
  intros Hget Hnd Hdisk Hrun.
  set (key := versioned pluginId (Plugin.version p)).
  assert (Hfile : configuration_json (disk (snd (saveConfiguration pluginId data w)))
                  = Content (roundtrip_store
                               (Rec.set (pluginsConfigurations (mgr w)) key data))).
  { destruct w as [m d t n rc g]. cbn [mgr] in *.
    unfold saveConfiguration, write_configuration.
    cbv beta iota zeta delta [bind gets modify ret getAllData log with_mgr with_disk
                              fst snd mgr disk].
    rewrite Hget.
    cbv beta iota zeta delta [bind gets modify ret getAllData log with_mgr with_disk
                              fst snd mgr disk].
    destruct m. reflexivity. }
  destruct (reload_loads fresh cat w' Hrun) as (w2 & _ & Hcfg & _).
  rewrite Hdisk, Hfile in Hcfg. rewrite Hcfg.
  rewrite fold_set_get
    by (rewrite roundtrip_store_keys; now apply keys_set_unique).
  now rewrite roundtrip_store_get, RecFacts.get_set_eq.
Qed.

Lemma saved_configuration_survives_restart_witness :
  let w := LoadTwice.installed None in
  let saved := snd (saveConfiguration "p" [("a", JNum 1); ("b", JUndefined)] w) in
  Rec.get (pluginsConfigurations (mgr (snd (_readLocalPlugins (Sample.boot (disk saved))))))
          "p@1.0.0"
  = Some [("a", JNum 1)].
Proof.
  cbv zeta.
  set (w := LoadTwice.installed None).
  set (fresh := Sample.boot (disk (snd (saveConfiguration "p" [("a", JNum 1); ("b", JUndefined)]
                                          w)))).
  set (p := descriptor "/plugins" (Sample.manifest "p" "1.0.0" None [])).
  assert (Hrun : _readLocalPlugins fresh
                 = (Ok {| plugins := [p]; versions := [("p", "1.0.0")] |},
                    snd (_readLocalPlugins fresh)))
    by (vm_compute; reflexivity).
  exact (saved_configuration_survives_restart w "p" p [("a", JNum 1); ("b", JUndefined)]
           fresh _ _ ltac:(vm_compute; reflexivity)
           ltac:(vm_compute; repeat constructor; intros H; inversion H)
           eq_refl Hrun).
Defined.

Lemma pluginCache_set_run (w : World) (pluginId : option string) (key : string)
    (value : json) :
  inherited_name (cache_slot pluginId) = false ->
  key <> "__proto__" ->
  let slot := or_empty (Rec.get (pluginsCache (mgr w)) (cache_slot pluginId)) in
  exists w',
    pluginCache_set pluginId key value w = (Ok tt, w') /\
    Rec.get (pluginsCache (mgr w')) (cache_slot pluginId) = Some (Rec.set slot key value) /\
    (NoDup (Rec.keys (pluginsCache (mgr w))) -> NoDup (Rec.keys (pluginsCache (mgr w')))) /\
    cache_json (disk w') = Content (roundtrip_store (pluginsCache (mgr w'))).
Proof.
  intros Hid Hkey. apply String.eqb_neq in Hkey.
  destruct w as [m d t n rc g]. destruct m.
  unfold pluginCache_set, write_cache.
  cbv beta iota zeta delta [bind gets modify ret log with_mgr with_disk fst snd mgr disk
    trace pluginsCache set_pluginsCache set_cache_json cache_json].
  rewrite Hid, Hkey.
  destruct (Rec.get pluginsCache0 (cache_slot pluginId)) as [slot|] eqn:Hslot;
    cbv beta iota zeta delta [bind gets modify ret throw log with_mgr with_disk fst snd mgr
      disk trace pluginsCache set_pluginsCache set_cache_json cache_json];
    eexists; (split; [reflexivity|]);
    cbn [mgr disk pluginsCache cache_json];
    rewrite ?Hslot, ?RecFacts.get_set_eq; cbn [or_empty];
    repeat apply conj; try reflexivity;
    intros Hnd; repeat apply keys_set_unique; exact Hnd.
Qed.

(** X26. The runtime cache survives a restart.  For a slot id that names no
    member of the built-in prototype and a key other than [__proto__]: after
    a plugin's [pluginCache.set(key, value)], a manager that starts on the
    same disk and completes its reload answers [pluginCache.get(key)] for that
    plugin with the JSON round trip of [value]; when [value] is [undefined] or
    a function, which the file does not keep, with what an empty slice gives
    for [key]. *)
Theorem plugin_cache_survives_restart
    (w : World) (pluginId : option string) (key : string) (value : json)
    (fresh : World) (cat : MemoPlugins) (w' : World) :
  inherited_name (cache_slot pluginId) = false ->
  key <> "__proto__" ->
  NoDup (Rec.keys (pluginsCache (mgr w))) ->
  NoDup (Rec.keys (or_empty (Rec.get (pluginsCache (mgr w)) (cache_slot pluginId)))) ->
  disk fresh = disk (snd (pluginCache_set pluginId key value w)) ->
  _readLocalPlugins fresh = (Ok cat, w') ->
  fst (pluginCache_get pluginId key w')
  = Ok (match value with
        | JUndefined | JFun _ => js_index (JObj []) key
        | _ => json_roundtrip value
        end).
Proof.
  intros Hid Hkey Hnd Hslot Hdisk Hrun.
  destruct (pluginCache_set_run w pluginId key value Hid Hkey)
    as (w1 & Hset & Hget & Hnd1 & Hfile).
  cbv zeta in Hget. rewrite Hset in Hdisk. cbn [snd] in Hdisk.
  destruct (reload_loads fresh cat w' Hrun) as (w2 & _ & _ & Hcache).
  rewrite Hdisk, Hfile in Hcache.
  unfold pluginCache_get, bind, gets. rewrite Hcache.
  rewrite fold_set_get by (rewrite roundtrip_store_keys; now apply Hnd1).
  rewrite roundtrip_store_get, Hget. cbn [option_map ret fst].
  f_equal. unfold js_index, member. cbn [own_member].
  rewrite roundtrip_fields_get by now apply keys_set_unique.
  rewrite RecFacts.get_set_eq. now destruct value.
Qed.

Lemma plugin_cache_survives_restart_witness :
  let w := LoadTwice.installed None in
  let cached := snd (pluginCache_set (Some "p") "token" (JArr [JNum 7; JUndefined]) w) in
  fst (pluginCache_get (Some "p") "token"
         (snd (_readLocalPlugins (Sample.boot (disk cached)))))
  = Ok (JArr [JNum 7; JNull]).
Proof.
  cbv zeta.
  set (w := LoadTwice.installed None).
  set (fresh := Sample.boot (disk (snd (pluginCache_set (Some "p") "token"
                                          (JArr [JNum 7; JUndefined]) w)))).
  set (p := descriptor "/plugins" (Sample.manifest "p" "1.0.0" None [])).
  assert (Hrun : _readLocalPlugins fresh
                 = (Ok {| plugins := [p]; versions := [("p", "1.0.0")] |},
                    snd (_readLocalPlugins fresh)))
    by (vm_compute; reflexivity).
  exact (plugin_cache_survives_restart w (Some "p") "token" (JArr [JNum 7; JUndefined])
           fresh _ _ eq_refl ltac:(discriminate)
           ltac:(vm_compute; constructor) ltac:(vm_compute; constructor)
           eq_refl Hrun).
Defined.
